(** * Booking analytics pipeline of the train-booking backend

    A shallow embedding of [backend/app/routers/analytics.py] together with
    the part of [backend/app/models.py] its query reads.

    Modelling conventions.
    - A [datetime.date] is its proleptic Gregorian ordinal (an integer, as
      [date.toordinal] gives it); [date - timedelta(days=n)] is integer
      subtraction and [date.today()] is an explicit argument [today].
    - Table columns are populated: a dangling foreign key plays the part of
      a NULL one, both never join.
    - [amount_paid] is an integer column; sums are unbounded integers.
    - A [float] is the rational number it stands for ([Q]).  A float
      division or multiplication gives the binary64 number nearest to the
      exact result, halves to the even mantissa ([Float64.binary64]);
      integers convert to floats without rounding (they stay below 2^53),
      and no result leaves the range of the normal numbers.
    - The DataFrame is the list of its rows.  The query has no ORDER BY:
      the order of the list stands for whatever order the store returns,
      and no view depends on it ([row_order_irrelevant]).
    - The pandas primitives the module calls ([groupby], [agg],
      [nlargest], [value_counts], [round]) are defined in [Module Pandas]
      after their documented behaviour.  Among rows of equal metric
      [nlargest] here keeps the earlier ones; pandas leaves that order to
      its sort, and the ranking values returned do not depend on it
      ([nlargest_metric_values]). *)

From Stdlib Require Import ZArith QArith Qround Qabs Qpower Lia Lqa.
From stdpp Require Import base decidable list sorting gmap strings.

Local Open Scope Z_scope.

(** ** Calendar dates *)

Module Calendar.

Definition Date := Z.

(** [timedelta(days=n)] subtracted from a date. *)
Definition minus_days (d : Date) (n : Z) : Date := d - n.

Definition days_before_month (m : Z) : Z :=
  match m with
  | 1 => 0 | 2 => 31 | 3 => 59 | 4 => 90 | 5 => 120 | 6 => 151
  | 7 => 181 | 8 => 212 | 9 => 243 | 10 => 273 | 11 => 304 | _ => 334
  end.

Definition days_in_month (m : Z) : Z :=
  match m with
  | 2 => 28
  | 4 | 6 | 9 | 11 => 30
  | _ => 31
  end.

(** Ordinal to (year, month, day), the way [datetime] does it. *)
Definition ord2ymd (ordinal : Date) : Z * Z * Z :=
  let n := ordinal - 1 in
  let n400 := n / 146097 in
  let n := n mod 146097 in
  let n100 := n / 36524 in
  let n := n mod 36524 in
  let n4 := n / 1461 in
  let n := n mod 1461 in
  let n1 := n / 365 in
  let n := n mod 365 in
  let year := n400 * 400 + 1 + n100 * 100 + n4 * 4 + n1 in
  if (n1 =? 4) || (n100 =? 4) then (year - 1, 12, 31)
  else
    let leapyear := (n1 =? 3) && (negb (n4 =? 24) || (n100 =? 3)) in
    let leap_after (m : Z) := if (2 <? m) && leapyear then 1 else 0 in
    let month := Z.shiftr (n + 50) 5 in
    let preceding := days_before_month month + leap_after month in
    if n <? preceding then
      let month' := month - 1 in
      let preceding' :=
        preceding
        - (days_in_month month' + (if (month' =? 2) && leapyear then 1 else 0)) in
      (year, month', n - preceding' + 1)
    else (year, month, n - preceding + 1).

Definition digit (n : Z) : Ascii.ascii :=
  Ascii.ascii_of_nat (48 + Z.to_nat (n mod 10)).

Definition pad2 (n : Z) : string :=
  String (digit (n / 10)) (String (digit n) EmptyString).

Definition pad4 (n : Z) : string :=
  String (digit (n / 1000)) (String (digit (n / 100)) (pad2 n)).

(** [strftime('%Y-%m-%d')]. *)
Definition strftime (d : Date) : string :=
  let '(y, m, dd) := ord2ymd d in
  pad4 y +:+ "-" +:+ pad2 m +:+ "-" +:+ pad2 dd.

End Calendar.

Import Calendar.

(** ** The tables the query reads ([models.py]) *)

Record TrainStation := mkTrainStation {
  ts_id : Z;
  station_name : string
}.

Record TrainJourney := mkTrainJourney {
  tj_id : Z;
  tj_schedule_id : Z;
  tj_name : string
}.

Record CarriageClass := mkCarriageClass {
  cc_id : Z;
  cc_class_name : string;
  seating_capacity : Z
}.

Record BookingStatus := mkBookingStatus {
  bs_id : Z;
  bs_name : string
}.

Record Passenger := mkPassenger {
  p_id : Z;
  p_first_name : string;
  p_last_name : string;
  p_email_address : string;
  password : string
}.

Record Booking := mkBooking {
  b_id : Z;
  passenger_id : Z;
  status_id : Z;
  b_booking_date : Date;
  starting_station_id : Z;
  ending_station_id : Z;
  train_journey_id : Z;
  ticket_class_id : Z;
  b_amount_paid : Z;
  b_ticket_no : Z;
  b_seat_no : string
}.

Record Database := mkDatabase {
  booking : list Booking;
  train_station : list TrainStation;
  carriage_class : list CarriageClass;
  booking_status : list BookingStatus;
  passenger : list Passenger;
  train_journey : list TrainJourney
}.

(** ** Rows of the DataFrame *)

(** One row of the query's result: the thirteen selected columns. *)
Record QueryRow := mkQueryRow {
  id : Z;
  booking_date : Date;
  amount_paid : Z;
  ticket_no : Z;
  seat_no : string;
  origin_station : string;
  destination_station : string;
  class_name : string;
  status : string;
  first_name : string;
  last_name : string;
  email_address : string;
  journey_name : string
}.

(** A row after the two derived columns were added. *)
Record Row := mkRow {
  columns :> QueryRow;
  route : string;
  passenger_name : string
}.

Definition DataFrame := list Row.

(** ** Helper functions *)

Definition get_date_range (today : Date) (days : Z) : Date * Date :=
  let end_date := today in
  let start_date := minus_days end_date days in
  (start_date, end_date).

(** [x BETWEEN lo AND hi] *)
Definition between (x lo hi : Date) : bool := (lo <=? x) && (x <=? hi).

(** The join of the query, before its WHERE clause: every booking is paired
    with the rows of the six joined tables its foreign keys select.  The
    rows come in the order of the booking table; the store may return them
    in any other. *)
Definition joined (db : Database) : list QueryRow :=
  b ← booking db;
  s1 ← filter (λ s, starting_station_id b = ts_id s) (train_station db);
  s2 ← filter (λ s, ending_station_id b = ts_id s) (train_station db);
  cc ← filter (λ c, ticket_class_id b = cc_id c) (carriage_class db);
  bs ← filter (λ s, status_id b = bs_id s) (booking_status db);
  p ← filter (λ p, passenger_id b = p_id p) (passenger db);
  tj ← filter (λ j, train_journey_id b = tj_id j) (train_journey db);
  mret (mkQueryRow (b_id b) (b_booking_date b) (b_amount_paid b)
          (b_ticket_no b) (b_seat_no b)
          (station_name s1) (station_name s2) (cc_class_name cc) (bs_name bs)
          (p_first_name p) (p_last_name p) (p_email_address p) (tj_name tj)).

(** [pd.read_sql(query, ...)] with its two parameters.  The conversion of
    the [booking_date] column by [pd.to_datetime] keeps the calendar date
    and leaves the ordinal as it is. *)
Definition read_sql (db : Database) (start_date end_date : Date)
  : list QueryRow :=
  filter (λ r, Is_true (between (booking_date r) start_date end_date))
         (joined db).

(** The separator the source writes between the two station names: a space,
    U+00E2, U+2020, U+2019, a space (in UTF-8). *)
Definition route_separator : string :=
  String.string_of_list_ascii
    (map Ascii.ascii_of_nat [32; 195; 162; 226; 128; 160; 226; 128; 153; 32]%nat).

(** A space, the arrow U+2192, a space (in UTF-8). *)
Definition arrow_separator : string :=
  String.string_of_list_ascii (map Ascii.ascii_of_nat [32; 226; 134; 146; 32]%nat).

Definition add_derived (r : QueryRow) : Row :=
  mkRow r
    (origin_station r +:+ route_separator +:+ destination_station r)
    (first_name r +:+ " " +:+ last_name r).

(** The three column assignments that follow the query. *)
Definition enrich (rows : list QueryRow) : DataFrame := map add_derived rows.

Definition get_bookings_df (today : Date) (db : Database)
    (start_date end_date : option Date) : DataFrame :=
  let '(start_date, end_date) :=
    match start_date, end_date with
    | Some s, Some e => (s, e)
    | _, _ => get_date_range today 30
    end in
  enrich (read_sql db start_date end_date).

(** ** Floating-point numbers *)

Module Float64.

(** [np.rint]: rounding to the nearest integer, halves to the even
    neighbour. *)
Definition round_half_even (q : Q) : Z :=
  let f := Qfloor q in
  match (q - inject_Z f ?= 1 # 2)%Q with
  | Lt => f
  | Gt => f + 1
  | Eq => if Z.even f then f else f + 1
  end.

(** The binary exponent of a positive rational: [2 ^ ilog2 q <= q] and
    [q < 2 ^ (ilog2 q + 1)]. *)
Definition ilog2 (q : Q) : Z :=
  let e0 := Z.log2 (Qnum q) - Z.log2 (Zpos (Qden q)) in
  if Qle_bool (2 ^ e0) q then e0 else e0 - 1.

(** The nearest number with a mantissa of 53 bits, for a positive [q]. *)
Definition round_pos (q : Q) : Q :=
  let ulp := (2 ^ (ilog2 q - 52))%Q in
  Qred (inject_Z (round_half_even (q / ulp)) * ulp).

(** Rounding to binary64, to nearest, ties to even. *)
Definition binary64 (q : Q) : Q :=
  match (q ?= 0)%Q with
  | Eq => 0%Q
  | Gt => round_pos q
  | Lt => (- round_pos (- q))%Q
  end.

(** Float division and multiplication. *)
Definition fdiv (x y : Q) : Q := binary64 (x / y).

Definition fmul (x y : Q) : Q := binary64 (x * y).

End Float64.

Import Float64.

(** ** The pandas primitives the module uses *)

Module Pandas.

(** Group keys are compared with a decidable order. *)
Class KeyOrder (K : Type) := {
  key_le : relation K;
  key_le_dec :: RelDecision key_le
}.

#[export] Instance string_KeyOrder : KeyOrder string :=
  {| key_le := String.le |}.

#[export] Instance Z_KeyOrder : KeyOrder Z :=
  {| key_le := Z.le |}.

(** Tuples of keys are ordered lexicographically. *)
Definition prod_le {K1 K2} `{KeyOrder K1, KeyOrder K2, EqDecision K1}
    (x y : K1 * K2) : Prop :=
  key_le x.1 y.1 ∧ (x.1 = y.1 → key_le x.2 y.2).

#[export] Instance prod_le_dec {K1 K2}
  `{KeyOrder K1, KeyOrder K2, EqDecision K1}
  : RelDecision (@prod_le K1 K2 _ _ _) :=
  λ x y, decide (key_le x.1 y.1 ∧ (x.1 = y.1 → key_le x.2 y.2)).

#[export] Instance prod_KeyOrder {K1 K2}
  `{KeyOrder K1, KeyOrder K2, EqDecision K1} : KeyOrder (K1 * K2) :=
  {| key_le := prod_le |}.

Section groupby.
Context {A K : Type} `{KeyOrder K, EqDecision K}.

(** The distinct keys, in ascending order ([sort=True]). *)
Definition group_keys (key : A → K) (df : list A) : list K :=
  merge_sort key_le (remove_dups (key <$> df)).

(** [df.groupby(key)]: one group per distinct key, each holding the rows
    of that key in their order in [df]. *)
Definition groupby (key : A → K) (df : list A) : list (K * list A) :=
  (λ k, (k, filter (λ r, key r = k) df)) <$> group_keys key df.
End groupby.

(** The aggregations ['count'], ['sum'] and ['mean'] of a column. *)
Definition count {A} (col : list A) : Z := Z.of_nat (length col).

Definition sum (col : list Z) : Z := foldr Z.add 0 col.

(** The mean of an integer column is the float quotient of its sum and
    its length. *)
Definition mean (col : list Z) : Q :=
  fdiv (inject_Z (sum col)) (inject_Z (count col)).

Section nlargest.
Context {A : Type} (metric : A → Z).

Fixpoint insert_desc (x : A) (l : list A) : list A :=
  match l with
  | [] => [x]
  | y :: l' =>
      if metric x <? metric y then y :: insert_desc x l' else x :: l
  end.

(** Stable sort, largest metric first.  The order it gives to rows of
    equal metric is one of those a sort may give. *)
Definition sort_desc (l : list A) : list A := foldr insert_desc [] l.

(** [nlargest(n, metric)] with [keep='first']: the first [n] rows in
    descending order of the metric, earlier rows first among equals.
    When [n] is not below the number of rows pandas sorts the whole table
    and may order rows of equal metric otherwise; the rows returned are
    then the same, and so are the metric values in every case. *)
Definition nlargest (n : nat) (l : list A) : list A :=
  take n (sort_desc l).
End nlargest.

(** [series.value_counts().to_dict()] *)
Definition value_counts (col : list string) : gmap string Z :=
  list_to_map ((λ k, (k, count (filter (λ x, x = k) col))) <$> remove_dups col).

(** [series.round(decimals)] on floats, as numpy does it: scale by the
    power of ten, round to the nearest integer, scale back. *)
Definition round (decimals : nat) (q : Q) : Q :=
  let scale := inject_Z (10 ^ Z.of_nat decimals) in
  fdiv (inject_Z (round_half_even (fmul q scale))) scale.

End Pandas.

Import Pandas.

(** ** Response schemas ([schemas.py]) *)

Module BookingStatsResponse.
Record t := mk {
  total_bookings : Z;
  total_revenue : Q;
  average_booking_value : Q;
  bookings_by_status : gmap string Z;
  bookings_by_class : gmap string Z
}.
End BookingStatsResponse.

Module RevenueStatsResponse.
(** The three kinds of dict the lists hold. *)
Record by_date := mk_by_date { date : string; date_revenue : Z }.
Record by_class := mk_by_class { class : string; class_revenue : Z }.
Record by_route := mk_by_route { route : string; route_revenue : Z }.
Record t := mk {
  total_revenue : Q;
  revenue_by_date : list by_date;
  revenue_by_class : list by_class;
  revenue_by_route : list by_route
}.
End RevenueStatsResponse.

Module PopularRouteResponse.
Record t := mk {
  origin : string;
  destination : string;
  booking_count : Z;
  total_revenue : Q;
  average_price : Q
}.
End PopularRouteResponse.

Module DailyBookingTrendResponse.
Record t := mk {
  date : string;
  booking_count : Z;
  revenue : Q
}.
End DailyBookingTrendResponse.

Module ClassDistributionResponse.
Record t := mk {
  class_name : string;
  booking_count : Z;
  revenue : Q;
  percentage : Q
}.
End ClassDistributionResponse.

Module AnalyticsDashboardResponse.
Record t := mk {
  overview : BookingStatsResponse.t;
  daily_trends : list DailyBookingTrendResponse.t;
  popular_routes : list PopularRouteResponse.t;
  class_distribution : list ClassDistributionResponse.t
}.
End AnalyticsDashboardResponse.

(** The dicts of the two endpoints without a response model. *)
Module TopSpender.
Record t := mk {
  name : string;
  email : string;
  total_bookings : Z;
  total_spent : Q
}.
End TopSpender.

Module JourneyPerformance.
Record t := mk {
  journey_name : string;
  total_bookings : Z;
  total_revenue : Q;
  average_booking_value : Q
}.
End JourneyPerformance.

(** ** Aggregation views

    Each endpoint loads the DataFrame and aggregates it; the aggregation is
    written as a function of the DataFrame ([booking_statistics], ...) and
    the endpoint ([get_booking_statistics], ...) composes it with the
    loader. *)

Definition amounts (g : list Row) : list Z := (λ r : Row, amount_paid r) <$> g.

(** *** Booking statistics *)

Definition booking_statistics (df : DataFrame) : BookingStatsResponse.t :=
  match df with
  | [] => BookingStatsResponse.mk 0 0 0 ∅ ∅
  | _ =>
      BookingStatsResponse.mk
        (count df)
        (inject_Z (sum (amounts df)))
        (mean (amounts df))
        (value_counts ((λ r : Row, status r) <$> df))
        (value_counts ((λ r : Row, class_name r) <$> df))
  end.

Definition get_booking_statistics (today : Date) (db : Database)
    (start_date end_date : option Date) : BookingStatsResponse.t :=
  booking_statistics (get_bookings_df today db start_date end_date).

(** *** Revenue analytics *)

Definition revenue_statistics (df : DataFrame) : RevenueStatsResponse.t :=
  match df with
  | [] => RevenueStatsResponse.mk 0 [] [] []
  | _ =>
      let revenue_by_date :=
        (λ '(d, g), (d, sum (amounts g))) <$> groupby (λ r : Row, booking_date r) df in
      let revenue_by_date_list :=
        (λ '(d, s), RevenueStatsResponse.mk_by_date (strftime d) s)
          <$> revenue_by_date in
      let revenue_by_class :=
        (λ '(c, g), (c, sum (amounts g))) <$> groupby (λ r : Row, class_name r) df in
      let revenue_by_class_list :=
        (λ '(c, s), RevenueStatsResponse.mk_by_class c s)
          <$> revenue_by_class in
      let revenue_by_route :=
        nlargest snd 10
          ((λ '(rt, g), (rt, sum (amounts g))) <$> groupby route df) in
      let revenue_by_route_list :=
        (λ '(rt, s), RevenueStatsResponse.mk_by_route rt s)
          <$> revenue_by_route in
      RevenueStatsResponse.mk
        (inject_Z (sum (amounts df)))
        revenue_by_date_list
        revenue_by_class_list
        revenue_by_route_list
  end.

Definition get_revenue_statistics (today : Date) (db : Database)
    (start_date end_date : option Date) : RevenueStatsResponse.t :=
  revenue_statistics (get_bookings_df today db start_date end_date).

(** *** Popular routes *)

(** A row of [route_stats] after its columns were renamed. *)
Record RouteStat := mkRouteStat {
  rs_origin : string;
  rs_destination : string;
  rs_route : string;
  rs_booking_count : Z;
  rs_total_revenue : Z;
  rs_average_price : Q
}.

Definition route_key (r : Row) : string * string * string :=
  (origin_station r, destination_station r, route r).

Definition route_stats (df : DataFrame) : list RouteStat :=
  (λ '((o, d, rt), g),
     mkRouteStat o d rt (count g) (sum (amounts g)) (mean (amounts g)))
    <$> groupby route_key df.

Definition to_PopularRouteResponse (row : RouteStat) : PopularRouteResponse.t :=
  PopularRouteResponse.mk
    (rs_origin row)
    (rs_destination row)
    (rs_booking_count row)
    (inject_Z (rs_total_revenue row))
    (rs_average_price row).

Definition popular_routes (limit : nat) (df : DataFrame)
  : list PopularRouteResponse.t :=
  match df with
  | [] => []
  | _ =>
      to_PopularRouteResponse
        <$> nlargest rs_booking_count limit (route_stats df)
  end.

Definition get_popular_routes (today : Date) (db : Database) (limit : nat)
    (start_date end_date : option Date) : list PopularRouteResponse.t :=
  popular_routes limit (get_bookings_df today db start_date end_date).

(** *** Daily trends *)

Definition daily_stats (df : DataFrame) : list (Date * Z * Z) :=
  (λ '(d, g), (d, count g, sum (amounts g))) <$> groupby (λ r : Row, booking_date r) df.

Definition daily_booking_trends (df : DataFrame)
  : list DailyBookingTrendResponse.t :=
  match df with
  | [] => []
  | _ =>
      (λ '(d, n, s), DailyBookingTrendResponse.mk (strftime d) n (inject_Z s))
        <$> daily_stats df
  end.

Definition get_daily_booking_trends (today : Date) (db : Database) (days : Z)
  : list DailyBookingTrendResponse.t :=
  let end_date := today in
  let start_date := minus_days end_date days in
  daily_booking_trends (get_bookings_df today db (Some start_date) (Some end_date)).

(** *** Class distribution *)

Definition class_stats (df : DataFrame) : list (string * Z * Z) :=
  (λ '(c, g), (c, count g, sum (amounts g))) <$> groupby (λ r : Row, class_name r) df.

Definition percentage_of (n total_bookings : Z) : Q :=
  round 2 (fmul (fdiv (inject_Z n) (inject_Z total_bookings)) 100).

Definition class_distribution (df : DataFrame)
  : list ClassDistributionResponse.t :=
  match df with
  | [] => []
  | _ =>
      let stats := class_stats df in
      let total_bookings := sum ((λ '(_, n, _), n) <$> stats) in
      (λ '(c, n, s),
         (ClassDistributionResponse.mk c n (inject_Z s)
            (percentage_of n total_bookings)))
        <$> stats
  end.

Definition get_class_distribution (today : Date) (db : Database)
    (start_date end_date : option Date) : list ClassDistributionResponse.t :=
  class_distribution (get_bookings_df today db start_date end_date).

(** *** Comprehensive dashboard *)

(** The composer reads the date itself, [get_daily_booking_trends] reads
    it again, and each of the four views runs a query of its own.
    [dashboard_run] takes the two dates read ([today] by the composer,
    [today_trends] by the daily trends) and the four states of the store
    that the four queries see. *)
Definition dashboard_run (today today_trends : Date)
    (db_overview db_trends db_routes db_classes : Database) (days : Z)
  : AnalyticsDashboardResponse.t :=
  let end_date := today in
  let start_date := minus_days end_date days in
  let overview :=
    get_booking_statistics today db_overview (Some start_date) (Some end_date) in
  let daily_trends := get_daily_booking_trends today_trends db_trends days in
  let popular_routes :=
    get_popular_routes today db_routes 10 (Some start_date) (Some end_date) in
  let class_distribution :=
    get_class_distribution today db_classes (Some start_date) (Some end_date) in
  AnalyticsDashboardResponse.mk
    overview daily_trends popular_routes class_distribution.

(** The dashboard of a request during which neither the date nor the
    store changes. *)
Definition get_analytics_dashboard (today : Date) (db : Database) (days : Z)
  : AnalyticsDashboardResponse.t :=
  dashboard_run today today db db db db days.

(** *** Passenger analytics *)

Definition passenger_stats (df : DataFrame) : list (string * string * Z * Z) :=
  (λ '((nm, em), g), (nm, em, count g, sum (amounts g)))
    <$> groupby (λ r : Row, (passenger_name r, email_address r)) df.

Definition top_spending_passengers (limit : nat) (df : DataFrame)
  : list TopSpender.t :=
  match df with
  | [] => []
  | _ =>
      (λ '(nm, em, n, s), TopSpender.mk nm em n (inject_Z s))
        <$> nlargest snd limit (passenger_stats df)
  end.

Definition get_top_spending_passengers (today : Date) (db : Database)
    (limit : nat) (start_date end_date : option Date) : list TopSpender.t :=
  top_spending_passengers limit (get_bookings_df today db start_date end_date).

(** *** Journey analytics *)

Definition journey_stats (df : DataFrame) : list (string * Z * Z * Q) :=
  (λ '(j, g), (j, count g, sum (amounts g), mean (amounts g)))
    <$> groupby (λ r : Row, journey_name r) df.

Definition journey_performance (limit : nat) (df : DataFrame)
  : list JourneyPerformance.t :=
  match df with
  | [] => []
  | _ =>
      (λ '(j, n, s, m), JourneyPerformance.mk j n (inject_Z s) m)
        <$> nlargest (λ x, x.1.1.2) limit (journey_stats df)
  end.

Definition get_journey_performance (today : Date) (db : Database)
    (limit : nat) (start_date end_date : option Date)
  : list JourneyPerformance.t :=
  journey_performance limit (get_bookings_df today db start_date end_date).

(** * Vocabulary of the properties *)

Class KeyOrderLaws (K : Type) `{KeyOrder K} := {
  key_le_po :: PartialOrder (key_le (K:=K));
  key_le_total :: Total (key_le (K:=K))
}.

(** The weights of the rows of one key, added up. *)
Definition group_total {A K : Type} `{EqDecision K}
    (key : A → K) (w : A → Z) (df : list A) (k : K) : Z :=
  sum (w <$> filter (λ r, key r = k) df).

(** [desc metric x y]: [x] may come before [y] in descending order. *)
Definition desc {A : Type} (metric : A → Z) (x y : A) : Prop :=
  metric y ≤ metric x.

(** The bookings of one (origin, destination) pair. *)
Definition rows_of_route (o d : string) (df : DataFrame) : list Row :=
  filter (λ r : Row, origin_station r = o ∧ destination_station r = d) df.

Definition row_pair (r : Row) : string * string :=
  (origin_station r, destination_station r).

Definition entry_pair (e : PopularRouteResponse.t) : string * string :=
  (PopularRouteResponse.origin e, PopularRouteResponse.destination e).

Definition stat_pair (s : RouteStat) : string * string :=
  (rs_origin s, rs_destination s).

(** The rows one booking joins to. *)
Definition record_rows (db : Database) (b : Booking) : list QueryRow :=
  s1 ← filter (λ s, starting_station_id b = ts_id s) (train_station db);
  s2 ← filter (λ s, ending_station_id b = ts_id s) (train_station db);
  cc ← filter (λ c, ticket_class_id b = cc_id c) (carriage_class db);
  bs ← filter (λ s, status_id b = bs_id s) (booking_status db);
  p ← filter (λ p, passenger_id b = p_id p) (passenger db);
  tj ← filter (λ j, train_journey_id b = tj_id j) (train_journey db);
  mret (mkQueryRow (b_id b) (b_booking_date b) (b_amount_paid b)
          (b_ticket_no b) (b_seat_no b)
          (station_name s1) (station_name s2) (cc_class_name cc) (bs_name bs)
          (p_first_name p) (p_last_name p) (p_email_address p) (tj_name tj)).

(** [booking_record db b q]: [q] is the denormalized record of booking [b],
    put together from the station, class, status, passenger and journey
    rows its foreign keys name. *)
Definition booking_record (db : Database) (b : Booking) (q : QueryRow) : Prop :=
  ∃ s1 s2 cc bs p tj,
    s1 ∈ train_station db ∧ starting_station_id b = ts_id s1 ∧
    s2 ∈ train_station db ∧ ending_station_id b = ts_id s2 ∧
    cc ∈ carriage_class db ∧ ticket_class_id b = cc_id cc ∧
    bs ∈ booking_status db ∧ status_id b = bs_id bs ∧
    p ∈ passenger db ∧ passenger_id b = p_id p ∧
    tj ∈ train_journey db ∧ train_journey_id b = tj_id tj ∧
    q = mkQueryRow (b_id b) (b_booking_date b) (b_amount_paid b)
          (b_ticket_no b) (b_seat_no b)
          (station_name s1) (station_name s2) (cc_class_name cc) (bs_name bs)
          (p_first_name p) (p_last_name p) (p_email_address p) (tj_name tj).

(** Referential integrity: ids are unique in the joined tables and every
    foreign key of every booking names a row. *)
Record integrity (db : Database) : Prop := {
  station_ids : NoDup (ts_id <$> train_station db);
  class_ids : NoDup (cc_id <$> carriage_class db);
  status_ids : NoDup (bs_id <$> booking_status db);
  passenger_ids : NoDup (p_id <$> passenger db);
  journey_ids : NoDup (tj_id <$> train_journey db);
  keys_resolve : ∀ b, b ∈ booking db →
    starting_station_id b ∈ ts_id <$> train_station db ∧
    ending_station_id b ∈ ts_id <$> train_station db ∧
    ticket_class_id b ∈ cc_id <$> carriage_class db ∧
    status_id b ∈ bs_id <$> booking_status db ∧
    passenger_id b ∈ p_id <$> passenger db ∧
    train_journey_id b ∈ tj_id <$> train_journey db
}.

Definition in_range (d start_date end_date : Date) : Prop :=
  start_date ≤ d ≤ end_date.

#[export] Instance in_range_dec d s e : Decision (in_range d s e) :=
  decide (s ≤ d ≤ e).

(** A booking of Ann Lee from "A" to "B". *)
Definition booking_ab : QueryRow :=
  mkQueryRow 1 738960 100 11 "1A" "A" "B" "First" "Confirmed"
    "Ann" "Lee" "ann@example.org" "Morning".

(** A booking of Bob Ray on the same route, a day later. *)
Definition booking_ab' : QueryRow :=
  mkQueryRow 2 738961 200 12 "1B" "A" "B" "First" "Confirmed"
    "Bob" "Ray" "bob@example.org" "Morning".

(** A booking that varies in date, route and amount only. *)
Definition sample_row (d : Date) (o dst : string) (amount : Z) : QueryRow :=
  mkQueryRow 0 d amount 0 "1A" o dst "First" "Confirmed"
    "Ann" "Lee" "ann@example.org" "Morning".

(** A store with a single booking, dated 2024-03-15. *)
Definition one_booking_db : Database :=
  mkDatabase
    [mkBooking 1 1 1 738960 1 2 1 1 100 11 "1A"]
    [mkTrainStation 1 "A"; mkTrainStation 2 "B"]
    [mkCarriageClass 1 "First" 40]
    [mkBookingStatus 1 "Confirmed"]
    [mkPassenger 1 "Ann" "Lee" "ann@example.org" "secret"]
    [mkTrainJourney 1 1 "Morning"].

(** The four views of the dashboard on one frame. *)
Definition dashboard_on (df : DataFrame) : AnalyticsDashboardResponse.t :=
  AnalyticsDashboardResponse.mk
    (booking_statistics df)
    (daily_booking_trends df)
    (popular_routes 10 df)
    (class_distribution df).

(** The frame of the bookings dated in [start_date, end_date], both ends
    included. *)
Definition closed_window (db : Database) (start_date end_date : Date)
  : DataFrame :=
  enrich (filter (λ q, start_date ≤ booking_date q ≤ end_date) (joined db)).

(** The frame of the bookings dated in [start_date, end_date), the end
    excluded. *)
Definition half_open_window (db : Database) (start_date end_date : Date)
  : DataFrame :=
  enrich (filter (λ q, start_date ≤ booking_date q < end_date) (joined db)).

(** The bookings of one date. *)
Definition rows_of_date (d : Date) (df : DataFrame) : list Row :=
  filter (λ r : Row, booking_date r = d) df.

(** The sum of a list of rationals. *)
Definition Qsum (l : list Q) : Q := foldr Qplus 0%Q l.

(** The bookings of one carriage class. *)
Definition rows_of_class (c : string) (df : DataFrame) : list Row :=
  filter (λ r : Row, class_name r = c) df.

Definition class_entry (df : DataFrame) (c : string)
  : ClassDistributionResponse.t :=
  let n := count (rows_of_class c df) in
  ClassDistributionResponse.mk c n
    (inject_Z (sum (amounts (rows_of_class c df))))
    (percentage_of n (count df)).

Definition class_counts (df : DataFrame) : list Z :=
  (λ c, count (rows_of_class c df)) <$> group_keys (λ r : Row, class_name r) df.

(** The values of a mapping of counts, added up. *)
Definition map_total (m : gmap string Z) : Z := sum (snd <$> map_to_list m).

(** The bookings of one status. *)
Definition rows_of_status (s : string) (df : DataFrame) : list Row :=
  filter (λ r : Row, status r = s) df.

(** The grouping key of the top spenders. *)
Definition passenger_key (r : Row) : string * string :=
  (passenger_name r, email_address r).

Definition spender_key (e : TopSpender.t) : string * string :=
  (TopSpender.name e, TopSpender.email e).

(** The bookings of one passenger. *)
Definition rows_of_passenger (nm em : string) (df : DataFrame) : list Row :=
  filter (λ r : Row, passenger_key r = (nm, em)) df.

(** The bookings of one journey. *)
Definition rows_of_journey (j : string) (df : DataFrame) : list Row :=
  filter (λ r : Row, journey_name r = j) df.

(** The bookings of one route label. *)
Definition rows_of_label (rt : string) (df : DataFrame) : list Row :=
  filter (λ r : Row, route r = rt) df.

(** A booking one of whose foreign keys names no row. *)
Definition dangling (db : Database) (b : Booking) : Prop :=
  starting_station_id b ∉ ts_id <$> train_station db ∨
  ending_station_id b ∉ ts_id <$> train_station db ∨
  ticket_class_id b ∉ cc_id <$> carriage_class db ∨
  status_id b ∉ bs_id <$> booking_status db ∨
  passenger_id b ∉ p_id <$> passenger db ∨
  train_journey_id b ∉ tj_id <$> train_journey db.

(** The store with another booking table. *)
Definition with_bookings (db : Database) (l : list Booking) : Database :=
  mkDatabase l (train_station db) (carriage_class db) (booking_status db)
    (passenger db) (train_journey db).

(** A booking of [one_booking_db]'s passenger from a station that is in no
    table. *)
Definition stray_booking : Booking :=
  mkBooking 2 1 1 738960 99 2 1 1 250 12 "2B".

(** Primary keys are unique in the five joined tables. *)
Record unique_ids (db : Database) : Prop := {
  unique_station_ids : NoDup (ts_id <$> train_station db);
  unique_class_ids : NoDup (cc_id <$> carriage_class db);
  unique_status_ids : NoDup (bs_id <$> booking_status db);
  unique_passenger_ids : NoDup (p_id <$> passenger db);
  unique_journey_ids : NoDup (tj_id <$> train_journey db)
}.

(** The bookings of the table dated within [start_date, end_date]. *)
Definition bookings_in_range (db : Database) (start_date end_date : Date)
  : list Booking :=
  filter (λ b, in_range (b_booking_date b) start_date end_date) (booking db).

(** The share of [n] in [total], in percent, as an exact rational. *)
Definition exact_share (n total : Z) : Q :=
  (inject_Z n / inject_Z total * 100)%Q.

(** Rounding to two decimals in exact arithmetic, halves to even. *)
Definition exact_round2 (q : Q) : Q :=
  (inject_Z (round_half_even (q * 100)) / 100)%Q.

(** Half a hundredth, and room for the four roundings of the float
    computation of a percentage. *)
Definition percentage_tolerance : Q := (1 # 200) + (1 # 10000000000000).

(** A booking that varies in its class only. *)
Definition class_row (c : string) : QueryRow :=
  mkQueryRow 0 738960 100 0 "1A" "A" "B" c "Confirmed"
    "Ann" "Lee" "ann@example.org" "Morning".

(** [dated_record db d q]: [q] is the denormalized record of a booking of
    the store that is dated [d]. *)
Definition dated_record (db : Database) (d : Date) (q : QueryRow) : Prop :=
  ∃ b, b ∈ booking db ∧ booking_record db b q ∧ b_booking_date b = d.

(** * Properties *)

(** ** Group keys form a total order *)

#[export] Instance string_KeyOrderLaws : KeyOrderLaws string.
Proof. split; apply _. Qed.

#[export] Instance Z_KeyOrderLaws : KeyOrderLaws Z.
Proof. split; apply _. Qed.

#[export] Instance prod_KeyOrderLaws {K1 K2}
  `{KeyOrderLaws K1, KeyOrderLaws K2, EqDecision K1} : KeyOrderLaws (K1 * K2).
Proof.
  split; [split; [split|]|]; simpl; unfold prod_le.
  - intros [a b]; simpl. split; reflexivity.
  - intros [a1 b1] [a2 b2] [a3 b3]; simpl. intros [Ha Hb] [Ha' Hb'].
    split; [by etrans|]. intros ->.
    assert (a2 = a3) as -> by (by apply (anti_symm key_le)).
    etrans; eauto.
  - intros [a1 b1] [a2 b2]; simpl. intros [Ha Hb] [Ha' Hb'].
    assert (a1 = a2) as -> by (by apply (anti_symm key_le)).
    f_equal. apply (anti_symm key_le); auto.
  - intros [a1 b1] [a2 b2]; simpl.
    destruct (decide (a1 = a2)) as [->|Hne].
    + destruct (total key_le b1 b2); [left|right]; split; auto; reflexivity.
    + destruct (total key_le a1 a2); [left|right]; split; auto; congruence.
Qed.

(** ** Grouping *)

Section groupby_facts.
Context {A K : Type} `{KeyOrderLaws K, EqDecision K}.
Implicit Types (key : A → K) (df : list A) (w : A → Z).

Lemma group_keys_Permutation key df :
  group_keys key df ≡ₚ remove_dups (key <$> df).
Proof. apply merge_sort_Permutation. Qed.

Lemma elem_of_group_keys key df k :
  k ∈ group_keys key df ↔ ∃ r, r ∈ df ∧ key r = k.
Proof.
  rewrite group_keys_Permutation, elem_of_remove_dups, list_elem_of_fmap.
  split; intros (r & H1 & H2); exists r; auto.
Qed.

Lemma NoDup_group_keys key df : NoDup (group_keys key df).
Proof. rewrite group_keys_Permutation. apply NoDup_remove_dups. Qed.

Lemma StronglySorted_group_keys key df :
  StronglySorted key_le (group_keys key df).
Proof. apply StronglySorted_merge_sort; apply _. Qed.

Lemma group_keys_nonempty key df : df ≠ [] → group_keys key df ≠ [].
Proof.
  destruct df as [|r df]; [done|]. intros _ Hnil.
  assert (key r ∈ group_keys key (r :: df)) as Hin.
  { apply elem_of_group_keys. exists r. split; [left|done]. }
  rewrite Hnil in Hin. by apply elem_of_nil in Hin.
Qed.

Lemma groupby_keys key df : (groupby key df).*1 = group_keys key df.
Proof.
  unfold groupby. rewrite <-list_fmap_compose.
  rewrite <-(list_fmap_id (group_keys key df)) at 2.
  by apply list_fmap_ext.
Qed.

Lemma elem_of_groupby key df k g :
  (k, g) ∈ groupby key df ↔
  k ∈ group_keys key df ∧ g = filter (λ r, key r = k) df.
Proof.
  unfold groupby. rewrite list_elem_of_fmap. split.
  - intros (k' & [= -> ->] & Hk). auto.
  - intros [Hk ->]. eauto.
Qed.

(** No group is empty. *)
Lemma groupby_nonempty key df k g : (k, g) ∈ groupby key df → g ≠ [].
Proof.
  rewrite elem_of_groupby, elem_of_group_keys.
  intros [(r & Hr & Hk) ->] Hnil.
  assert (r ∈ filter (λ r, key r = k) df) as Hin
    by (by apply list_elem_of_filter).
  rewrite Hnil in Hin. by apply elem_of_nil in Hin.
Qed.

Lemma group_total_cons key w r df k :
  group_total key w (r :: df) k =
  (if decide (key r = k) then w r else 0) + group_total key w df k.
Proof.
  unfold group_total. rewrite filter_cons.
  destruct (decide (key r = k)); [rewrite fmap_cons; simpl|]; lia.
Qed.

Lemma sum_cons (x : Z) (l : list Z) : sum (x :: l) = x + sum l.
Proof. reflexivity. Qed.

Lemma sum_indicator_notin (ks : list K) (k0 : K) (x : Z) :
  k0 ∉ ks → sum ((λ k, if decide (k0 = k) then x else 0) <$> ks) = 0.
Proof.
  induction ks as [|k ks IH]; [done|].
  intros [? ?]%not_elem_of_cons.
  rewrite fmap_cons, sum_cons, decide_False, IH by done. lia.
Qed.

Lemma sum_indicator (ks : list K) (k0 : K) (x : Z) :
  NoDup ks → k0 ∈ ks →
  sum ((λ k, if decide (k0 = k) then x else 0) <$> ks) = x.
Proof.
  induction 1 as [|k ks Hk Hnd IH]; intros Hin.
  - by apply elem_of_nil in Hin.
  - rewrite fmap_cons, sum_cons.
    destruct (decide (k0 = k)) as [Heq|Hne].
    + subst k0. rewrite sum_indicator_notin by done. lia.
    + apply elem_of_cons in Hin as [?|Hin]; [done|].
      rewrite IH by done. lia.
Qed.

(** Adding the per-group totals over a duplicate-free list of keys that
    covers the frame gives the total of the frame. *)
Lemma sum_group_total key w df (ks : list K) :
  NoDup ks → (∀ r, r ∈ df → key r ∈ ks) →
  sum (group_total key w df <$> ks) = sum (w <$> df).
Proof.
  intros Hnd. induction df as [|r df IH]; intros Hcov.
  - clear Hnd Hcov. induction ks as [|k ks IHk]; [done|].
    rewrite fmap_cons, sum_cons, IHk. reflexivity.
  - rewrite fmap_cons, sum_cons.
    rewrite <-IH by (intros; apply Hcov; by right).
    rewrite <-(sum_indicator ks (key r) (w r)) at 1
      by (auto; apply Hcov; left).
    clear IH Hcov Hnd. induction ks as [|k ks IHk]; [done|].
    rewrite !fmap_cons, !sum_cons, group_total_cons. lia.
Qed.

(** Aggregating each group with an additive measure and adding the
    results up gives the measure of the whole frame. *)
Lemma sum_groupby key w df :
  sum ((λ kg, sum (w <$> kg.2)) <$> groupby key df) = sum (w <$> df).
Proof.
  unfold groupby. rewrite <-list_fmap_compose.
  rewrite <-(sum_group_total key w df (group_keys key df)).
  - done.
  - apply NoDup_group_keys.
  - intros r Hr. apply elem_of_group_keys. eauto.
Qed.

Lemma count_as_sum (g : list A) : count g = sum ((λ _, 1) <$> g).
Proof.
  unfold count. induction g as [|r g IH]; [done|].
  rewrite fmap_cons, sum_cons, <-IH, length_cons. lia.
Qed.

Lemma count_groupby key df :
  sum ((λ kg, count kg.2) <$> groupby key df) = count df.
Proof.
  rewrite count_as_sum, <-(sum_groupby key).
  f_equal. apply list_fmap_ext. intros _ [k g] _. simpl. apply count_as_sum.
Qed.

End groupby_facts.

(** ** Top-n selection *)

Section nlargest_facts.
Context {A : Type} (metric : A → Z).
Implicit Types (x y : A) (l : list A) (n : nat).

Lemma insert_desc_Permutation x l : insert_desc metric x l ≡ₚ x :: l.
Proof.
  induction l as [|y l IH]; simpl; [done|].
  destruct (metric x <? metric y); [|done].
  rewrite IH. apply Permutation_swap.
Qed.

Lemma sort_desc_Permutation l : sort_desc metric l ≡ₚ l.
Proof.
  induction l as [|x l IH]; simpl; [done|].
  by rewrite insert_desc_Permutation, IH.
Qed.

Lemma insert_desc_sorted x l :
  StronglySorted (desc metric) l → StronglySorted (desc metric) (insert_desc metric x l).
Proof.
  induction 1 as [|y l Hl IH Hy]; simpl.
  - repeat constructor.
  - destruct (Z.ltb_spec (metric x) (metric y)) as [Hlt|Hge].
    + constructor; [done|].
      rewrite insert_desc_Permutation. constructor; [unfold desc; lia|done].
    + constructor; [by constructor|].
      constructor; [done|].
      eapply Forall_impl; [exact Hy|]. unfold desc. intros; lia.
Qed.

Lemma sort_desc_sorted l : StronglySorted (desc metric) (sort_desc metric l).
Proof.
  induction l as [|x l IH]; simpl; [constructor|].
  by apply insert_desc_sorted.
Qed.

Lemma nlargest_length n l : length (nlargest metric n l) = (n `min` length l)%nat.
Proof.
  unfold nlargest. by rewrite length_take, sort_desc_Permutation.
Qed.

Lemma nlargest_split n l :
  nlargest metric n l ++ drop n (sort_desc metric l) ≡ₚ l.
Proof. unfold nlargest. by rewrite take_drop, sort_desc_Permutation. Qed.

Lemma elem_of_nlargest n l x : x ∈ nlargest metric n l → x ∈ l.
Proof.
  intros Hx. rewrite <-(nlargest_split n l). apply elem_of_app. by left.
Qed.

Lemma nlargest_sorted n l : StronglySorted (desc metric) (nlargest metric n l).
Proof.
  apply (StronglySorted_app_1_l _ _ (drop n (sort_desc metric l))).
  unfold nlargest. rewrite take_drop. apply sort_desc_sorted.
Qed.

(** A row left out is no larger than any row kept. *)
Lemma nlargest_omitted n l x y :
  x ∈ l → x ∉ nlargest metric n l → y ∈ nlargest metric n l →
  metric x ≤ metric y.
Proof.
  intros Hx Hout Hy.
  rewrite <-(nlargest_split n l), elem_of_app in Hx.
  destruct Hx as [?|Hx]; [done|].
  apply (StronglySorted_app_1_elem_of (desc metric)
           (nlargest metric n l) (drop n (sort_desc metric l))); auto.
  unfold nlargest. rewrite take_drop. apply sort_desc_sorted.
Qed.

Lemma nlargest_fmap_NoDup {B} (f : A → B) n l :
  NoDup (f <$> l) → NoDup (f <$> nlargest metric n l).
Proof.
  intros Hnd. unfold nlargest. rewrite fmap_take.
  apply (sublist_NoDup _ (f <$> sort_desc metric l)); [|apply sublist_take].
  by rewrite sort_desc_Permutation.
Qed.

End nlargest_facts.

(** ** Rounding to binary64 *)

Lemma round_half_even_error (q : Q) :
  (Qabs (inject_Z (round_half_even q) - q) <= 1 # 2)%Q.
Proof.
  unfold round_half_even.
  pose proof (Qfloor_le q) as Hlo. pose proof (Qlt_floor q) as Hhi.
  rewrite inject_Z_plus in Hhi. change (inject_Z 1) with 1%Q in Hhi.
  apply Qabs_Qle_condition.
  destruct (q - inject_Z (Qfloor q) ?= 1 # 2)%Q eqn:Hc.
  - apply Qeq_alt in Hc.
    destruct (Z.even (Qfloor q)); rewrite ?inject_Z_plus;
      change (inject_Z 1) with 1%Q; split; lra.
  - apply Qlt_alt in Hc. split; lra.
  - apply Qgt_alt in Hc. rewrite inject_Z_plus.
    change (inject_Z 1) with 1%Q. split; lra.
Qed.

Lemma two_power_pos (e : Z) : (0 < 2 ^ e)%Q.
Proof. by apply Qpower_0_lt. Qed.

Lemma two_power_plus (a b : Z) : (2 ^ (a + b) == 2 ^ a * 2 ^ b)%Q.
Proof. by apply Qpower_plus. Qed.

Lemma two_power_inject (a : Z) : 0 ≤ a → (2 ^ a == inject_Z (2 ^ a))%Q.
Proof. intros Ha. by rewrite Zpower_Qpower. Qed.

(** [2 ^ ilog2 q] is a power of two that is not above [q]. *)
Lemma ilog2_le (q : Q) : (0 < q)%Q → (2 ^ ilog2 q <= q)%Q.
Proof.
  intros Hq. unfold ilog2. destruct q as [n d]. cbn [Qnum Qden].
  set (a := Z.log2 n). set (b := Z.log2 (Z.pos d)).
  destruct (Qle_bool (2 ^ (a - b)) (n # d)) eqn:Hb.
  - by apply Qle_bool_iff.
  - clear Hb.
    assert (0 < n) as Hn.
    { unfold Qlt in Hq. simpl in Hq. lia. }
    destruct (Z.log2_spec n Hn) as [Hlo _]. fold a in Hlo.
    destruct (Z.log2_spec (Z.pos d) (Pos2Z.is_pos d)) as [_ Hhi].
    fold b in Hhi. replace (Z.succ b) with (b + 1) in Hhi by lia.
    assert (0 ≤ a) as Ha by apply Z.log2_nonneg.
    assert (0 ≤ b) as Hb by apply Z.log2_nonneg.
    replace (a - b - 1) with (a + - (b + 1)) by lia.
    rewrite two_power_plus, Qpower_opp.
    rewrite (two_power_inject a Ha), (two_power_inject (b + 1)) by lia.
    rewrite (Qmake_Qdiv n d).
    assert (0 < 2 ^ (b + 1)) as Hpb by lia.
    assert (0 < inject_Z (2 ^ (b + 1)))%Q as HpbQ
      by (change 0%Q with (inject_Z 0); by rewrite <-Zlt_Qlt).
    assert (0 < inject_Z (Z.pos d))%Q as HdQ
      by (change 0%Q with (inject_Z 0); by rewrite <-Zlt_Qlt).
    change (inject_Z (2 ^ a) * / inject_Z (2 ^ (b + 1)))%Q
      with (inject_Z (2 ^ a) / inject_Z (2 ^ (b + 1)))%Q.
    apply Qle_shift_div_r; [done|].
    unfold Qdiv. rewrite <-Qmult_assoc, (Qmult_comm (/ _)), Qmult_assoc.
    apply Qle_shift_div_l; [done|].
    rewrite <-!inject_Z_mult, <-Zle_Qle. nia.
Qed.

Lemma round_pos_value (q : Q) :
  (round_pos q ==
   inject_Z (round_half_even (q / 2 ^ (ilog2 q - 52))) * 2 ^ (ilog2 q - 52))%Q.
Proof. unfold round_pos. apply Qred_correct. Qed.

Lemma round_pos_error (q : Q) :
  (0 < q)%Q → (Qabs (round_pos q - q) <= q * (1 # 2 ^ 53))%Q.
Proof.
  intros Hq. rewrite round_pos_value.
  set (e := ilog2 q). set (ulp := (2 ^ (e - 52))%Q).
  pose proof (two_power_pos (e - 52)) as Hulp. fold ulp in Hulp.
  pose proof (round_half_even_error (q / ulp)) as Herr.
  set (m := inject_Z (round_half_even (q / ulp))) in *.
  assert (m * ulp - q == (m - q / ulp) * ulp)%Q as ->
    by (field; lra).
  rewrite Qabs_Qmult, (Qabs_pos ulp) by lra.
  apply (Qle_trans _ ((1 # 2) * ulp)).
  - apply Qmult_le_compat_r; [done|lra].
  - assert ((1 # 2) * ulp == 2 ^ e * (1 # 2 ^ 53))%Q as ->.
    { unfold ulp. replace (e - 52) with (e + -52) by lia.
      rewrite two_power_plus. set (p := (2 ^ e)%Q).
      change (2 ^ (-52))%Q with (1 # 4503599627370496)%Q.
      change (1 # 2 ^ 53)%Q with (1 # 9007199254740992)%Q. ring. }
    apply Qmult_le_compat_r; [by apply ilog2_le|]. done.
Qed.

(** The relative error of a rounding is at most 2^-53. *)
Lemma binary64_error (q : Q) :
  (Qabs (binary64 q - q) <= Qabs q * (1 # 2 ^ 53))%Q.
Proof.
  unfold binary64. destruct (q ?= 0)%Q eqn:Hc.
  - apply Qeq_alt in Hc. rewrite Hc. vm_compute. discriminate.
  - apply Qlt_alt in Hc.
    assert (0 < - q)%Q as Hq by lra.
    pose proof (round_pos_error (- q) Hq) as Herr.
    rewrite (Qabs_neg q) by lra.
    assert (- round_pos (- q) - q == - (round_pos (- q) - - q))%Q as ->
      by ring.
    by rewrite Qabs_opp.
  - apply Qgt_alt in Hc. rewrite (Qabs_pos q) by lra.
    by apply round_pos_error.
Qed.

Lemma round_half_even_bounds (q : Q) (lo hi : Z) :
  (inject_Z lo <= q)%Q → (q <= inject_Z hi)%Q →
  lo ≤ round_half_even q ≤ hi.
Proof.
  intros Hlo Hhi. unfold round_half_even.
  pose proof (Qfloor_le q) as Hf. pose proof (Qlt_floor q) as Hf'.
  assert (lo ≤ Qfloor q) as Hlo'.
  { rewrite <-(Qfloor_Z lo). by apply Qfloor_resp_le. }
  assert (Qfloor q ≤ hi) as Hhi'.
  { rewrite Zle_Qle. by apply (Qle_trans _ q). }
  assert ((inject_Z (Qfloor q) < q)%Q → Qfloor q + 1 ≤ hi) as Hup.
  { intros Hlt. assert (Qfloor q < hi); [|lia].
    rewrite Zlt_Qlt. eapply Qlt_le_trans; done. }
  destruct (q - inject_Z (Qfloor q) ?= 1 # 2)%Q eqn:Hc.
  - apply Qeq_alt in Hc. destruct (Z.even (Qfloor q)); [lia|].
    split; [lia|]. apply Hup. lra.
  - lia.
  - apply Qgt_alt in Hc. split; [lia|]. apply Hup. lra.
Qed.

Lemma ilog2_small (q : Q) (H : Z) :
  (0 < q)%Q → (q <= inject_Z H)%Q → H < 2 ^ 53 → ilog2 q ≤ 52.
Proof.
  intros Hq Hle Hlt. destruct (decide (ilog2 q ≤ 52)) as [|Hbig]; [done|].
  exfalso.
  assert (2 ^ 53 <= 2 ^ ilog2 q)%Q as Hpow
    by (apply Qpower_le_compat_l; [lia|done]).
  pose proof (ilog2_le q Hq) as Hlow.
  assert (inject_Z (2 ^ 53) <= inject_Z H)%Q as Hc.
  { rewrite <-(two_power_inject 53) by lia.
    apply (Qle_trans _ q); [|done]. by apply (Qle_trans _ (2 ^ ilog2 q)). }
  rewrite <-Zle_Qle in Hc. lia.
Qed.

Lemma round_pos_bounds (q : Q) (H : Z) :
  (0 < q)%Q → (q <= inject_Z H)%Q → H < 2 ^ 53 →
  (0 <= round_pos q <= inject_Z H)%Q.
Proof.
  intros Hq Hle Hlt.
  pose proof (ilog2_small q H Hq Hle Hlt) as He.
  rewrite round_pos_value.
  set (e := ilog2 q) in *. set (ulp := (2 ^ (e - 52))%Q).
  pose proof (two_power_pos (e - 52)) as Hulp. fold ulp in Hulp.
  pose proof (two_power_pos (52 - e)) as Hinv.
  assert (ulp * 2 ^ (52 - e) == 1)%Q as Hone.
  { unfold ulp. rewrite <-two_power_plus.
    replace (e - 52 + (52 - e)) with 0 by lia. reflexivity. }
  assert (q / ulp == q * 2 ^ (52 - e))%Q as Hdiv.
  { apply Qmult_inj_r with ulp; [lra|].
    rewrite Qmult_comm, Qmult_div_r by lra.
    rewrite <-Qmult_assoc, (Qmult_comm (2 ^ _)), Hone. ring. }
  destruct (round_half_even_bounds (q / ulp) 0 (H * 2 ^ (52 - e))) as [Hm0 Hm1].
  - change (inject_Z 0) with 0%Q. rewrite Hdiv.
    apply Qmult_le_0_compat; lra.
  - rewrite Hdiv, inject_Z_mult, <-(two_power_inject (52 - e)) by lia.
    apply Qmult_le_compat_r; [done|lra].
  - set (m := round_half_even (q / ulp)) in *.
    rewrite Zle_Qle in Hm0, Hm1. change (inject_Z 0) with 0%Q in Hm0.
    rewrite inject_Z_mult, <-(two_power_inject (52 - e)) in Hm1 by lia.
    split.
    + apply Qmult_le_0_compat; lra.
    + apply (Qle_trans _ (inject_Z H * 2 ^ (52 - e) * ulp)).
      * apply Qmult_le_compat_r; [done|lra].
      * rewrite <-Qmult_assoc, (Qmult_comm (2 ^ _)), Hone. lra.
Qed.

(** A rounding does not cross an integer below 2^53. *)
Lemma binary64_bounds (q : Q) (H : Z) :
  (0 <= q <= inject_Z H)%Q → H < 2 ^ 53 →
  (0 <= binary64 q <= inject_Z H)%Q.
Proof.
  intros [Hq Hle] Hlt. unfold binary64.
  destruct (q ?= 0)%Q eqn:Hc.
  - apply Qeq_alt in Hc. split; lra.
  - apply Qlt_alt in Hc. lra.
  - apply Qgt_alt in Hc. by apply round_pos_bounds.
Qed.

(** ** Means *)

Lemma count_pos {A} (g : list A) : g ≠ [] → 0 < count g.
Proof. destruct g; [done|]. intros _. unfold count. simpl. lia. Qed.

Lemma count_nonneg {A} (g : list A) : 0 ≤ count g.
Proof. unfold count. lia. Qed.

Lemma inject_Z_pos (z : Z) : 0 < z → (0 < inject_Z z)%Q.
Proof. intros Hz. change 0%Q with (inject_Z 0). by rewrite <-Zlt_Qlt. Qed.

(** The mean times the number of values is the sum, up to the rounding
    of the division. *)
Lemma mean_error (col : list Z) :
  col ≠ [] →
  (Qabs (mean col * inject_Z (count col) - inject_Z (sum col))
   <= Qabs (inject_Z (sum col)) * (1 # 2 ^ 53))%Q.
Proof.
  intros Hne. unfold mean, fdiv.
  pose proof (inject_Z_pos _ (count_pos col Hne)) as Hc.
  set (c := inject_Z (count col)) in *. set (s := inject_Z (sum col)).
  pose proof (binary64_error (s / c)) as Herr.
  assert (binary64 (s / c) * c - s == (binary64 (s / c) - s / c) * c)%Q
    as -> by (field; lra).
  assert (Qabs s == Qabs (s / c) * c)%Q as ->.
  { rewrite <-(Qabs_pos c) at 2 by lra. rewrite <-Qabs_Qmult.
    apply Qabs_wd. field. lra. }
  rewrite Qabs_Qmult, (Qabs_pos c) by lra.
  rewrite <-Qmult_assoc, (Qmult_comm c), Qmult_assoc.
  apply Qmult_le_compat_r; [done|lra].
Qed.

Lemma amounts_nonempty (g : list Row) : g ≠ [] → amounts g ≠ [].
Proof. by destruct g. Qed.

Lemma count_amounts (g : list Row) : count (amounts g) = count g.
Proof. unfold count, amounts. by rewrite length_fmap. Qed.

(** ** Popular routes *)

Lemma route_of_enriched raw (r : Row) :
  r ∈ enrich raw →
  route r = origin_station r +:+ route_separator +:+ destination_station r.
Proof.
  unfold enrich. rewrite list_elem_of_fmap. by intros (q & -> & _).
Qed.

Lemma filter_ext_elem_of {A} (P Q : A → Prop)
    `{∀ x, Decision (P x), ∀ x, Decision (Q x)} (l : list A) :
  (∀ x, x ∈ l → P x ↔ Q x) → filter P l = filter Q l.
Proof.
  induction l as [|x l IH]; intros Hext; [done|].
  rewrite !filter_cons.
  rewrite IH by (intros; apply Hext; by right).
  destruct (decide (P x)) as [HP|HP], (decide (Q x)) as [HQ|HQ]; try done;
    exfalso; apply (Hext x) in HP || apply (Hext x) in HQ; try done; left.
Qed.

(** On a loaded frame the third grouping column adds nothing: the group of
    a key is the set of bookings of its (origin, destination) pair. *)
Lemma route_group_rows raw k g :
  (k, g) ∈ groupby route_key (enrich raw) →
  k.2 = k.1.1 +:+ route_separator +:+ k.1.2 ∧
  g = rows_of_route k.1.1 k.1.2 (enrich raw).
Proof.
  rewrite elem_of_groupby, elem_of_group_keys.
  intros [(r0 & Hr0 & Hk) ->]. subst k. simpl.
  split; [by apply (route_of_enriched raw)|].
  apply filter_ext_elem_of. intros r Hr. unfold route_key.
  rewrite (route_of_enriched raw r Hr), (route_of_enriched raw r0 Hr0).
  split; [by intros [= -> ->]|by intros [-> ->]].
Qed.

Lemma elem_of_route_stats df s :
  s ∈ route_stats df ↔
  ∃ k g, (k, g) ∈ groupby route_key df ∧
    s = mkRouteStat k.1.1 k.1.2 k.2
          (count g) (sum (amounts g)) (mean (amounts g)).
Proof.
  unfold route_stats. rewrite list_elem_of_fmap. split.
  - intros ([[[o d] rt] g] & -> & Hin). by exists (o, d, rt), g.
  - intros ([[o d] rt] & g & Hin & ->). by exists (o, d, rt, g).
Qed.

Lemma route_stats_keys df :
  (λ s, (rs_origin s, rs_destination s, rs_route s)) <$> route_stats df =
  group_keys route_key df.
Proof.
  unfold route_stats. rewrite <-list_fmap_compose, <-groupby_keys.
  apply list_fmap_ext. by intros _ [[[o d] rt] g] _.
Qed.

Lemma elem_of_stat_pairs raw p :
  p ∈ stat_pair <$> route_stats (enrich raw) ↔
  ∃ r, r ∈ enrich raw ∧ row_pair r = p.
Proof.
  rewrite list_elem_of_fmap. split.
  - intros (s & -> & (k & g & Hin & ->)%elem_of_route_stats).
    apply elem_of_groupby in Hin as [(r & Hr & <-)%elem_of_group_keys _].
    by exists r.
  - intros (r & Hr & <-).
    exists (mkRouteStat (origin_station r) (destination_station r) (route r)
              (count (filter (λ r', route_key r' = route_key r) (enrich raw)))
              (sum (amounts (filter (λ r', route_key r' = route_key r) (enrich raw))))
              (mean (amounts (filter (λ r', route_key r' = route_key r) (enrich raw))))).
    split; [done|]. apply elem_of_route_stats.
    exists (route_key r), (filter (λ r', route_key r' = route_key r) (enrich raw)).
    split; [|done]. apply elem_of_groupby. split; [|done].
    apply elem_of_group_keys. by exists r.
Qed.

Lemma NoDup_stat_pairs raw : NoDup (stat_pair <$> route_stats (enrich raw)).
Proof.
  assert (stat_pair <$> route_stats (enrich raw) =
          (λ k : string * string * string, k.1)
            <$> group_keys route_key (enrich raw)) as ->.
  { rewrite <-route_stats_keys, <-list_fmap_compose. done. }
  apply NoDup_fmap_2_strong; [|apply NoDup_group_keys].
  intros [[o d] rt] [[o' d'] rt'] Hk Hk'. simpl. intros [= <- <-].
  apply elem_of_group_keys in Hk as (r & Hr & [= <- <- <-]).
  apply elem_of_group_keys in Hk' as (r' & Hr' & [= Ho Hd <-]).
  rewrite (route_of_enriched raw r Hr), (route_of_enriched raw r' Hr').
  by rewrite Ho, Hd.
Qed.

Lemma popular_routes_unfold limit df :
  df ≠ [] →
  popular_routes limit df =
  to_PopularRouteResponse <$> nlargest rs_booking_count limit (route_stats df).
Proof. by destruct df. Qed.

Lemma enrich_nonempty raw : raw ≠ [] → enrich raw ≠ [].
Proof. by destruct raw. Qed.

Lemma popular_routes_scenario (limit : nat) (q1 q2 : QueryRow) :
  (1 ≤ limit)%nat →
  origin_station q1 = "A" → destination_station q1 = "B" →
  origin_station q2 = "A" → destination_station q2 = "B" →
  amount_paid q1 = 100 → amount_paid q2 = 200 →
  popular_routes limit (enrich [q1; q2]) =
  [PopularRouteResponse.mk "A" "B" 2 300 150].
Proof.
  intros Hl. destruct q1, q2; simpl. intros -> -> -> -> -> ->.
  destruct limit as [|limit]; [lia|].
  destruct limit; vm_compute; reflexivity.
Qed.

(** C1: on a loaded, non-empty frame and for a limit in 1..50, the
    popular-routes view returns min(limit, number of distinct routes)
    entries, one per (origin, destination) pair; each carries the count,
    the sum and the mean of the amounts of its pair's bookings; the entries
    are in descending order of count, and a pair left out has no more
    bookings than any entry returned.  Two bookings on route A-B with
    amounts 100 and 200 give the single entry (A, B, 2, 300, 150). *)
Theorem C1_popular_routes (raw : list QueryRow) (limit : nat) :
  raw ≠ [] → (1 ≤ limit ≤ 50)%nat →
  let df := enrich raw in
  let out := popular_routes limit df in
  length out = (limit `min` length (remove_dups (row_pair <$> df)))%nat ∧
  (length out ≤ limit)%nat ∧
  NoDup (entry_pair <$> out) ∧
  (∀ e, e ∈ out →
     let g := rows_of_route (PopularRouteResponse.origin e)
                            (PopularRouteResponse.destination e) df in
     g ≠ [] ∧
     PopularRouteResponse.booking_count e = count g ∧
     PopularRouteResponse.total_revenue e = inject_Z (sum (amounts g)) ∧
     PopularRouteResponse.average_price e = mean (amounts g)) ∧
  StronglySorted
    (λ e1 e2, PopularRouteResponse.booking_count e2
              ≤ PopularRouteResponse.booking_count e1) out ∧
  (∀ r e, r ∈ df → row_pair r ∉ entry_pair <$> out → e ∈ out →
     count (rows_of_route (origin_station r) (destination_station r) df)
     ≤ PopularRouteResponse.booking_count e) ∧
  (∀ q1 q2 : QueryRow,
     origin_station q1 = "A" → destination_station q1 = "B" →
     origin_station q2 = "A" → destination_station q2 = "B" →
     amount_paid q1 = 100 → amount_paid q2 = 200 →
     ∃ e, popular_routes limit (enrich [q1; q2]) = [e] ∧
       PopularRouteResponse.origin e = "A" ∧
       PopularRouteResponse.destination e = "B" ∧
       PopularRouteResponse.booking_count e = 2 ∧
       (PopularRouteResponse.total_revenue e == 300)%Q ∧
       (PopularRouteResponse.average_price e == 150)%Q).
Proof.
  intros Hne [Hlo Hhi] df out. subst df.
  assert (out = to_PopularRouteResponse
                  <$> nlargest rs_booking_count limit (route_stats (enrich raw))) as Hout
    by (apply popular_routes_unfold, enrich_nonempty, Hne).
  assert (entry_pair <$> out =
          stat_pair <$> nlargest rs_booking_count limit (route_stats (enrich raw)))
    as Hpairs.
  { rewrite Hout, <-list_fmap_compose. done. }
  assert (∀ e, e ∈ out → ∃ s k g,
            e = to_PopularRouteResponse s ∧
            s ∈ nlargest rs_booking_count limit (route_stats (enrich raw)) ∧
            (k, g) ∈ groupby route_key (enrich raw) ∧
            s = mkRouteStat k.1.1 k.1.2 k.2
                  (count g) (sum (amounts g)) (mean (amounts g)) ∧
            g = rows_of_route k.1.1 k.1.2 (enrich raw)) as Hentry.
  { intros e. rewrite Hout, list_elem_of_fmap. intros (s & -> & Hs).
    pose proof (elem_of_nlargest _ _ _ _ Hs) as Hs'.
    apply elem_of_route_stats in Hs' as (k & g & Hin & ->).
    destruct (route_group_rows raw k g Hin) as [_ Hg]. eauto 10. }
  assert (length out ≤ limit)%nat as Hlen.
  { rewrite Hout, length_fmap, nlargest_length. lia. }
  split_and!.
  - rewrite Hout, length_fmap, nlargest_length. f_equal.
    rewrite <-(length_fmap stat_pair). apply Permutation_length.
    apply NoDup_Permutation;
      [apply NoDup_stat_pairs|apply NoDup_remove_dups|].
    intros p. rewrite elem_of_stat_pairs, elem_of_remove_dups, list_elem_of_fmap. split; intros (r & ? & ?); exists r; auto.
  - exact Hlen.
  - rewrite Hpairs. apply nlargest_fmap_NoDup, NoDup_stat_pairs.
  - intros e He g.
    destruct (Hentry e He) as (s & k & g' & -> & _ & Hin & -> & Hg).
    simpl in g. subst g. rewrite <-Hg.
    split_and!; try done. exact (groupby_nonempty _ _ _ _ Hin).
  - rewrite Hout. apply (StronglySorted_fmap _ (desc rs_booking_count)).
    + intros s1 s2 Hd. exact Hd.
    + apply nlargest_sorted.
  - intros r e Hr Hnot He.
    destruct (Hentry e He) as (s & k & g' & -> & Hs & _ & Hs_eq & _).
    set (gr := filter (λ r', route_key r' = route_key r) (enrich raw)).
    assert ((route_key r, gr) ∈ groupby route_key (enrich raw)) as Hgr.
    { apply elem_of_groupby. split; [|done].
      apply elem_of_group_keys. by exists r. }
    destruct (route_group_rows raw _ _ Hgr) as [_ Hgr'].
    simpl in Hgr'. rewrite <-Hgr'.
    set (sr := mkRouteStat (origin_station r) (destination_station r)
                 (route r) (count gr) (sum (amounts gr)) (mean (amounts gr))).
    assert (sr ∈ route_stats (enrich raw)) as Hsr.
    { apply elem_of_route_stats. by exists (route_key r), gr. }
    assert (sr ∉ nlargest rs_booking_count limit (route_stats (enrich raw))) as Hsr'.
    { intros Hin. apply Hnot. rewrite Hpairs.
      apply list_elem_of_fmap. by exists sr. }
    exact (nlargest_omitted rs_booking_count limit _ sr s Hsr Hsr' Hs).
  - intros q1 q2 Ho1 Hd1 Ho2 Hd2 Ha1 Ha2.
    eexists. split.
    + by apply popular_routes_scenario.
    + simpl. split_and!; done.
Qed.

Lemma C1_popular_routes_witness :
  [booking_ab; booking_ab'] ≠ [] ∧ (1 ≤ 10 ≤ 50)%nat ∧
  length (popular_routes 10 (enrich [booking_ab; booking_ab'])) = 1%nat.
Proof.
  assert ([booking_ab; booking_ab'] ≠ []) as H1 by discriminate.
  assert (1 ≤ 10 ≤ 50)%nat as H2 by lia.
  split; [exact H1|]. split; [exact H2|].
  exact (proj1 (C1_popular_routes [booking_ab; booking_ab'] 10 H1 H2)).
Defined.

(** C10 as stated fails: three bookings from "A" to "B" with amounts 100,
    100 and 101 give one entry with booking_count 3 and total_revenue 301
    whose average_price, the float nearest to 301/3, times 3 is not 301. *)
Lemma C10_counterexample :
  ∃ e,
    popular_routes 10
      (enrich [sample_row 738960 "A" "B" 100; sample_row 738960 "A" "B" 100;
               sample_row 738960 "A" "B" 101]) = [e] ∧
    PopularRouteResponse.booking_count e = 3 ∧
    PopularRouteResponse.total_revenue e = 301%Q ∧
    PopularRouteResponse.average_price e
      = (7060330665825621 # 70368744177664)%Q ∧
    ¬ (PopularRouteResponse.average_price e
         * inject_Z (PopularRouteResponse.booking_count e)
       == PopularRouteResponse.total_revenue e)%Q.
Proof.
  eexists. split; [vm_compute; reflexivity|].
  split_and!; try reflexivity.
  vm_compute. discriminate.
Qed.

(** C10, amended: every entry the popular-routes view returns has as
    average_price the float nearest to total_revenue / booking_count, so
    that average_price * booking_count differs from total_revenue by at
    most total_revenue * 2^-53, for every frame and every limit. *)
Theorem C10_average_times_count (df : DataFrame) (limit : nat) :
  Forall (λ e,
    PopularRouteResponse.average_price e
    = binary64 (PopularRouteResponse.total_revenue e
                / inject_Z (PopularRouteResponse.booking_count e))%Q ∧
    (Qabs (PopularRouteResponse.average_price e
             * inject_Z (PopularRouteResponse.booking_count e)
           - PopularRouteResponse.total_revenue e)
     <= Qabs (PopularRouteResponse.total_revenue e) * (1 # 2 ^ 53))%Q)
    (popular_routes limit df).
Proof.
  apply Forall_forall. intros e He.
  destruct (decide (df = [])) as [->|Hne]; [by apply elem_of_nil in He|].
  rewrite popular_routes_unfold in He by done.
  apply list_elem_of_fmap in He as (s & -> & Hs).
  apply elem_of_nlargest, elem_of_route_stats in Hs as (k & g & Hin & ->).
  cbn [to_PopularRouteResponse PopularRouteResponse.average_price
       PopularRouteResponse.booking_count PopularRouteResponse.total_revenue
       rs_booking_count rs_total_revenue rs_average_price].
  rewrite <-count_amounts. split; [done|].
  apply mean_error, amounts_nonempty.
  exact (groupby_nonempty _ _ _ _ Hin).
Qed.

(** ** Revenue by class *)

Lemma revenue_by_class_unfold (df : DataFrame) :
  df ≠ [] →
  RevenueStatsResponse.revenue_by_class (revenue_statistics df) =
  (λ '(c, s), RevenueStatsResponse.mk_by_class c s)
    <$> ((λ '(c, g), (c, sum (amounts g)))
           <$> groupby (λ r : Row, class_name r) df).
Proof. by destruct df. Qed.

Lemma revenue_by_class_sum (df : DataFrame) :
  sum (RevenueStatsResponse.class_revenue
         <$> RevenueStatsResponse.revenue_by_class (revenue_statistics df))
  = sum (amounts df).
Proof.
  destruct (decide (df = [])) as [->|Hne]; [done|].
  rewrite revenue_by_class_unfold by done.
  rewrite <-!list_fmap_compose. unfold amounts at 2.
  rewrite <-(sum_groupby (λ r : Row, class_name r)).
  f_equal. apply list_fmap_ext. by intros _ [c g] _.
Qed.

Lemma total_revenue_sum (df : DataFrame) :
  BookingStatsResponse.total_revenue (booking_statistics df)
  = inject_Z (sum (amounts df)).
Proof. by destruct df. Qed.

(** C4: the total revenue of the booking statistics is the sum of the
    per-class revenues of the revenue statistics of the same frame, and so
    it is for the two endpoints called with the same arguments. *)
Theorem C4_total_revenue_by_class :
  (∀ df : DataFrame,
     BookingStatsResponse.total_revenue (booking_statistics df)
     = inject_Z
         (sum (RevenueStatsResponse.class_revenue
                 <$> RevenueStatsResponse.revenue_by_class
                       (revenue_statistics df)))) ∧
  (∀ today db start_date end_date,
     BookingStatsResponse.total_revenue
       (get_booking_statistics today db start_date end_date)
     = inject_Z
         (sum (RevenueStatsResponse.class_revenue
                 <$> RevenueStatsResponse.revenue_by_class
                       (get_revenue_statistics today db start_date end_date)))).
Proof.
  assert (∀ df : DataFrame,
     BookingStatsResponse.total_revenue (booking_statistics df)
     = inject_Z
         (sum (RevenueStatsResponse.class_revenue
                 <$> RevenueStatsResponse.revenue_by_class
                       (revenue_statistics df)))) as Hdf.
  { intros df. by rewrite revenue_by_class_sum, total_revenue_sum. }
  split; [exact Hdf|]. intros. apply Hdf.
Qed.

(** ** The empty frame *)

(** C3: on the empty frame the booking statistics are all zero with empty
    mappings, the revenue statistics are zero with three empty lists, and
    every list-shaped view is the empty list. *)
Theorem C3_empty_frame :
  booking_statistics [] = BookingStatsResponse.mk 0 0 0 ∅ ∅ ∧
  revenue_statistics [] = RevenueStatsResponse.mk 0 [] [] [] ∧
  (∀ limit, popular_routes limit [] = []) ∧
  daily_booking_trends [] = [] ∧
  class_distribution [] = [] ∧
  (∀ limit, top_spending_passengers limit [] = []) ∧
  (∀ limit, journey_performance limit [] = []).
Proof. split_and!; reflexivity. Qed.

(** ** The loader *)

Lemma between_in_range d s e : Is_true (between d s e) ↔ in_range d s e.
Proof.
  unfold between, in_range.
  rewrite andb_True, !Is_true_true, !Z.leb_le. done.
Qed.

Lemma joined_bind db : joined db = booking db ≫= record_rows db.
Proof. reflexivity. Qed.

Lemma elem_of_record_rows db b q :
  q ∈ record_rows db b ↔ booking_record db b q.
Proof.
  unfold record_rows, booking_record.
  repeat setoid_rewrite list_elem_of_bind.
  split.
  - intros (s1 & (s2 & (cc & (bs & (p & (tj & Hq & Htj) & Hp) & Hbs) & Hcc)
              & Hs2) & Hs1).
    apply list_elem_of_ret in Hq.
    apply list_elem_of_filter in Hs1 as [? ?], Hs2 as [? ?], Hcc as [? ?],
      Hbs as [? ?], Hp as [? ?], Htj as [? ?].
    exists s1, s2, cc, bs, p, tj. split_and!; done.
  - intros (s1 & s2 & cc & bs & p & tj &
              ? & ? & ? & ? & ? & ? & ? & ? & ? & ? & ? & ? & ->).
    exists s1. split; [|by apply list_elem_of_filter].
    exists s2. split; [|by apply list_elem_of_filter].
    exists cc. split; [|by apply list_elem_of_filter].
    exists bs. split; [|by apply list_elem_of_filter].
    exists p. split; [|by apply list_elem_of_filter].
    exists tj. split; [|by apply list_elem_of_filter].
    by apply list_elem_of_ret.
Qed.

Lemma elem_of_joined db q :
  q ∈ joined db ↔ ∃ b, b ∈ booking db ∧ booking_record db b q.
Proof.
  rewrite joined_bind, list_elem_of_bind.
  split.
  - intros (b & Hq & Hb). exists b. split; [done|].
    by apply elem_of_record_rows.
  - intros (b & Hb & Hq). exists b. split; [|done].
    by apply elem_of_record_rows.
Qed.

Lemma booking_record_date db b q :
  booking_record db b q → booking_date q = b_booking_date b ∧ id q = b_id b.
Proof. by intros (?&?&?&?&?&?&?&?&?&?&?&?&?&?&?&?&?&?&->). Qed.

Lemma filter_key_absent {A} (key : A → Z) (tbl : list A) (k : Z) :
  k ∉ key <$> tbl → filter (λ y, k = key y) tbl = [].
Proof.
  induction tbl as [|x tbl IH]; [done|].
  rewrite fmap_cons. intros [Hx Hk]%not_elem_of_cons.
  rewrite filter_cons, decide_False by done. auto.
Qed.

(** A key that is unique in a table selects exactly one row. *)
Lemma filter_key_unique {A} (key : A → Z) (tbl : list A) (k : Z) :
  NoDup (key <$> tbl) → k ∈ key <$> tbl →
  ∃ x, filter (λ y, k = key y) tbl = [x].
Proof.
  induction tbl as [|x tbl IH]; rewrite ?fmap_cons.
  - intros _ Hin. by apply elem_of_nil in Hin.
  - intros [Hx Hnd]%NoDup_cons Hin. rewrite filter_cons.
    destruct (decide (k = key x)) as [->|Hne].
    + exists x. by rewrite filter_key_absent.
    + apply elem_of_cons in Hin as [?|Hin]; [done|]. auto.
Qed.

Lemma record_rows_singleton db b :
  integrity db → b ∈ booking db → ∃ q, record_rows db b = [q] ∧ id q = b_id b
    ∧ booking_date q = b_booking_date b.
Proof.
  intros Hdb Hb.
  destruct (keys_resolve db Hdb b Hb) as (H1 & H2 & H3 & H4 & H5 & H6).
  destruct (filter_key_unique ts_id _ _ (station_ids db Hdb) H1) as [s1 E1].
  destruct (filter_key_unique ts_id _ _ (station_ids db Hdb) H2) as [s2 E2].
  destruct (filter_key_unique cc_id _ _ (class_ids db Hdb) H3) as [cc E3].
  destruct (filter_key_unique bs_id _ _ (status_ids db Hdb) H4) as [bs E4].
  destruct (filter_key_unique p_id _ _ (passenger_ids db Hdb) H5) as [p E5].
  destruct (filter_key_unique tj_id _ _ (journey_ids db Hdb) H6) as [tj E6].
  unfold record_rows. rewrite E1, E2, E3, E4, E5, E6.
  eexists. split; [reflexivity|]. done.
Qed.

Lemma read_sql_ids db s e :
  integrity db →
  id <$> read_sql db s e =
  b_id <$> filter (λ b, in_range (b_booking_date b) s e) (booking db).
Proof.
  intros Hdb. unfold read_sql. rewrite joined_bind.
  assert (∀ b, b ∈ booking db → b ∈ booking db) as Hsub by auto.
  revert Hsub. generalize (booking db) at 1 3 4. intros l.
  induction l as [|b l IH]; intros Hsub; [done|].
  destruct (record_rows_singleton db b Hdb) as (q & Hq & Hid & Hdate);
    [apply Hsub; left|].
  change ((b :: l) ≫= record_rows db)
    with (record_rows db b ++ (l ≫= record_rows db)).
  rewrite Hq. simpl. rewrite !filter_cons.
  specialize (IH (λ b' Hb', Hsub b' (list_elem_of_further _ _ _ Hb'))).
  destruct (decide (in_range (b_booking_date b) s e)) as [Hin|Hout].
  - rewrite decide_True by (apply between_in_range; by rewrite Hdate).
    rewrite !fmap_cons, IH, Hid. done.
  - rewrite decide_False by (rewrite between_in_range, Hdate; done).
    exact IH.
Qed.

Lemma elem_of_read_sql db s e q :
  q ∈ read_sql db s e ↔
  ∃ b, b ∈ booking db ∧ booking_record db b q
       ∧ in_range (b_booking_date b) s e.
Proof.
  unfold read_sql. rewrite list_elem_of_filter, between_in_range, elem_of_joined.
  split.
  - intros (Hr & b & Hb & Hq). exists b.
    destruct (booking_record_date db b q Hq) as [<- _]. done.
  - intros (b & Hb & Hq & Hr).
    destruct (booking_record_date db b q Hq) as [Hd _].
    rewrite Hd. eauto.
Qed.

(** C6: with both bounds supplied the loader returns the records of the
    bookings dated within [start_date, end_date], both ends included, and
    nothing else; under referential integrity that is one record per such
    booking, in table order; when no booking is in range the frame is
    empty. *)
Theorem C6_loader_inclusive_range (today : Date) (db : Database)
    (start_date end_date : Date) :
  let df := get_bookings_df today db (Some start_date) (Some end_date) in
  (∀ row, row ∈ df ↔
     ∃ b q, b ∈ booking db ∧ booking_record db b q ∧
            in_range (b_booking_date b) start_date end_date ∧
            row = add_derived q) ∧
  (integrity db →
     (λ r : Row, id r) <$> df =
     b_id <$> filter (λ b, in_range (b_booking_date b) start_date end_date)
                (booking db)) ∧
  ((∀ b, b ∈ booking db → ¬ in_range (b_booking_date b) start_date end_date) →
     df = []).
Proof.
  intros df. subst df. unfold get_bookings_df, enrich.
  assert (∀ row, row ∈ add_derived <$> read_sql db start_date end_date ↔
     ∃ b q, b ∈ booking db ∧ booking_record db b q ∧
            in_range (b_booking_date b) start_date end_date ∧
            row = add_derived q) as Hmem.
  { intros row. rewrite list_elem_of_fmap. split.
    - intros (q & -> & (b & ? & ? & ?)%elem_of_read_sql). by exists b, q.
    - intros (b & q & ? & ? & ? & ->). exists q. split; [done|].
      apply elem_of_read_sql. by exists b. }
  split_and!.
  - exact Hmem.
  - intros Hdb. rewrite <-read_sql_ids by done.
    rewrite <-list_fmap_compose. done.
  - intros Hnone. apply elem_of_nil_inv. intros row Hrow.
    apply Hmem in Hrow as (b & q & Hb & _ & Hr & _). by apply (Hnone b).
Qed.

Lemma one_booking_db_integrity : integrity one_booking_db.
Proof.
  split;
    try (simpl;
         repeat (apply NoDup_cons_2;
                 [rewrite ?not_elem_of_cons; split_and?;
                  lia || apply not_elem_of_nil|]);
         apply NoDup_nil_2).
  intros b Hb. apply list_elem_of_singleton in Hb as ->.
  simpl. split_and!;
    repeat first [apply list_elem_of_here | apply list_elem_of_further].
Qed.

Lemma C6_loader_inclusive_range_witness :
  integrity one_booking_db ∧
  (λ r : Row, id r)
    <$> get_bookings_df 0 one_booking_db (Some 738960) (Some 738960) = [1] ∧
  (∀ b, b ∈ booking one_booking_db → ¬ in_range (b_booking_date b) 738961 738990) ∧
  get_bookings_df 0 one_booking_db (Some 738961) (Some 738990) = [].
Proof.
  split; [exact one_booking_db_integrity|]. split.
  - exact (proj1 (proj2
      (C6_loader_inclusive_range 0 one_booking_db 738960 738960))
      one_booking_db_integrity).
  - assert (∀ b, b ∈ booking one_booking_db →
              ¬ in_range (b_booking_date b) 738961 738990) as Hnone.
    { intros b Hb. apply list_elem_of_singleton in Hb as ->.
      unfold in_range. simpl. lia. }
    split; [exact Hnone|].
    exact (proj2 (proj2
      (C6_loader_inclusive_range 0 one_booking_db 738961 738990)) Hnone).
Defined.

(** ** Derived columns *)

Lemma route_separator_literal : route_separator = " â†’ ".
Proof. reflexivity. Qed.

Lemma arrow_separator_literal : arrow_separator = " → ".
Proof. reflexivity. Qed.

(** What the enricher does on every row set: the rows are kept as they
    are, in order; [passenger_name] is first name, space, last name;
    [route] is origin, [route_separator], destination. *)
Lemma enrich_spec (rows : list QueryRow) :
  columns <$> enrich rows = rows ∧
  length (enrich rows) = length rows ∧
  Forall (λ r : Row,
    passenger_name r = first_name r +:+ " " +:+ last_name r ∧
    route r = origin_station r +:+ route_separator +:+ destination_station r)
    (enrich rows).
Proof.
  unfold enrich. split_and!.
  - rewrite <-list_fmap_compose. apply list_fmap_id.
  - apply length_fmap.
  - apply Forall_fmap, Forall_true. done.
Qed.

(** C8 (the code departs from it): the separator the enricher writes
    between the station names is not " → " but the three characters
    U+00E2 U+2020 U+2019 between the two spaces; the booking from "A" to
    "B" gets the route "A â†’ B", which is not "A → B". *)
Theorem C8_route_separator :
  enrich [booking_ab] = [mkRow booking_ab "A â†’ B" "Ann Lee"] ∧
  "A â†’ B" ≠ origin_station booking_ab +:+ " → " +:+ destination_station booking_ab.
Proof. split; [reflexivity|discriminate]. Qed.

(** ** Defaults of the date range *)

(** C9: when only one of the two bounds is supplied it is ignored; the
    frame, and with it every view that takes an optional range, is the one
    of the default window of the last 30 days. *)
Theorem C9_single_bound_ignored (today : Date) (db : Database) (d : Date) :
  let default := enrich (read_sql db (today - 30) today) in
  get_bookings_df today db None None = default ∧
  get_bookings_df today db (Some d) None = default ∧
  get_bookings_df today db None (Some d) = default ∧
  (get_booking_statistics today db (Some d) None
     = get_booking_statistics today db None None ∧
   get_booking_statistics today db None (Some d)
     = get_booking_statistics today db None None) ∧
  (get_revenue_statistics today db (Some d) None
     = get_revenue_statistics today db None None ∧
   get_revenue_statistics today db None (Some d)
     = get_revenue_statistics today db None None) ∧
  (∀ limit,
     get_popular_routes today db limit (Some d) None
       = get_popular_routes today db limit None None ∧
     get_popular_routes today db limit None (Some d)
       = get_popular_routes today db limit None None) ∧
  (get_class_distribution today db (Some d) None
     = get_class_distribution today db None None ∧
   get_class_distribution today db None (Some d)
     = get_class_distribution today db None None) ∧
  (∀ limit,
     get_top_spending_passengers today db limit (Some d) None
       = get_top_spending_passengers today db limit None None ∧
     get_top_spending_passengers today db limit None (Some d)
       = get_top_spending_passengers today db limit None None) ∧
  (∀ limit,
     get_journey_performance today db limit (Some d) None
       = get_journey_performance today db limit None None ∧
     get_journey_performance today db limit None (Some d)
       = get_journey_performance today db limit None None).
Proof. repeat split; reflexivity. Qed.

(** ** The dashboard *)

Lemma read_sql_closed_window db s e :
  enrich (read_sql db s e) = closed_window db s e.
Proof.
  unfold closed_window, read_sql. f_equal.
  apply list_filter_iff. intros q. apply between_in_range.
Qed.

Lemma dashboard_run_unfold today today' db1 db2 db3 db4 days :
  dashboard_run today today' db1 db2 db3 db4 days =
  AnalyticsDashboardResponse.mk
    (booking_statistics (closed_window db1 (today - days) today))
    (daily_booking_trends (closed_window db2 (today' - days) today'))
    (popular_routes 10 (closed_window db3 (today - days) today))
    (class_distribution (closed_window db4 (today - days) today)).
Proof.
  unfold dashboard_run, get_booking_statistics,
    get_daily_booking_trends, get_popular_routes, get_class_distribution,
    get_bookings_df, minus_days.
  by rewrite !read_sql_closed_window.
Qed.

Lemma dashboard_unfold today db days :
  get_analytics_dashboard today db days =
  dashboard_on (closed_window db (today - days) today).
Proof.
  unfold get_analytics_dashboard. by rewrite dashboard_run_unfold.
Qed.

(** C7 as stated fails: on the day of the single booking of
    [one_booking_db], the dashboard for a window of one day counts that
    booking in all four views, whereas the half-open window holds none. *)
Lemma C7_counterexample :
  let today := 738960 in
  let r := get_analytics_dashboard today one_booking_db 1 in
  b_booking_date <$> booking one_booking_db = [today] ∧
  BookingStatsResponse.total_bookings (AnalyticsDashboardResponse.overview r) = 1 ∧
  AnalyticsDashboardResponse.daily_trends r
    = [DailyBookingTrendResponse.mk "2024-03-15" 1 100] ∧
  AnalyticsDashboardResponse.popular_routes r
    = [PopularRouteResponse.mk "A" "B" 1 100 100] ∧
  AnalyticsDashboardResponse.class_distribution r
    = [ClassDistributionResponse.mk "First" 1 100 100] ∧
  half_open_window one_booking_db (today - 1) today = [] ∧
  r ≠ dashboard_on (half_open_window one_booking_db (today - 1) today).
Proof.
  cbv zeta. split_and!; try (vm_compute; reflexivity).
  intros Heq.
  apply (f_equal (λ r, BookingStatsResponse.total_bookings
                         (AnalyticsDashboardResponse.overview r))) in Heq.
  vm_compute in Heq. discriminate.
Qed.

(** ** Daily trends *)

Lemma StronglySorted_le_lt (l : list Z) :
  StronglySorted Z.le l → NoDup l → StronglySorted Z.lt l.
Proof.
  induction 1 as [|x l Hl IH Hx]; intros Hnd; [constructor|].
  apply NoDup_cons in Hnd as [Hnotin Hnd].
  constructor; [auto|].
  apply Forall_forall. intros y Hy.
  rewrite Forall_forall in Hx. specialize (Hx y Hy).
  assert (x ≠ y) by (intros ->; done). lia.
Qed.



(** ** Percentages *)

Lemma ratio_bounds (n total : Z) :
  0 ≤ n ≤ total → 0 < total → (0 <= inject_Z n / inject_Z total <= 1)%Q.
Proof.
  intros [Hn Hle] Hpos.
  pose proof (inject_Z_pos total Hpos) as Ht.
  assert (0 <= inject_Z n)%Q as Hn'
    by (change 0%Q with (inject_Z 0); by rewrite <-Zle_Qle).
  assert (inject_Z n <= inject_Z total)%Q as Hle' by (by rewrite <-Zle_Qle).
  split.
  - apply Qle_shift_div_l; [done|]. lra.
  - apply Qle_shift_div_r; [done|]. lra.
Qed.

(** The float computation of a percentage ends in the float nearest to
    some number of hundredths [k / 100]; that number and the percentage
    are within [percentage_tolerance] of the exact share, and the
    percentage is between 0 and 100. *)
Lemma percentage_of_spec (n total : Z) :
  0 ≤ n ≤ total → 0 < total →
  ∃ k : Z,
    percentage_of n total = binary64 (inject_Z k / 100) ∧
    (Qabs (inject_Z k / 100 - exact_share n total) <= percentage_tolerance)%Q ∧
    (Qabs (percentage_of n total - exact_share n total)
     <= percentage_tolerance)%Q ∧
    (0 <= percentage_of n total <= 100)%Q.
Proof.
  intros Hn Hpos.
  pose proof (ratio_bounds n total Hn Hpos) as Hx.
  unfold percentage_of, exact_share, round, fdiv, fmul, percentage_tolerance.
  change (inject_Z (10 ^ Z.of_nat 2)) with 100%Q.
  set (x := (inject_Z n / inject_Z total)%Q) in *.
  set (a := binary64 x).
  set (b := binary64 (a * 100)).
  set (c := binary64 (b * 100)).
  set (k := round_half_even c).
  exists k. split; [reflexivity|].
  set (p := binary64 (inject_Z k / 100)).
  assert (1 < 2 ^ 53) as H1 by done.
  assert (100 < 2 ^ 53) as H100 by done.
  assert (10000 < 2 ^ 53) as H10000 by done.
  destruct (binary64_bounds x 1) as [Ha0 Ha1]; [done|done|]. fold a in Ha0, Ha1.
  change (inject_Z 1) with 1%Q in Ha1.
  pose proof (binary64_error x) as Ea. fold a in Ea.
  rewrite (Qabs_pos x) in Ea by lra.
  destruct (binary64_bounds (a * 100) 100) as [Hb0 Hb1];
    [change (inject_Z 100) with 100%Q; split; lra|done|].
  fold b in Hb0, Hb1. change (inject_Z 100) with 100%Q in Hb1.
  pose proof (binary64_error (a * 100)) as Eb. fold b in Eb.
  rewrite (Qabs_pos (a * 100)) in Eb by lra.
  destruct (binary64_bounds (b * 100) 10000) as [Hc0 Hc1];
    [change (inject_Z 10000) with 10000%Q; split; lra|done|].
  fold c in Hc0, Hc1. change (inject_Z 10000) with 10000%Q in Hc1.
  pose proof (binary64_error (b * 100)) as Ec. fold c in Ec.
  rewrite (Qabs_pos (b * 100)) in Ec by lra.
  destruct (round_half_even_bounds c 0 10000) as [Hk0 Hk1];
    [by change (inject_Z 0) with 0%Q|by change (inject_Z 10000) with 10000%Q|].
  fold k in Hk0, Hk1. rewrite Zle_Qle in Hk0, Hk1.
  change (inject_Z 0) with 0%Q in Hk0.
  change (inject_Z 10000) with 10000%Q in Hk1.
  pose proof (round_half_even_error c) as Ek. fold k in Ek.
  set (kq := inject_Z k) in *.
  assert (kq / 100 == kq * (1 # 100))%Q as Hdiv by (unfold Qdiv; reflexivity).
  destruct (binary64_bounds (kq / 100) 100) as [Hp0 Hp1];
    [change (inject_Z 100) with 100%Q; rewrite Hdiv; split; lra|done|].
  fold p in Hp0, Hp1. change (inject_Z 100) with 100%Q in Hp1.
  pose proof (binary64_error (kq / 100)) as Ep. fold p in Ep.
  rewrite (Qabs_pos (kq / 100)) in Ep by (rewrite Hdiv; lra).
  rewrite Hdiv in *.
  change (1 # 2 ^ 53)%Q with (1 # 9007199254740992)%Q in *.
  apply Qabs_Qle_condition in Ea, Eb, Ec, Ek, Ep.
  clearbody p kq c b a x. clear Hdiv.
  split_and!.
  - apply Qabs_Qle_condition. split; lra.
  - apply Qabs_Qle_condition. split; lra.
  - lra.
  - lra.
Qed.

(** With at most 10^10 rows the hundredths found are nearest to the exact
    share: the rounding errors of the float computation are smaller than
    the distance of a share from the next half of a hundredth. *)
Lemma nearest_hundredth (k n total : Z) :
  0 < total ≤ 10 ^ 10 →
  (Qabs (inject_Z k / 100 - exact_share n total) <= percentage_tolerance)%Q →
  (Qabs (inject_Z k / 100 - exact_share n total) <= 1 # 200)%Q.
Proof.
  intros [Hpos Hle] H.
  set (D := 2 * total * k - 20000 * n).
  assert (0 < inject_Z total)%Q as HT
    by (change 0%Q with (inject_Z 0); by rewrite <-Zlt_Qlt).
  assert (inject_Z total <= 10000000000)%Q as HT'.
  { change 10000000000%Q with (inject_Z (10 ^ 10)). by rewrite <-Zle_Qle. }
  assert (inject_Z k / 100 - exact_share n total
          == inject_Z D / (200 * inject_Z total))%Q as HD.
  { unfold D, exact_share, Z.sub. rewrite inject_Z_plus, inject_Z_opp, !inject_Z_mult.
    change (inject_Z 2) with 2%Q. change (inject_Z 20000) with 20000%Q.
    field. lra. }
  rewrite HD in *.
  set (q := (inject_Z D / (200 * inject_Z total))%Q) in *.
  assert (inject_Z D == q * (200 * inject_Z total))%Q as Hq
    by (unfold q; field; lra).
  unfold percentage_tolerance in H.
  apply Qabs_Qle_condition in H as [Hlo Hhi].
  assert (0 <= 200 * inject_Z total)%Q as Hnn by lra.
  pose proof (Qmult_le_compat_r _ _ _ Hhi Hnn) as Hhi'.
  pose proof (Qmult_le_compat_r _ _ _ Hlo Hnn) as Hlo'.
  rewrite <-Hq in Hhi', Hlo'.
  assert (- total ≤ D ≤ total) as [HD1 HD2].
  { assert (inject_Z D < inject_Z (total + 1))%Q as H1.
    { rewrite inject_Z_plus. change (inject_Z 1) with 1%Q. lra. }
    assert (inject_Z (- total - 1) < inject_Z D)%Q as H2.
    { unfold Z.sub. rewrite inject_Z_plus, !inject_Z_opp. change (inject_Z 1) with 1%Q. lra. }
    rewrite <-Zlt_Qlt in H1, H2. lia. }
  rewrite Zle_Qle in HD1, HD2. rewrite inject_Z_opp in HD1.
  apply Qabs_Qle_condition. split.
  - apply Qle_shift_div_l; lra.
  - apply Qle_shift_div_r; lra.
Qed.

Lemma Qsum_shares (ns : list Z) (total : Z) :
  (Qsum ((λ n, exact_share n total) <$> ns)
   == inject_Z (sum ns) * (/ inject_Z total * 100))%Q.
Proof.
  induction ns as [|n ns IH].
  - simpl. ring.
  - rewrite fmap_cons, sum_cons, inject_Z_plus. simpl Qsum. rewrite IH.
    unfold exact_share, Qdiv. ring.
Qed.

(** The exact shares of the parts of a total add up to 100. *)
Lemma Qsum_shares_total (ns : list Z) :
  0 < sum ns →
  (Qsum ((λ n, exact_share n (sum ns)) <$> ns) == 100)%Q.
Proof.
  intros Hpos. rewrite Qsum_shares. field.
  intros Hz. unfold Qeq in Hz. simpl in Hz. lia.
Qed.

Lemma Qsum_percentage_error (ns : list Z) (total : Z) :
  Forall (λ n, 0 ≤ n ≤ total) ns → 0 < total →
  (Qabs (Qsum ((λ n, percentage_of n total) <$> ns)
         - Qsum ((λ n, exact_share n total) <$> ns))
   <= inject_Z (count ns) * percentage_tolerance)%Q.
Proof.
  intros Hns Hpos. induction Hns as [|n ns Hn Hns IH].
  - vm_compute. discriminate.
  - unfold count in *. rewrite length_cons, Nat2Z.inj_succ.
    unfold Z.succ. rewrite inject_Z_plus. change (inject_Z 1) with 1%Q.
    rewrite !fmap_cons. simpl Qsum.
    destruct (percentage_of_spec n total Hn Hpos) as (k & _ & _ & Hp & _).
    set (tol := percentage_tolerance) in *.
    apply Qabs_Qle_condition in Hp, IH. apply Qabs_Qle_condition.
    split; lra.
Qed.

(** ** Class distribution *)

Lemma class_counts_sum (df : DataFrame) : sum (class_counts df) = count df.
Proof.
  rewrite <-(count_groupby (λ r : Row, class_name r) df).
  unfold class_counts, groupby. by rewrite <-list_fmap_compose.
Qed.

Lemma class_stats_total (df : DataFrame) :
  sum ((λ '(_, n, _), n) <$> class_stats df) = count df.
Proof.
  rewrite <-class_counts_sum. unfold class_stats, class_counts, groupby.
  by rewrite <-!list_fmap_compose.
Qed.

Lemma class_distribution_unfold (df : DataFrame) :
  df ≠ [] →
  class_distribution df =
  class_entry df <$> group_keys (λ r : Row, class_name r) df.
Proof.
  intros Hne. destruct df as [|r df]; [done|].
  set (df' := r :: df). unfold class_distribution.
  fold df'. rewrite class_stats_total.
  unfold class_stats, groupby. by rewrite <-!list_fmap_compose.
Qed.

Lemma class_distribution_counts (df : DataFrame) :
  df ≠ [] →
  ClassDistributionResponse.booking_count <$> class_distribution df
  = class_counts df.
Proof.
  intros Hne. rewrite class_distribution_unfold by done.
  unfold class_counts. by rewrite <-list_fmap_compose.
Qed.

Lemma class_distribution_percentages (df : DataFrame) :
  df ≠ [] →
  ClassDistributionResponse.percentage <$> class_distribution df
  = (λ n, percentage_of n (sum (class_counts df))) <$> class_counts df.
Proof.
  intros Hne. rewrite class_distribution_unfold by done.
  rewrite class_counts_sum. unfold class_counts.
  by rewrite <-!list_fmap_compose.
Qed.

Lemma class_counts_range (df : DataFrame) :
  Forall (λ n, 0 ≤ n ≤ count df) (class_counts df).
Proof.
  unfold class_counts. apply Forall_fmap, Forall_forall. intros c _. simpl.
  split; [apply count_nonneg|].
  apply Nat2Z.inj_le, length_filter.
Qed.

(** C2: on a non-empty frame the class distribution has one entry per
    distinct class name; an entry's percentage is count / rows * 100
    rounded to 2 decimals, in floats: it is the float nearest to a number
    of hundredths [k / 100] that lies, like the percentage itself, within
    [percentage_tolerance] (0.005 + 10^-13) of the exact share, and that is
    a nearest number of hundredths to the exact share (within 0.005) on
    frames of at most 10^10 rows; the booking counts add up to the number
    of rows; the percentages add up to 100 within that tolerance per
    entry. *)
Theorem C2_class_distribution (df : DataFrame) :
  df ≠ [] →
  let out := class_distribution df in
  (∃ classes : list string,
     NoDup classes ∧
     (∀ c, c ∈ classes ↔ ∃ r : Row, r ∈ df ∧ class_name r = c) ∧
     out =
     (λ c,
        let n := count (rows_of_class c df) in
        ClassDistributionResponse.mk c n
          (inject_Z (sum (amounts (rows_of_class c df))))
          (percentage_of n (count df))) <$> classes) ∧
  (∀ e, e ∈ out →
     let share := exact_share (ClassDistributionResponse.booking_count e)
                    (count df) in
     ∃ k : Z,
       ClassDistributionResponse.percentage e = binary64 (inject_Z k / 100) ∧
       (Qabs (inject_Z k / 100 - share) <= percentage_tolerance)%Q ∧
       (count df ≤ 10 ^ 10 →
        (Qabs (inject_Z k / 100 - share) <= 1 # 200)%Q) ∧
       (Qabs (ClassDistributionResponse.percentage e - share)
        <= percentage_tolerance)%Q) ∧
  sum (ClassDistributionResponse.booking_count <$> out) = count df ∧
  (Qabs (Qsum (ClassDistributionResponse.percentage <$> out) - 100)
   <= inject_Z (count out) * percentage_tolerance)%Q.
Proof.
  intros Hne out. subst out.
  pose proof (count_pos df Hne) as Hpos.
  split_and!.
  - exists (group_keys (λ r : Row, class_name r) df). split_and!.
    + apply NoDup_group_keys.
    + intros c. apply elem_of_group_keys.
    + by apply class_distribution_unfold.
  - intros e. rewrite class_distribution_unfold by done.
    intros (c & -> & Hc)%list_elem_of_fmap share. subst share.
    unfold class_entry.
    cbn [ClassDistributionResponse.percentage
         ClassDistributionResponse.booking_count].
    destruct (percentage_of_spec (count (rows_of_class c df)) (count df))
      as (k & Hk & Hk' & Hp & _); [|done|].
    { split; [apply count_nonneg|]. apply Nat2Z.inj_le, length_filter. }
    exists k. split_and!; try done.
    intros Hsmall. by apply nearest_hundredth.
  - rewrite class_distribution_counts by done. apply class_counts_sum.
  - rewrite class_distribution_percentages by done.
    assert (0 < sum (class_counts df)) as Hsum
      by (by rewrite class_counts_sum).
    pose proof (Qsum_shares_total (class_counts df) Hsum) as Htot.
    assert (Forall (λ n, 0 ≤ n ≤ sum (class_counts df)) (class_counts df))
      as Hrange by (rewrite class_counts_sum; apply class_counts_range).
    pose proof (Qsum_percentage_error (class_counts df)
                  (sum (class_counts df)) Hrange Hsum) as Herr.
    assert (count (class_distribution df) = count (class_counts df)) as ->.
    { unfold count. f_equal.
      rewrite <-(length_fmap ClassDistributionResponse.booking_count).
      by rewrite class_distribution_counts. }
    set (tol := percentage_tolerance) in *.
    apply Qabs_Qle_condition in Herr. apply Qabs_Qle_condition.
    split; lra.
Qed.

Lemma C2_class_distribution_witness :
  let df := enrich [booking_ab; booking_ab'] in
  df ≠ [] ∧ count df ≤ 10 ^ 10 ∧
  sum (ClassDistributionResponse.booking_count <$> class_distribution df) = 2 ∧
  ∀ e, e ∈ class_distribution df →
    ∃ k : Z,
      ClassDistributionResponse.percentage e = binary64 (inject_Z k / 100) ∧
      (Qabs (inject_Z k / 100
             - exact_share (ClassDistributionResponse.booking_count e) (count df))
       <= 1 # 200)%Q.
Proof.
  intros df.
  assert (df ≠ []) as H1 by discriminate.
  assert (count df ≤ 10 ^ 10) as H2 by (vm_compute; discriminate).
  split; [exact H1|]. split; [exact H2|].
  destruct (C2_class_distribution df H1) as (_ & Hp & Hs & _).
  split; [exact Hs|].
  intros e He. destruct (Hp e He) as (k & Hk & _ & Hn & _).
  exists k. split; [exact Hk|exact (Hn H2)].
Defined.

(** ** Worked examples *)

Example strftime_examples :
  strftime 738960 = "2024-03-15" ∧ strftime 730179 = "2000-02-29" ∧
  strftime 738885 = "2023-12-31" ∧ strftime 719163 = "1970-01-01".
Proof. repeat split. Qed.

(** The float nearest to 0.1; integers are kept; the quotient 301/3 is
    rounded. *)
Example binary64_examples :
  binary64 (1 # 10) = (3602879701896397 # 36028797018963968)%Q ∧
  binary64 150 = 150%Q ∧
  binary64 (- (3 # 4)) = (- (3 # 4))%Q ∧
  fdiv 301 3 = (7060330665825621 # 70368744177664)%Q.
Proof. repeat split. Qed.

(** Halves go to the even neighbour: 12.5 to 12, 37.5 to 38; the float
    product 23/160 * 100 lies below 14.375 and goes to 14.37. *)
Example round_examples :
  round 2 (1 # 8) = binary64 (12 # 100) ∧
  round 2 (3 # 8) = binary64 (38 # 100) ∧
  fmul (fdiv 23 160) 100 = (8092405580431359 # 562949953421312)%Q ∧
  percentage_of 23 160 = binary64 (1437 # 100).
Proof. repeat split. Qed.

(** A share half way between two hundredths: of 160 bookings, 23 are in
    class "First"; the exact share 14.375 goes to 14.38 when halves go to
    the even neighbour, and the float computation, whose product lies just
    below 14.375, gives the float nearest to 14.37. *)
Example percentage_half_way :
  let df := enrich (replicate 23 (class_row "First")
                    ++ replicate 137 (class_row "Economy")) in
  count df = 160 ∧
  (λ e, (ClassDistributionResponse.class_name e,
         ClassDistributionResponse.booking_count e,
         ClassDistributionResponse.percentage e)) <$> class_distribution df
  = [("Economy", 137, binary64 (8562 # 100));
     ("First", 23, binary64 (1437 # 100))] ∧
  (exact_share 23 160 == 14375 # 1000)%Q ∧
  (exact_round2 (exact_share 23 160) == 1438 # 100)%Q ∧
  binary64 (1437 # 100) ≠ binary64 (1438 # 100) ∧
  ¬ (binary64 (1437 # 100) == exact_round2 (exact_share 23 160))%Q.
Proof.
  cbv zeta. split_and!; try (vm_compute; reflexivity);
    vm_compute; discriminate.
Qed.

(** Among rows of equal metric the earlier ones are kept, in their order. *)
Example nlargest_keeps_first :
  nlargest snd 3 [("a", 2); ("b", 3); ("c", 2); ("d", 3); ("e", 2)]
  = [("b", 3); ("d", 3); ("a", 2)].
Proof. reflexivity. Qed.

(** Three routes with 5, 3 and 1 bookings, limit 1: the route with 5. *)
Example popular_routes_top1 :
  popular_routes 1
    (enrich (sample_row 738960 "C" "D" 10
             :: replicate 3 (sample_row 738960 "B" "C" 10)
             ++ replicate 5 (sample_row 738960 "A" "B" 10)))
  = [PopularRouteResponse.mk "A" "B" 5 50 10].
Proof. vm_compute. reflexivity. Qed.

(** Ten routes with two bookings each and an eleventh with one: the top
    ten leave the eleventh out. *)
Example popular_routes_eleventh_route :
  let busy := ["B0"; "B1"; "B2"; "B3"; "B4"; "B5"; "B6"; "B7"; "B8"; "B9"] in
  let df := enrich ((busy ≫= λ o, replicate 2 (sample_row 738959 o "Z" 10))
                    ++ [sample_row 738960 "A" "B" 10]) in
  length (popular_routes 10 df) = 10%nat ∧
  (("A", "B") ∉ entry_pair <$> popular_routes 10 df) ∧
  count (rows_of_route "A" "B" df) = 1 ∧
  Forall (λ e, PopularRouteResponse.booking_count e = 2) (popular_routes 10 df).
Proof.
  cbv zeta. split_and!.
  - vm_compute. reflexivity.
  - apply (bool_decide_unpack _). vm_compute. reflexivity.
  - vm_compute. reflexivity.
  - apply (bool_decide_unpack _). vm_compute. reflexivity.
Qed.

(** Two dates with amounts [50, 150] and [100]. *)
Example daily_trends_two_dates :
  daily_booking_trends
    (enrich [sample_row 738961 "A" "B" 100; sample_row 738960 "A" "B" 50;
             sample_row 738960 "B" "C" 150])
  = [DailyBookingTrendResponse.mk "2024-03-15" 2 200;
     DailyBookingTrendResponse.mk "2024-03-16" 1 100].
Proof. vm_compute. reflexivity. Qed.

(** The loader on the store with one booking. *)
Example loader_one_booking :
  get_bookings_df 738970 one_booking_db None None
  = [mkRow booking_ab "A â†’ B" "Ann Lee"] ∧
  get_bookings_df 738991 one_booking_db None None = [].
Proof. split; vm_compute; reflexivity. Qed.

(** * Further properties of the module *)

(** ** Frames that differ in the order of their rows *)

Lemma sum_Permutation (l1 l2 : list Z) : l1 ≡ₚ l2 → sum l1 = sum l2.
Proof. induction 1; rewrite ?sum_cons; lia. Qed.

Lemma count_Permutation {A} (l1 l2 : list A) : l1 ≡ₚ l2 → count l1 = count l2.
Proof. intros Hp. unfold count. by rewrite Hp. Qed.

Lemma amounts_Permutation (g g' : list Row) : g ≡ₚ g' → amounts g ≡ₚ amounts g'.
Proof. intros Hp. unfold amounts. by rewrite Hp. Qed.

Lemma mean_Permutation (l1 l2 : list Z) : l1 ≡ₚ l2 → mean l1 = mean l2.
Proof.
  intros Hp. unfold mean.
  by rewrite (sum_Permutation _ _ Hp), (count_Permutation _ _ Hp).
Qed.

Section groupby_order.
Context {A K : Type} `{KeyOrderLaws K, EqDecision K}.
Implicit Types (key : A → K) (df : list A).

Lemma group_keys_order key df df' :
  df ≡ₚ df' → group_keys key df = group_keys key df'.
Proof.
  intros Hp. apply (StronglySorted_unique key_le).
  - apply StronglySorted_group_keys.
  - apply StronglySorted_group_keys.
  - rewrite !group_keys_Permutation.
    apply NoDup_Permutation; [apply NoDup_remove_dups..|].
    intros k. rewrite !elem_of_remove_dups. by rewrite Hp.
Qed.

(** An aggregate that does not look at the order of a group's rows gives
    the same table for two frames with the same rows. *)
Lemma groupby_agg_order {B} key (agg : K * list A → B) df df' :
  (∀ k g g', g ≡ₚ g' → agg (k, g) = agg (k, g')) →
  df ≡ₚ df' →
  agg <$> groupby key df = agg <$> groupby key df'.
Proof.
  intros Hagg Hp. unfold groupby. rewrite <-!list_fmap_compose.
  rewrite (group_keys_order key df df' Hp).
  apply list_fmap_ext. intros _ k _. simpl. apply Hagg. by rewrite Hp.
Qed.

Lemma groupby_as_keys {B} key (agg : K * list A → B) df :
  agg <$> groupby key df =
  (λ k, agg (k, filter (λ r, key r = k) df)) <$> group_keys key df.
Proof. unfold groupby. by rewrite <-list_fmap_compose. Qed.

End groupby_order.

(** ** Booking statistics *)

(** X1: on a non-empty frame the average booking value is the float
    nearest to total revenue divided by total bookings; on every frame it
    times the number of bookings differs from the total revenue by at most
    the total revenue times 2^-53 (0 * 0 = 0 on the empty one). *)
Theorem booking_statistics_average (df : DataFrame) :
  (df ≠ [] →
   BookingStatsResponse.average_booking_value (booking_statistics df)
   = binary64 (BookingStatsResponse.total_revenue (booking_statistics df)
               / inject_Z (BookingStatsResponse.total_bookings
                             (booking_statistics df)))%Q) ∧
  (Qabs (BookingStatsResponse.average_booking_value (booking_statistics df)
           * inject_Z (BookingStatsResponse.total_bookings
                         (booking_statistics df))
         - BookingStatsResponse.total_revenue (booking_statistics df))
   <= Qabs (BookingStatsResponse.total_revenue (booking_statistics df))
      * (1 # 2 ^ 53))%Q.
Proof.
  split.
  - intros Hne. destruct df as [|r df]; [done|].
    cbn [booking_statistics BookingStatsResponse.average_booking_value
         BookingStatsResponse.total_bookings BookingStatsResponse.total_revenue].
    by rewrite <-count_amounts.
  - destruct (decide (df = [])) as [->|Hne]; [vm_compute; discriminate|].
    destruct df as [|r df]; [done|].
    cbn [booking_statistics BookingStatsResponse.average_booking_value
         BookingStatsResponse.total_bookings BookingStatsResponse.total_revenue].
    rewrite <-count_amounts.
    apply mean_error, amounts_nonempty. done.
Qed.

Lemma booking_statistics_average_witness :
  enrich [sample_row 738960 "A" "B" 100; sample_row 738960 "A" "B" 100;
          sample_row 738960 "A" "B" 101] ≠ [] ∧
  BookingStatsResponse.average_booking_value
    (booking_statistics
       (enrich [sample_row 738960 "A" "B" 100; sample_row 738960 "A" "B" 100;
                sample_row 738960 "A" "B" 101]))
  = binary64 (301 / 3).
Proof.
  assert (enrich [sample_row 738960 "A" "B" 100; sample_row 738960 "A" "B" 100;
                  sample_row 738960 "A" "B" 101] ≠ []) as H1 by discriminate.
  split; [exact H1|].
  exact (proj1 (booking_statistics_average _) H1).
Defined.

Lemma value_counts_keys (col : list string) :
  ((λ k, (k, count (filter (λ x, x = k) col))) <$> remove_dups col).*1
  = remove_dups col.
Proof.
  rewrite <-list_fmap_compose.
  rewrite <-(list_fmap_id (remove_dups col)) at 2.
  by apply list_fmap_ext.
Qed.

(** A value that occurs is mapped to its number of occurrences; a value
    that does not occur is no key of the mapping. *)
Lemma value_counts_lookup (col : list string) (k : string) :
  value_counts col !! k =
  if decide (k ∈ col) then Some (count (filter (λ x, x = k) col)) else None.
Proof.
  unfold value_counts. destruct (decide (k ∈ col)) as [Hin|Hout].
  - apply elem_of_list_to_map_1.
    + rewrite value_counts_keys. apply NoDup_remove_dups.
    + apply list_elem_of_fmap. exists k. split; [done|].
      by apply elem_of_remove_dups.
  - apply not_elem_of_list_to_map_1.
    rewrite value_counts_keys. by rewrite elem_of_remove_dups.
Qed.

Lemma value_counts_total (col : list string) :
  map_total (value_counts col) = count col.
Proof.
  unfold map_total, value_counts.
  rewrite (sum_Permutation _
    (((λ k, (k, count (filter (λ x, x = k) col))) <$> remove_dups col).*2)).
  - rewrite <-list_fmap_compose. rewrite count_as_sum.
    rewrite <-(sum_group_total (λ x : string, x) (λ _, 1) col (remove_dups col)).
    + f_equal. apply list_fmap_ext. intros _ k _. simpl.
      unfold group_total. apply count_as_sum.
    + apply NoDup_remove_dups.
    + intros r Hr. by apply elem_of_remove_dups.
  - apply fmap_Permutation, map_to_list_to_map.
    rewrite value_counts_keys. apply NoDup_remove_dups.
Qed.

Lemma filter_fmap_length {A B} (f : A → B) (P : B → Prop)
    `{∀ y, Decision (P y)} (l : list A) :
  length (filter P (f <$> l)) = length (filter (λ x, P (f x)) l).
Proof.
  induction l as [|x l IH]; [done|].
  rewrite fmap_cons, !filter_cons.
  destruct (decide (P (f x))); simpl; by rewrite IH.
Qed.

Lemma count_of_column {A} (f : A → string) (k : string) (l : list A) :
  count (filter (λ x, x = k) (f <$> l)) = count (filter (λ r, f r = k) l).
Proof. unfold count. by rewrite filter_fmap_length. Qed.

Lemma elem_of_column_filter {A} (f : A → string) (k : string) (l : list A) :
  k ∈ f <$> l ↔ 0 < count (filter (λ r, f r = k) l).
Proof.
  rewrite list_elem_of_fmap. split.
  - intros (r & -> & Hr). apply count_pos.
    intros Hnil.
    assert (r ∈ filter (λ r', f r' = f r) l) as Hin
      by (by apply list_elem_of_filter).
    rewrite Hnil in Hin. by apply elem_of_nil in Hin.
  - intros Hpos. destruct (filter (λ r, f r = k) l) as [|r g] eqn:Hg.
    + unfold count in Hpos. simpl in Hpos. lia.
    + assert (r ∈ filter (λ r, f r = k) l) as Hin by (rewrite Hg; left).
      apply list_elem_of_filter in Hin as [? ?]. by exists r.
Qed.

Lemma booking_statistics_unfold (df : DataFrame) :
  df ≠ [] →
  booking_statistics df =
  BookingStatsResponse.mk
    (count df)
    (inject_Z (sum (amounts df)))
    (mean (amounts df))
    (value_counts ((λ r : Row, status r) <$> df))
    (value_counts ((λ r : Row, class_name r) <$> df)).
Proof. by destruct df. Qed.

(** X2: the two mappings of the booking statistics map a status (a class)
    to the number of bookings that have it, have no key for a status (a
    class) without booking, and their values add up to the total number of
    bookings. *)
Theorem booking_statistics_mappings (df : DataFrame) :
  let s := booking_statistics df in
  (∀ k n, BookingStatsResponse.bookings_by_status s !! k = Some n ↔
          n = count (rows_of_status k df) ∧ 0 < n) ∧
  (∀ k n, BookingStatsResponse.bookings_by_class s !! k = Some n ↔
          n = count (rows_of_class k df) ∧ 0 < n) ∧
  map_total (BookingStatsResponse.bookings_by_status s)
    = BookingStatsResponse.total_bookings s ∧
  map_total (BookingStatsResponse.bookings_by_class s)
    = BookingStatsResponse.total_bookings s.
Proof.
  assert (∀ (f : Row → string) k n,
    value_counts (f <$> df) !! k = Some n ↔
    n = count (filter (λ r, f r = k) df) ∧ 0 < n) as Hlookup.
  { intros f k n. rewrite value_counts_lookup, count_of_column.
    destruct (decide (k ∈ f <$> df)) as [Hin|Hout].
    - apply elem_of_column_filter in Hin. split.
      + intros [= <-]. done.
      + intros [-> _]. done.
    - rewrite elem_of_column_filter in Hout. split; [done|].
      intros [-> ?]. done. }
  intros s. subst s. destruct (decide (df = [])) as [->|Hne].
  - simpl. split_and!; try done.
    + intros k n. rewrite lookup_empty. split; [done|].
      intros [-> ?]. unfold count in *. simpl in *. lia.
    + intros k n. rewrite lookup_empty. split; [done|].
      intros [-> ?]. unfold count in *. simpl in *. lia.
  - rewrite booking_statistics_unfold by done.
    cbn [BookingStatsResponse.bookings_by_status
         BookingStatsResponse.bookings_by_class
         BookingStatsResponse.total_bookings].
    split_and!.
    + apply Hlookup.
    + apply Hlookup.
    + rewrite value_counts_total. unfold count. by rewrite length_fmap.
    + rewrite value_counts_total. unfold count. by rewrite length_fmap.
Qed.

(** ** The largest groups of a frame *)

Section top_groups.
Context {A K B : Type} `{KeyOrderLaws K, EqDecision K}.
Context (key : A → K) (h : K → list A → B) (metric : B → Z) (keyof : B → K).
Hypothesis keyof_h : ∀ k g, keyof (h k g) = k.

Lemma group_stats_keys df :
  keyof <$> ((λ kg, h kg.1 kg.2) <$> groupby key df) = group_keys key df.
Proof.
  rewrite <-list_fmap_compose, <-groupby_keys.
  apply list_fmap_ext. intros _ [k g] _. simpl. apply keyof_h.
Qed.

Lemma elem_of_group_stats df b :
  b ∈ (λ kg, h kg.1 kg.2) <$> groupby key df ↔
  ∃ r, r ∈ df ∧ b = h (key r) (filter (λ r', key r' = key r) df).
Proof.
  rewrite list_elem_of_fmap. split.
  - intros ([k g] & -> & Hin). simpl.
    apply elem_of_groupby in Hin as [(r & Hr & <-)%elem_of_group_keys ->].
    by exists r.
  - intros (r & Hr & ->).
    exists (key r, filter (λ r', key r' = key r) df). split; [done|].
    apply elem_of_groupby. split; [|done].
    apply elem_of_group_keys. by exists r.
Qed.

Lemma group_stats_length df :
  length ((λ kg, h kg.1 kg.2) <$> groupby key df)
  = length (remove_dups (key <$> df)).
Proof.
  rewrite <-(length_fmap keyof), group_stats_keys.
  apply Permutation_length, group_keys_Permutation.
Qed.

(** The [n] largest of the per-group rows: as many as there are groups, up
    to [n]; one per key; each the aggregate of the rows of its key; in
    descending order; and no group left out is larger than one kept. *)
Lemma nlargest_groups n df :
  let out := nlargest metric n ((λ kg, h kg.1 kg.2) <$> groupby key df) in
  length out = (n `min` length (remove_dups (key <$> df)))%nat ∧
  NoDup (keyof <$> out) ∧
  (∀ b, b ∈ out →
     ∃ r, r ∈ df ∧ key r = keyof b ∧
          b = h (keyof b) (filter (λ r', key r' = keyof b) df)) ∧
  StronglySorted (desc metric) out ∧
  (∀ r b, r ∈ df → key r ∉ keyof <$> out → b ∈ out →
     metric (h (key r) (filter (λ r', key r' = key r) df)) ≤ metric b).
Proof.
  intros out. subst out. split_and!.
  - by rewrite nlargest_length, group_stats_length.
  - apply nlargest_fmap_NoDup. rewrite group_stats_keys.
    apply NoDup_group_keys.
  - intros b Hb. apply elem_of_nlargest, elem_of_group_stats in Hb.
    destruct Hb as (r & Hr & ->). exists r. by rewrite keyof_h.
  - apply nlargest_sorted.
  - intros r b Hr Hnot Hb.
    set (br := h (key r) (filter (λ r', key r' = key r) df)).
    apply (nlargest_omitted metric n
             ((λ kg, h kg.1 kg.2) <$> groupby key df)); [| |done].
    + apply elem_of_group_stats. by exists r.
    + intros Hin. apply Hnot. apply list_elem_of_fmap.
      exists br. split; [|done]. unfold br. by rewrite keyof_h.
Qed.

End top_groups.

Section nlargest_more.
Context {A : Type} (metric : A → Z).
Implicit Types (l : list A) (n m : nat).

(** A smaller limit gives a prefix of the result of a larger one. *)
Lemma nlargest_prefix n m l :
  (n ≤ m)%nat → nlargest metric n l = take n (nlargest metric m l).
Proof.
  intros Hle. unfold nlargest. rewrite take_take. f_equal. lia.
Qed.

Lemma nlargest_all n l :
  (length l ≤ n)%nat → nlargest metric n l ≡ₚ l.
Proof.
  intros Hle. unfold nlargest. rewrite take_ge.
  - apply sort_desc_Permutation.
  - by rewrite sort_desc_Permutation.
Qed.

Lemma sum_nonneg (xs : list Z) : Forall (λ x, 0 ≤ x) xs → 0 ≤ sum xs.
Proof. induction 1; rewrite ?sum_cons; [done|lia]. Qed.

Lemma sum_app (l1 l2 : list Z) : sum (l1 ++ l2) = sum l1 + sum l2.
Proof.
  induction l1 as [|x l1 IH]; [done|].
  change ((x :: l1) ++ l2) with (x :: (l1 ++ l2)). rewrite !sum_cons. lia.
Qed.

(** With non-negative weights the rows kept weigh no more than all. *)
Lemma nlargest_sum_le (w : A → Z) n l :
  Forall (λ x, 0 ≤ w x) l →
  sum (w <$> nlargest metric n l) ≤ sum (w <$> l).
Proof.
  intros Hw.
  rewrite <-(sum_Permutation _ _ (fmap_Permutation w _ _ (nlargest_split metric n l))).
  rewrite fmap_app, sum_app.
  assert (0 ≤ sum (w <$> drop n (sort_desc metric l))); [|lia].
  apply sum_nonneg, Forall_fmap, Forall_forall. intros x Hx.
  rewrite Forall_forall in Hw. apply Hw.
  rewrite <-(sort_desc_Permutation metric l).
  rewrite <-(take_drop n (sort_desc metric l)). apply elem_of_app. by right.
Qed.

End nlargest_more.

(** ** Top spenders *)

Lemma inject_Z_le (x y : Z) : x ≤ y → (inject_Z x <= inject_Z y)%Q.
Proof. intros Hle. by rewrite <-Zle_Qle. Qed.

Lemma top_spending_passengers_unfold (limit : nat) (df : DataFrame) :
  top_spending_passengers limit df =
  (λ '(nm, em, n, s), TopSpender.mk nm em n (inject_Z s))
    <$> nlargest snd limit
          ((λ kg : string * string * list Row,
              (kg.1.1, kg.1.2, count kg.2, sum (amounts kg.2)))
             <$> groupby passenger_key df).
Proof.
  destruct df as [|r df]; [by destruct limit|].
  unfold top_spending_passengers, passenger_stats. do 2 f_equal.
  apply list_fmap_ext. by intros _ [[nm em] g] _.
Qed.

(** X3: the top spenders are min(limit, number of passengers) entries, one
    per (name, email) pair; each carries the number of the passenger's
    bookings and the sum of their amounts; the entries are in descending
    order of the amount spent, and no passenger left out has spent more
    than one listed. *)
Theorem top_spending_passengers_spec (limit : nat) (df : DataFrame) :
  let out := top_spending_passengers limit df in
  length out = (limit `min` length (remove_dups (passenger_key <$> df)))%nat ∧
  NoDup (spender_key <$> out) ∧
  (∀ e, e ∈ out →
     let g := rows_of_passenger (TopSpender.name e) (TopSpender.email e) df in
     g ≠ [] ∧
     TopSpender.total_bookings e = count g ∧
     TopSpender.total_spent e = inject_Z (sum (amounts g))) ∧
  StronglySorted
    (λ e1 e2, (TopSpender.total_spent e2 <= TopSpender.total_spent e1)%Q) out ∧
  (∀ r e, r ∈ df → passenger_key r ∉ spender_key <$> out → e ∈ out →
     (inject_Z (sum (amounts
        (rows_of_passenger (passenger_name r) (email_address r) df)))
      <= TopSpender.total_spent e)%Q).
Proof.
  intros out. subst out. rewrite top_spending_passengers_unfold.
  set (h := λ (k : string * string) (g : list Row),
              (k.1, k.2, count g, sum (amounts g))).
  set (keyof := λ b : string * string * Z * Z, (b.1.1.1, b.1.1.2)).
  destruct (nlargest_groups passenger_key h snd keyof
              (λ k g, ltac:(by destruct k)) limit df)
    as (Hlen & Hnd & Hin & Hsorted & Homit).
  change ((λ kg : string * string * list Row,
             (kg.1.1, kg.1.2, count kg.2, sum (amounts kg.2)))
            <$> groupby passenger_key df)
    with ((λ kg, h kg.1 kg.2) <$> groupby passenger_key df).
  set (top := nlargest snd limit ((λ kg, h kg.1 kg.2) <$> groupby passenger_key df))
    in *.
  assert (spender_key <$>
            ((λ '(nm, em, n, s), TopSpender.mk nm em n (inject_Z s)) <$> top)
          = keyof <$> top) as Hkeys.
  { rewrite <-list_fmap_compose. apply list_fmap_ext.
    by intros _ [[[nm em] n] s] _. }
  split_and!.
  - by rewrite length_fmap.
  - by rewrite Hkeys.
  - intros e (b & -> & Hb)%list_elem_of_fmap g.
    destruct (Hin b Hb) as (r & Hr & Hk & Hbe).
    destruct b as [[[nm em] n] s]. simpl in *. subst g.
    injection Hbe as -> ->. unfold rows_of_passenger. split_and!; try done.
    intros Hnil.
    assert (r ∈ filter (λ r', passenger_key r' = (nm, em)) df) as Hr'
      by (by apply list_elem_of_filter).
    rewrite Hnil in Hr'. by apply elem_of_nil in Hr'.
  - apply (StronglySorted_fmap _ (desc snd)); [|done].
    intros [[[nm em] n] s] [[[nm' em'] n'] s'] Hd.
    cbn [TopSpender.total_spent]. by apply inject_Z_le.
  - intros r e Hr Hnot (b & -> & Hb)%list_elem_of_fmap.
    rewrite Hkeys in Hnot. specialize (Homit r b Hr Hnot Hb).
    destruct b as [[[nm em] n] s].
    cbn [TopSpender.total_spent]. by apply inject_Z_le.
Qed.

(** ** Journey performance *)

Lemma journey_performance_unfold (limit : nat) (df : DataFrame) :
  journey_performance limit df =
  (λ '(j, n, s, m), JourneyPerformance.mk j n (inject_Z s) m)
    <$> nlargest (λ x : string * Z * Z * Q, x.1.1.2) limit
          ((λ kg : string * list Row,
              (kg.1, count kg.2, sum (amounts kg.2), mean (amounts kg.2)))
             <$> groupby (λ r : Row, journey_name r) df).
Proof.
  destruct df as [|r df]; [by destruct limit|].
  unfold journey_performance, journey_stats. do 2 f_equal.
  apply list_fmap_ext. by intros _ [j g] _.
Qed.

(** X4: the journey performance is min(limit, number of journeys) entries,
    one per journey name; each carries the number of the journey's
    bookings, the sum of their amounts and their float mean, so that mean
    times number differs from the sum by at most the sum times 2^-53; the
    entries are in descending order of the number of bookings, and no
    journey left out has more bookings than one listed. *)
Theorem journey_performance_spec (limit : nat) (df : DataFrame) :
  let out := journey_performance limit df in
  length out
    = (limit `min` length (remove_dups ((λ r : Row, journey_name r) <$> df)))%nat ∧
  NoDup (JourneyPerformance.journey_name <$> out) ∧
  (∀ e, e ∈ out →
     let g := rows_of_journey (JourneyPerformance.journey_name e) df in
     g ≠ [] ∧
     JourneyPerformance.total_bookings e = count g ∧
     JourneyPerformance.total_revenue e = inject_Z (sum (amounts g)) ∧
     JourneyPerformance.average_booking_value e = mean (amounts g) ∧
     (Qabs (JourneyPerformance.average_booking_value e
              * inject_Z (JourneyPerformance.total_bookings e)
            - JourneyPerformance.total_revenue e)
      <= Qabs (JourneyPerformance.total_revenue e) * (1 # 2 ^ 53))%Q) ∧
  StronglySorted
    (λ e1 e2, JourneyPerformance.total_bookings e2
              ≤ JourneyPerformance.total_bookings e1) out ∧
  (∀ (r : Row) e, r ∈ df →
     journey_name r ∉ JourneyPerformance.journey_name <$> out → e ∈ out →
     count (rows_of_journey (journey_name r) df)
     ≤ JourneyPerformance.total_bookings e).
Proof.
  intros out. subst out. rewrite journey_performance_unfold.
  set (h := λ (k : string) (g : list Row),
              (k, count g, sum (amounts g), mean (amounts g))).
  set (keyof := λ b : string * Z * Z * Q, b.1.1.1).
  set (metric := λ x : string * Z * Z * Q, x.1.1.2).
  destruct (nlargest_groups (λ r : Row, journey_name r) h metric keyof
              (λ k g, eq_refl) limit df)
    as (Hlen & Hnd & Hin & Hsorted & Homit).
  change ((λ kg : string * list Row,
             (kg.1, count kg.2, sum (amounts kg.2), mean (amounts kg.2)))
            <$> groupby (λ r : Row, journey_name r) df)
    with ((λ kg, h kg.1 kg.2) <$> groupby (λ r : Row, journey_name r) df).
  set (top := nlargest metric limit
                ((λ kg, h kg.1 kg.2) <$> groupby (λ r : Row, journey_name r) df))
    in *.
  assert (JourneyPerformance.journey_name <$>
            ((λ '(j, n, s, m), JourneyPerformance.mk j n (inject_Z s) m) <$> top)
          = keyof <$> top) as Hkeys.
  { rewrite <-list_fmap_compose. apply list_fmap_ext.
    by intros _ [[[j n] s] m] _. }
  split_and!.
  - by rewrite length_fmap.
  - by rewrite Hkeys.
  - intros e (b & -> & Hb)%list_elem_of_fmap g.
    destruct (Hin b Hb) as (r & Hr & Hk & Hbe).
    destruct b as [[[j n] s] m]. unfold keyof, h in Hk, Hbe.
    simpl in Hk, Hbe. subst g.
    cbn [JourneyPerformance.journey_name JourneyPerformance.total_bookings
         JourneyPerformance.total_revenue
         JourneyPerformance.average_booking_value].
    injection Hbe as -> -> ->. unfold rows_of_journey.
    assert (filter (λ r' : Row, journey_name r' = j) df ≠ []) as Hne.
    { intros Hnil.
      assert (r ∈ filter (λ r' : Row, journey_name r' = j) df) as Hr'
        by (by apply list_elem_of_filter).
      rewrite Hnil in Hr'. by apply elem_of_nil in Hr'. }
    split_and!; try done.
    rewrite <-count_amounts. by apply mean_error, amounts_nonempty.
  - apply (StronglySorted_fmap _ (desc metric)); [|done].
    by intros [[[j n] s] m] [[[j' n'] s'] m'] Hd.
  - intros r e Hr Hnot (b & -> & Hb)%list_elem_of_fmap.
    rewrite Hkeys in Hnot. specialize (Homit r b Hr Hnot Hb).
    by destruct b as [[[j n] s] m].
Qed.

(** ** Revenue statistics *)

Lemma revenue_by_route_unfold (df : DataFrame) :
  RevenueStatsResponse.revenue_by_route (revenue_statistics df) =
  (λ '(rt, s), RevenueStatsResponse.mk_by_route rt s)
    <$> nlargest snd 10
          ((λ kg : string * list Row, (kg.1, sum (amounts kg.2)))
             <$> groupby (λ r : Row, route r) df).
Proof.
  destruct df as [|r df]; [done|].
  unfold revenue_statistics.
  cbn [RevenueStatsResponse.revenue_by_route]. do 2 f_equal.
  apply list_fmap_ext. by intros _ [rt g] _.
Qed.

(** X5: the revenue by route is min(10, number of route labels) entries,
    one per label; each carries the sum of the amounts of the bookings with
    that label; the entries are in descending order of revenue, and no
    label left out has a larger revenue than one listed. *)
Theorem revenue_by_route_spec (df : DataFrame) :
  let out := RevenueStatsResponse.revenue_by_route (revenue_statistics df) in
  length out = (10 `min` length (remove_dups ((λ r : Row, route r) <$> df)))%nat ∧
  NoDup (RevenueStatsResponse.route <$> out) ∧
  (∀ e, e ∈ out →
     let g := rows_of_label (RevenueStatsResponse.route e) df in
     g ≠ [] ∧ RevenueStatsResponse.route_revenue e = sum (amounts g)) ∧
  StronglySorted
    (λ e1 e2, RevenueStatsResponse.route_revenue e2
              ≤ RevenueStatsResponse.route_revenue e1) out ∧
  (∀ (r : Row) e, r ∈ df →
     route r ∉ RevenueStatsResponse.route <$> out → e ∈ out →
     sum (amounts (rows_of_label (route r) df))
     ≤ RevenueStatsResponse.route_revenue e).
Proof.
  intros out. subst out. rewrite revenue_by_route_unfold.
  set (h := λ (k : string) (g : list Row), (k, sum (amounts g))).
  destruct (nlargest_groups (λ r : Row, route r) h snd fst
              (λ k g, eq_refl) 10 df)
    as (Hlen & Hnd & Hin & Hsorted & Homit).
  change ((λ kg : string * list Row, (kg.1, sum (amounts kg.2)))
            <$> groupby (λ r : Row, route r) df)
    with ((λ kg, h kg.1 kg.2) <$> groupby (λ r : Row, route r) df).
  set (top := nlargest snd 10
                ((λ kg, h kg.1 kg.2) <$> groupby (λ r : Row, route r) df)) in *.
  assert (RevenueStatsResponse.route <$>
            ((λ '(rt, s), RevenueStatsResponse.mk_by_route rt s) <$> top)
          = fst <$> top) as Hkeys.
  { rewrite <-list_fmap_compose. apply list_fmap_ext. by intros _ [rt s] _. }
  split_and!.
  - by rewrite length_fmap.
  - by rewrite Hkeys.
  - intros e (b & -> & Hb)%list_elem_of_fmap g.
    destruct (Hin b Hb) as (r & Hr & Hk & Hbe).
    destruct b as [rt s]. unfold h in Hbe. simpl in Hk, Hbe. subst g.
    cbn [RevenueStatsResponse.route RevenueStatsResponse.route_revenue].
    injection Hbe as ->. unfold rows_of_label. split; [|done].
    intros Hnil.
    assert (r ∈ filter (λ r' : Row, route r' = rt) df) as Hr'
      by (by apply list_elem_of_filter).
    rewrite Hnil in Hr'. by apply elem_of_nil in Hr'.
  - apply (StronglySorted_fmap _ (desc snd)); [|done].
    by intros [rt s] [rt' s'] Hd.
  - intros r e Hr Hnot (b & -> & Hb)%list_elem_of_fmap.
    rewrite Hkeys in Hnot. specialize (Homit r b Hr Hnot Hb).
    by destruct b as [rt s].
Qed.

Lemma revenue_by_date_unfold (df : DataFrame) :
  RevenueStatsResponse.revenue_by_date (revenue_statistics df) =
  (λ kg : Date * list Row,
     RevenueStatsResponse.mk_by_date (strftime kg.1) (sum (amounts kg.2)))
    <$> groupby (λ r : Row, booking_date r) df.
Proof.
  destruct df as [|r df]; [done|].
  unfold revenue_statistics. cbn [RevenueStatsResponse.revenue_by_date].
  rewrite <-list_fmap_compose. apply list_fmap_ext. by intros _ [d g] _.
Qed.

Lemma daily_booking_trends_unfold (df : DataFrame) :
  daily_booking_trends df =
  (λ kg : Date * list Row,
     DailyBookingTrendResponse.mk
       (strftime kg.1) (count kg.2) (inject_Z (sum (amounts kg.2))))
    <$> groupby (λ r : Row, booking_date r) df.
Proof.
  destruct df as [|r df]; [done|].
  unfold daily_booking_trends, daily_stats.
  rewrite <-list_fmap_compose. apply list_fmap_ext. by intros _ [d g] _.
Qed.

(** X6: the revenue by date has the dates and the revenues of the daily
    trends of the same frame, entry by entry; its revenues add up to the
    frame's total, which is the total revenue of both the revenue and the
    booking statistics. *)
Theorem revenue_by_date_spec (df : DataFrame) :
  let rs := revenue_statistics df in
  (λ e, (RevenueStatsResponse.date e,
         inject_Z (RevenueStatsResponse.date_revenue e)))
    <$> RevenueStatsResponse.revenue_by_date rs
  = (λ e, (DailyBookingTrendResponse.date e, DailyBookingTrendResponse.revenue e))
      <$> daily_booking_trends df ∧
  inject_Z (sum (RevenueStatsResponse.date_revenue
                   <$> RevenueStatsResponse.revenue_by_date rs))
  = RevenueStatsResponse.total_revenue rs ∧
  RevenueStatsResponse.total_revenue rs
  = BookingStatsResponse.total_revenue (booking_statistics df).
Proof.
  intros rs. subst rs. split_and!.
  - rewrite revenue_by_date_unfold, daily_booking_trends_unfold.
    rewrite <-!list_fmap_compose. done.
  - rewrite revenue_by_date_unfold, <-list_fmap_compose.
    rewrite (sum_groupby (λ r : Row, booking_date r)
               (λ r : Row, amount_paid r) df).
    by destruct df.
  - by destruct df.
Qed.

(** ** Bookings accounted for by the popular routes *)

Lemma popular_routes_unfold_all (limit : nat) (df : DataFrame) :
  popular_routes limit df =
  to_PopularRouteResponse <$> nlargest rs_booking_count limit (route_stats df).
Proof. destruct df; [by destruct limit|done]. Qed.

Lemma route_stats_counts (df : DataFrame) :
  sum (rs_booking_count <$> route_stats df) = count df.
Proof.
  unfold route_stats. rewrite <-list_fmap_compose.
  rewrite <-(count_groupby route_key df). f_equal.
  apply list_fmap_ext. by intros _ [[[o d] rt] g] _.
Qed.

Lemma route_stats_length (df : DataFrame) :
  length (route_stats df) = length (remove_dups (route_key <$> df)).
Proof.
  rewrite <-(length_fmap (λ s, (rs_origin s, rs_destination s, rs_route s))).
  rewrite route_stats_keys. apply Permutation_length, group_keys_Permutation.
Qed.

(** X7: the booking counts of the popular routes add up to at most the
    number of rows, and to exactly that number when the limit is not below
    the number of distinct routes. *)
Theorem popular_routes_counts (limit : nat) (df : DataFrame) :
  sum (PopularRouteResponse.booking_count <$> popular_routes limit df)
    ≤ count df ∧
  ((length (remove_dups (route_key <$> df)) ≤ limit)%nat →
   sum (PopularRouteResponse.booking_count <$> popular_routes limit df)
     = count df).
Proof.
  rewrite popular_routes_unfold_all, <-list_fmap_compose.
  change (PopularRouteResponse.booking_count ∘ to_PopularRouteResponse)
    with rs_booking_count.
  split.
  - rewrite <-route_stats_counts. apply nlargest_sum_le.
    apply Forall_forall. intros s (k & g & _ & ->)%elem_of_route_stats.
    apply count_nonneg.
  - intros Hle. rewrite <-route_stats_counts.
    apply sum_Permutation, fmap_Permutation, nlargest_all.
    by rewrite route_stats_length.
Qed.

Lemma popular_routes_counts_witness :
  (length (remove_dups (route_key <$> enrich [booking_ab; booking_ab'])) ≤ 10)%nat ∧
  sum (PopularRouteResponse.booking_count
         <$> popular_routes 10 (enrich [booking_ab; booking_ab'])) = 2.
Proof.
  assert (length (remove_dups (route_key <$> enrich [booking_ab; booking_ab']))
          ≤ 10)%nat as H1 by (vm_compute; lia).
  split; [exact H1|].
  exact (proj2 (popular_routes_counts 10 (enrich [booking_ab; booking_ab'])) H1).
Defined.

(** ** The dashboard as a whole *)

Lemma Qsum_inject_Z (l : list Z) : (Qsum (inject_Z <$> l) == inject_Z (sum l))%Q.
Proof.
  induction l as [|x l IH]; [reflexivity|].
  rewrite fmap_cons, sum_cons, inject_Z_plus. simpl Qsum. by rewrite IH.
Qed.

Lemma booking_statistics_totals (df : DataFrame) :
  BookingStatsResponse.total_bookings (booking_statistics df) = count df ∧
  BookingStatsResponse.total_revenue (booking_statistics df)
  = inject_Z (sum (amounts df)).
Proof. by destruct df. Qed.

Lemma daily_trends_totals (df : DataFrame) :
  sum (DailyBookingTrendResponse.booking_count <$> daily_booking_trends df)
    = count df ∧
  (Qsum (DailyBookingTrendResponse.revenue <$> daily_booking_trends df)
   == inject_Z (sum (amounts df)))%Q.
Proof.
  rewrite daily_booking_trends_unfold, <-!list_fmap_compose. split.
  - apply (count_groupby (λ r : Row, booking_date r) df).
  - change (amounts df) with ((λ r : Row, amount_paid r) <$> df).
    rewrite <-(sum_groupby (λ r : Row, booking_date r)
                 (λ r : Row, amount_paid r) df).
    rewrite <-Qsum_inject_Z, <-list_fmap_compose. done.
Qed.

Lemma class_distribution_totals (df : DataFrame) :
  sum (ClassDistributionResponse.booking_count <$> class_distribution df)
    = count df ∧
  (Qsum (ClassDistributionResponse.revenue <$> class_distribution df)
   == inject_Z (sum (amounts df)))%Q.
Proof.
  destruct (decide (df = [])) as [->|Hne]; [done|]. split.
  - rewrite class_distribution_counts by done. apply class_counts_sum.
  - rewrite class_distribution_unfold by done.
    change (amounts df) with ((λ r : Row, amount_paid r) <$> df).
    rewrite <-(sum_groupby (λ r : Row, class_name r)
                 (λ r : Row, amount_paid r) df).
    rewrite <-Qsum_inject_Z, <-!list_fmap_compose.
    unfold groupby. rewrite <-list_fmap_compose. done.
Qed.

Lemma closed_window_Permutation db db' s e :
  joined db ≡ₚ joined db' → closed_window db s e ≡ₚ closed_window db' s e.
Proof.
  intros Hp. unfold closed_window, enrich.
  apply fmap_Permutation. by rewrite Hp.
Qed.

(** X8: the four parts of a dashboard response come from four queries and
    two readings of the date.  Whatever these see, the popular routes are
    at most ten, and the booking counts and revenues of the daily trends
    and of the class distribution add up to the number and the amount sum
    of the rows of their own query.  A part agrees with the overview when
    its query saw the same joined rows as the overview's, in any order
    (and, for the daily trends, the date read was the same): then the daily
    and the class counts add up to the overview's total bookings, their
    revenues to its total revenue, and the popular routes account for at
    most the total bookings. *)
Theorem dashboard_consistency (today today_trends : Date)
    (db_overview db_trends db_routes db_classes : Database) (days : Z) :
  let r := dashboard_run today today_trends
             db_overview db_trends db_routes db_classes days in
  let total := BookingStatsResponse.total_bookings
                 (AnalyticsDashboardResponse.overview r) in
  let revenue := BookingStatsResponse.total_revenue
                   (AnalyticsDashboardResponse.overview r) in
  (length (AnalyticsDashboardResponse.popular_routes r) ≤ 10)%nat ∧
  sum (DailyBookingTrendResponse.booking_count
         <$> AnalyticsDashboardResponse.daily_trends r)
    = count (closed_window db_trends (today_trends - days) today_trends) ∧
  sum (ClassDistributionResponse.booking_count
         <$> AnalyticsDashboardResponse.class_distribution r)
    = count (closed_window db_classes (today - days) today) ∧
  total = count (closed_window db_overview (today - days) today) ∧
  (today_trends = today → joined db_trends ≡ₚ joined db_overview →
   sum (DailyBookingTrendResponse.booking_count
          <$> AnalyticsDashboardResponse.daily_trends r) = total ∧
   (Qsum (DailyBookingTrendResponse.revenue
            <$> AnalyticsDashboardResponse.daily_trends r) == revenue)%Q) ∧
  (joined db_classes ≡ₚ joined db_overview →
   sum (ClassDistributionResponse.booking_count
          <$> AnalyticsDashboardResponse.class_distribution r) = total ∧
   (Qsum (ClassDistributionResponse.revenue
            <$> AnalyticsDashboardResponse.class_distribution r) == revenue)%Q) ∧
  (joined db_routes ≡ₚ joined db_overview →
   sum (PopularRouteResponse.booking_count
          <$> AnalyticsDashboardResponse.popular_routes r) ≤ total).
Proof.
  intros r total revenue. subst total revenue r.
  rewrite dashboard_run_unfold.
  cbn [AnalyticsDashboardResponse.overview
       AnalyticsDashboardResponse.daily_trends
       AnalyticsDashboardResponse.popular_routes
       AnalyticsDashboardResponse.class_distribution].
  set (df1 := closed_window db_overview (today - days) today).
  destruct (booking_statistics_totals df1) as [-> ->].
  split_and!.
  - rewrite popular_routes_unfold_all, length_fmap, nlargest_length. lia.
  - apply daily_trends_totals.
  - apply class_distribution_totals.
  - done.
  - intros -> Hp.
    destruct (daily_trends_totals (closed_window db_trends (today - days) today))
      as [-> ->].
    pose proof (closed_window_Permutation _ _ (today - days) today Hp) as Hdf.
    fold df1 in Hdf.
    by rewrite (count_Permutation _ _ Hdf),
      (sum_Permutation _ _ (amounts_Permutation _ _ Hdf)).
  - intros Hp.
    destruct (class_distribution_totals
                (closed_window db_classes (today - days) today)) as [-> ->].
    pose proof (closed_window_Permutation _ _ (today - days) today Hp) as Hdf.
    fold df1 in Hdf.
    by rewrite (count_Permutation _ _ Hdf),
      (sum_Permutation _ _ (amounts_Permutation _ _ Hdf)).
  - intros Hp.
    pose proof (closed_window_Permutation _ _ (today - days) today Hp) as Hdf.
    fold df1 in Hdf.
    rewrite <-(count_Permutation _ _ Hdf).
    rewrite popular_routes_unfold_all, <-list_fmap_compose.
    change (PopularRouteResponse.booking_count ∘ to_PopularRouteResponse)
      with rs_booking_count.
    rewrite <-route_stats_counts. apply nlargest_sum_le.
    apply Forall_forall. intros s (k & g & _ & ->)%elem_of_route_stats.
    apply count_nonneg.
Qed.

Lemma dashboard_consistency_witness :
  let r := dashboard_run 738960 738960
             one_booking_db one_booking_db one_booking_db one_booking_db 1 in
  (738960 : Date) = 738960 ∧
  joined one_booking_db ≡ₚ joined one_booking_db ∧
  sum (DailyBookingTrendResponse.booking_count
         <$> AnalyticsDashboardResponse.daily_trends r)
  = BookingStatsResponse.total_bookings (AnalyticsDashboardResponse.overview r) ∧
  sum (ClassDistributionResponse.booking_count
         <$> AnalyticsDashboardResponse.class_distribution r)
  = BookingStatsResponse.total_bookings (AnalyticsDashboardResponse.overview r) ∧
  sum (PopularRouteResponse.booking_count
         <$> AnalyticsDashboardResponse.popular_routes r)
  ≤ BookingStatsResponse.total_bookings (AnalyticsDashboardResponse.overview r).
Proof.
  pose proof (dashboard_consistency 738960 738960
                one_booking_db one_booking_db one_booking_db one_booking_db 1)
    as (_ & _ & _ & _ & Hd & Hc & Hr).
  assert ((738960 : Date) = 738960) as H1 by reflexivity.
  assert (joined one_booking_db ≡ₚ joined one_booking_db) as H2 by reflexivity.
  split; [exact H1|]. split; [exact H2|].
  split; [exact (proj1 (Hd H1 H2))|].
  split; [exact (proj1 (Hc H2))|].
  exact (Hr H2).
Defined.

(** ** The loader and the store *)

Lemma record_rows_dangling db b : dangling db b → record_rows db b = [].
Proof.
  intros Hd. apply elem_of_nil_inv. intros q Hq.
  apply elem_of_record_rows in Hq
    as (s1 & s2 & cc & bs & p & tj &
        H1 & E1 & H2 & E2 & H3 & E3 & H4 & E4 & H5 & E5 & H6 & E6 & _).
  destruct Hd as [Hd|[Hd|[Hd|[Hd|[Hd|Hd]]]]]; apply Hd;
    apply list_elem_of_fmap; eauto.
Qed.

Lemma joined_with_bookings db l :
  joined (with_bookings db l) = l ≫= record_rows db.
Proof. reflexivity. Qed.

Lemma get_bookings_df_joined today db db' s e :
  joined db = joined db' →
  get_bookings_df today db s e = get_bookings_df today db' s e.
Proof.
  intros Hj. unfold get_bookings_df, read_sql. rewrite Hj. done.
Qed.

(** X9: a booking with a foreign key that names no row is invisible: the
    frame of every range, and with it the dashboard, are those of the store
    without that booking. *)
Theorem dangling_booking_invisible (db : Database) (b : Booking)
    (l1 l2 : list Booking) :
  dangling db b →
  (∀ today s e,
     get_bookings_df today (with_bookings db (l1 ++ b :: l2)) s e
     = get_bookings_df today (with_bookings db (l1 ++ l2)) s e) ∧
  (∀ today days,
     get_analytics_dashboard today (with_bookings db (l1 ++ b :: l2)) days
     = get_analytics_dashboard today (with_bookings db (l1 ++ l2)) days).
Proof.
  intros Hd.
  assert (joined (with_bookings db (l1 ++ b :: l2))
          = joined (with_bookings db (l1 ++ l2))) as Hj.
  { rewrite !joined_with_bookings, !bind_app, bind_cons.
    by rewrite (record_rows_dangling db b Hd). }
  split.
  - intros. by apply get_bookings_df_joined.
  - intros. unfold get_analytics_dashboard, dashboard_run,
      get_booking_statistics,
      get_daily_booking_trends, get_popular_routes, get_class_distribution.
    by rewrite !(get_bookings_df_joined _ _ _ _ _ Hj).
Qed.

Lemma dangling_booking_invisible_witness :
  dangling one_booking_db stray_booking ∧
  get_bookings_df 738960
    (with_bookings one_booking_db (booking one_booking_db ++ [stray_booking]))
    None None
  = get_bookings_df 738960
      (with_bookings one_booking_db (booking one_booking_db ++ [])) None None.
Proof.
  assert (dangling one_booking_db stray_booking) as Hd.
  { left. simpl. rewrite !not_elem_of_cons. split_and!; try lia.
    apply not_elem_of_nil. }
  split; [exact Hd|].
  exact (proj1 (dangling_booking_invisible one_booking_db stray_booking
                  (booking one_booking_db) [] Hd) 738960 None None).
Defined.

Lemma read_sql_reversed db s e : e < s → read_sql db s e = [].
Proof.
  intros Hlt. unfold read_sql. apply elem_of_nil_inv. intros q.
  rewrite list_elem_of_filter, between_in_range. unfold in_range. lia.
Qed.

(** X10: a range whose end lies before its start selects nothing: the
    frame is empty and every view gives its empty response. *)
Theorem reversed_range_empty (today : Date) (db : Database) (s e : Date) :
  e < s →
  get_bookings_df today db (Some s) (Some e) = [] ∧
  get_booking_statistics today db (Some s) (Some e)
    = BookingStatsResponse.mk 0 0 0 ∅ ∅ ∧
  get_revenue_statistics today db (Some s) (Some e)
    = RevenueStatsResponse.mk 0 [] [] [] ∧
  (∀ limit, get_popular_routes today db limit (Some s) (Some e) = []) ∧
  get_class_distribution today db (Some s) (Some e) = [] ∧
  (∀ limit, get_top_spending_passengers today db limit (Some s) (Some e) = []) ∧
  (∀ limit, get_journey_performance today db limit (Some s) (Some e) = []).
Proof.
  intros Hlt.
  assert (get_bookings_df today db (Some s) (Some e) = []) as Hdf.
  { unfold get_bookings_df. by rewrite read_sql_reversed. }
  unfold get_booking_statistics, get_revenue_statistics, get_popular_routes,
    get_class_distribution, get_top_spending_passengers,
    get_journey_performance.
  rewrite Hdf. split_and!; done.
Qed.

Lemma reversed_range_empty_witness :
  738959 < 738960 ∧
  get_bookings_df 738960 one_booking_db (Some 738960) (Some 738959) = [].
Proof.
  assert (738959 < 738960) as H1 by lia.
  split; [exact H1|].
  exact (proj1 (reversed_range_empty 738960 one_booking_db 738960 738959 H1)).
Defined.

Lemma filter_split_Permutation {A} (P P1 P2 : A → Prop)
    `{∀ x, Decision (P x), ∀ x, Decision (P1 x), ∀ x, Decision (P2 x)}
    (l : list A) :
  (∀ x, P x ↔ P1 x ∨ P2 x) → (∀ x, P1 x → P2 x → False) →
  filter P l ≡ₚ filter P1 l ++ filter P2 l.
Proof.
  intros Hcover Hdisj. induction l as [|x l IH]; [done|].
  rewrite !filter_cons.
  destruct (decide (P1 x)) as [Hx1|Hx1], (decide (P2 x)) as [Hx2|Hx2].
  - destruct (Hdisj x Hx1 Hx2).
  - rewrite decide_True by (apply Hcover; by left).
    simpl. by rewrite IH.
  - rewrite decide_True by (apply Hcover; by right).
    rewrite IH. apply Permutation_middle.
  - rewrite decide_False; [done|]. intros [?|?]%Hcover; done.
Qed.

Lemma filter_weaken_submseteq {A} (P Q : A → Prop)
    `{∀ x, Decision (P x), ∀ x, Decision (Q x)} (l : list A) :
  (∀ x, P x → Q x) → filter P l ⊆+ filter Q l.
Proof.
  intros Himp. induction l as [|x l IH]; [done|].
  rewrite !filter_cons.
  destruct (decide (P x)) as [HP|HP].
  - rewrite decide_True by auto. by constructor.
  - destruct (decide (Q x)); [by constructor|done].
Qed.

Lemma get_bookings_df_range today db s e :
  get_bookings_df today db (Some s) (Some e) =
  enrich (filter (λ q, in_range (booking_date q) s e) (joined db)).
Proof.
  unfold get_bookings_df, read_sql. f_equal.
  apply list_filter_iff. intros q. apply between_in_range.
Qed.

(** X11: two adjacent ranges make up the range they cover: the frame of
    [s, e] has the rows of the frames of [s, m] and [m + 1, e] together,
    and its total bookings and total revenue are the sums of theirs. *)
Theorem adjacent_ranges (today : Date) (db : Database) (s m e : Date) :
  s ≤ m + 1 → m ≤ e →
  let whole := get_bookings_df today db (Some s) (Some e) in
  let first := get_bookings_df today db (Some s) (Some m) in
  let second := get_bookings_df today db (Some (m + 1)) (Some e) in
  whole ≡ₚ first ++ second ∧
  BookingStatsResponse.total_bookings (booking_statistics whole)
  = BookingStatsResponse.total_bookings (booking_statistics first)
    + BookingStatsResponse.total_bookings (booking_statistics second) ∧
  (BookingStatsResponse.total_revenue (booking_statistics whole)
   == BookingStatsResponse.total_revenue (booking_statistics first)
      + BookingStatsResponse.total_revenue (booking_statistics second))%Q.
Proof.
  intros Hs He whole first second. subst whole first second.
  assert (get_bookings_df today db (Some s) (Some e)
          ≡ₚ get_bookings_df today db (Some s) (Some m)
             ++ get_bookings_df today db (Some (m + 1)) (Some e)) as Hp.
  { rewrite !get_bookings_df_range. unfold enrich. rewrite <-fmap_app.
    apply fmap_Permutation, filter_split_Permutation;
      intros q; unfold in_range; lia. }
  split; [exact Hp|].
  destruct (booking_statistics_totals
              (get_bookings_df today db (Some s) (Some e))) as [-> ->].
  destruct (booking_statistics_totals
              (get_bookings_df today db (Some s) (Some m))) as [-> ->].
  destruct (booking_statistics_totals
              (get_bookings_df today db (Some (m + 1)) (Some e))) as [-> ->].
  rewrite (count_Permutation _ _ Hp).
  rewrite (sum_Permutation _ _ (amounts_Permutation _ _ Hp)).
  unfold amounts, count. rewrite fmap_app, sum_app, length_app.
  split; [lia|]. by rewrite inject_Z_plus.
Qed.

Lemma adjacent_ranges_witness :
  738950 ≤ 738960 + 1 ∧ 738960 ≤ 738970 ∧
  get_bookings_df 0 one_booking_db (Some 738950) (Some 738970)
  ≡ₚ get_bookings_df 0 one_booking_db (Some 738950) (Some 738960)
     ++ get_bookings_df 0 one_booking_db (Some (738960 + 1)) (Some 738970).
Proof.
  assert (738950 ≤ 738960 + 1) as H1 by lia.
  assert (738960 ≤ 738970) as H2 by lia.
  split; [exact H1|]. split; [exact H2|].
  exact (proj1 (adjacent_ranges 0 one_booking_db 738950 738960 738970 H1 H2)).
Defined.

(** X12: a wider range loads every row of a narrower one, as often as the
    narrower one has it (the rows are compared as multisets, whatever the
    order of either frame), so its total bookings are no fewer. *)
Theorem wider_range_loads_more (today : Date) (db : Database)
    (s e s' e' : Date) :
  s' ≤ s → e ≤ e' →
  get_bookings_df today db (Some s) (Some e)
    ⊆+ get_bookings_df today db (Some s') (Some e') ∧
  BookingStatsResponse.total_bookings
    (get_booking_statistics today db (Some s) (Some e))
  ≤ BookingStatsResponse.total_bookings
      (get_booking_statistics today db (Some s') (Some e')).
Proof.
  intros Hs He.
  assert (get_bookings_df today db (Some s) (Some e)
            ⊆+ get_bookings_df today db (Some s') (Some e')) as Hsub.
  { rewrite !get_bookings_df_range. unfold enrich.
    apply fmap_submseteq, filter_weaken_submseteq.
    intros q. unfold in_range. lia. }
  split; [exact Hsub|].
  unfold get_booking_statistics.
  destruct (booking_statistics_totals
              (get_bookings_df today db (Some s) (Some e))) as [-> _].
  destruct (booking_statistics_totals
              (get_bookings_df today db (Some s') (Some e'))) as [-> _].
  unfold count. apply submseteq_length in Hsub. lia.
Qed.

Lemma wider_range_loads_more_witness :
  738950 ≤ 738960 ∧ 738960 ≤ 738970 ∧
  get_bookings_df 0 one_booking_db (Some 738960) (Some 738960)
    ⊆+ get_bookings_df 0 one_booking_db (Some 738950) (Some 738970).
Proof.
  assert (738950 ≤ 738960) as H1 by lia.
  assert (738960 ≤ 738970) as H2 by lia.
  split; [exact H1|]. split; [exact H2|].
  exact (proj1 (wider_range_loads_more 0 one_booking_db
                  738960 738960 738950 738970 H1 H2)).
Defined.

(** ** The order of the rows does not matter *)

Lemma value_counts_order (col col' : list string) :
  col ≡ₚ col' → value_counts col = value_counts col'.
Proof.
  intros Hp. apply map_eq. intros k. rewrite !value_counts_lookup.
  destruct (decide (k ∈ col)) as [Hin|Hout].
  - rewrite decide_True by (by rewrite <-Hp).
    f_equal. apply count_Permutation. by rewrite Hp.
  - rewrite decide_False by (by rewrite <-Hp). done.
Qed.

Lemma booking_statistics_order (df df' : DataFrame) :
  df ≡ₚ df' → booking_statistics df = booking_statistics df'.
Proof.
  intros Hp. destruct (decide (df = [])) as [->|Hne].
  - apply Permutation_nil_l in Hp. by subst.
  - assert (df' ≠ []) as Hne'.
    { intros ->. by apply Permutation_nil_r in Hp. }
    rewrite !booking_statistics_unfold by done.
    rewrite (count_Permutation _ _ Hp).
    rewrite (sum_Permutation _ _ (amounts_Permutation _ _ Hp)).
    rewrite (mean_Permutation _ _ (amounts_Permutation _ _ Hp)).
    rewrite (value_counts_order ((λ r : Row, status r) <$> df)
               ((λ r : Row, status r) <$> df')) by (by rewrite Hp).
    rewrite (value_counts_order ((λ r : Row, class_name r) <$> df)
               ((λ r : Row, class_name r) <$> df')) by (by rewrite Hp).
    done.
Qed.

Lemma revenue_by_class_unfold_all (df : DataFrame) :
  RevenueStatsResponse.revenue_by_class (revenue_statistics df) =
  (λ kg : string * list Row,
     RevenueStatsResponse.mk_by_class kg.1 (sum (amounts kg.2)))
    <$> groupby (λ r : Row, class_name r) df.
Proof.
  destruct df as [|r df]; [done|].
  unfold revenue_statistics. cbn [RevenueStatsResponse.revenue_by_class].
  rewrite <-list_fmap_compose. apply list_fmap_ext. by intros _ [c g] _.
Qed.

Lemma revenue_total_unfold (df : DataFrame) :
  RevenueStatsResponse.total_revenue (revenue_statistics df)
  = inject_Z (sum (amounts df)).
Proof. by destruct df. Qed.

Lemma revenue_statistics_ext (a b : RevenueStatsResponse.t) :
  RevenueStatsResponse.total_revenue a = RevenueStatsResponse.total_revenue b →
  RevenueStatsResponse.revenue_by_date a = RevenueStatsResponse.revenue_by_date b →
  RevenueStatsResponse.revenue_by_class a = RevenueStatsResponse.revenue_by_class b →
  RevenueStatsResponse.revenue_by_route a = RevenueStatsResponse.revenue_by_route b →
  a = b.
Proof. destruct a, b. simpl. by intros -> -> -> ->. Qed.

Lemma revenue_statistics_order (df df' : DataFrame) :
  df ≡ₚ df' → revenue_statistics df = revenue_statistics df'.
Proof.
  intros Hp. apply revenue_statistics_ext.
  - rewrite !revenue_total_unfold.
    by rewrite (sum_Permutation _ _ (amounts_Permutation _ _ Hp)).
  - rewrite !revenue_by_date_unfold. apply groupby_agg_order; [|done].
    intros k g g' Hg. simpl.
    by rewrite (sum_Permutation _ _ (amounts_Permutation _ _ Hg)).
  - rewrite !revenue_by_class_unfold_all. apply groupby_agg_order; [|done].
    intros k g g' Hg. simpl.
    by rewrite (sum_Permutation _ _ (amounts_Permutation _ _ Hg)).
  - rewrite !revenue_by_route_unfold. do 2 f_equal.
    apply groupby_agg_order; [|done].
    intros k g g' Hg. simpl.
    by rewrite (sum_Permutation _ _ (amounts_Permutation _ _ Hg)).
Qed.

Lemma popular_routes_order (limit : nat) (df df' : DataFrame) :
  df ≡ₚ df' → popular_routes limit df = popular_routes limit df'.
Proof.
  intros Hp. rewrite !popular_routes_unfold_all. do 2 f_equal.
  unfold route_stats. apply groupby_agg_order; [|done].
  intros [[o d] rt] g g' Hg.
  rewrite (count_Permutation _ _ Hg).
  rewrite (sum_Permutation _ _ (amounts_Permutation _ _ Hg)).
  by rewrite (mean_Permutation _ _ (amounts_Permutation _ _ Hg)).
Qed.

Lemma daily_booking_trends_order (df df' : DataFrame) :
  df ≡ₚ df' → daily_booking_trends df = daily_booking_trends df'.
Proof.
  intros Hp. rewrite !daily_booking_trends_unfold.
  apply groupby_agg_order; [|done].
  intros k g g' Hg. simpl. rewrite (count_Permutation _ _ Hg).
  by rewrite (sum_Permutation _ _ (amounts_Permutation _ _ Hg)).
Qed.

Lemma class_distribution_order (df df' : DataFrame) :
  df ≡ₚ df' → class_distribution df = class_distribution df'.
Proof.
  intros Hp. destruct (decide (df = [])) as [->|Hne].
  - apply Permutation_nil_l in Hp. by subst.
  - assert (df' ≠ []) as Hne'.
    { intros ->. by apply Permutation_nil_r in Hp. }
    rewrite !class_distribution_unfold by done.
    rewrite (group_keys_order _ df df' Hp).
    apply list_fmap_ext. intros _ c _. unfold class_entry, rows_of_class.
    assert (filter (λ r : Row, class_name r = c) df
            ≡ₚ filter (λ r : Row, class_name r = c) df') as Hg
      by (by rewrite Hp).
    rewrite (count_Permutation _ _ Hg), (count_Permutation _ _ Hp).
    by rewrite (sum_Permutation _ _ (amounts_Permutation _ _ Hg)).
Qed.

Lemma top_spending_passengers_order (limit : nat) (df df' : DataFrame) :
  df ≡ₚ df' →
  top_spending_passengers limit df = top_spending_passengers limit df'.
Proof.
  intros Hp. rewrite !top_spending_passengers_unfold. do 2 f_equal.
  apply groupby_agg_order; [|done].
  intros k g g' Hg. simpl. rewrite (count_Permutation _ _ Hg).
  by rewrite (sum_Permutation _ _ (amounts_Permutation _ _ Hg)).
Qed.

Lemma journey_performance_order (limit : nat) (df df' : DataFrame) :
  df ≡ₚ df' → journey_performance limit df = journey_performance limit df'.
Proof.
  intros Hp. rewrite !journey_performance_unfold. do 2 f_equal.
  apply groupby_agg_order; [|done].
  intros k g g' Hg. simpl. rewrite (count_Permutation _ _ Hg).
  rewrite (sum_Permutation _ _ (amounts_Permutation _ _ Hg)).
  by rewrite (mean_Permutation _ _ (amounts_Permutation _ _ Hg)).
Qed.

(** X13: the query has no ORDER BY, and none is needed: two frames with
    the same rows in a different order give the same response in every
    view. *)
Theorem row_order_irrelevant (df df' : DataFrame) :
  df ≡ₚ df' →
  booking_statistics df = booking_statistics df' ∧
  revenue_statistics df = revenue_statistics df' ∧
  (∀ limit, popular_routes limit df = popular_routes limit df') ∧
  daily_booking_trends df = daily_booking_trends df' ∧
  class_distribution df = class_distribution df' ∧
  (∀ limit, top_spending_passengers limit df
            = top_spending_passengers limit df') ∧
  (∀ limit, journey_performance limit df = journey_performance limit df').
Proof.
  intros Hp. split_and!.
  - by apply booking_statistics_order.
  - by apply revenue_statistics_order.
  - intros. by apply popular_routes_order.
  - by apply daily_booking_trends_order.
  - by apply class_distribution_order.
  - intros. by apply top_spending_passengers_order.
  - intros. by apply journey_performance_order.
Qed.

Lemma row_order_irrelevant_witness :
  enrich [booking_ab; booking_ab'] ≡ₚ enrich [booking_ab'; booking_ab] ∧
  class_distribution (enrich [booking_ab; booking_ab'])
  = class_distribution (enrich [booking_ab'; booking_ab]).
Proof.
  assert (enrich [booking_ab; booking_ab'] ≡ₚ enrich [booking_ab'; booking_ab])
    as H1 by apply Permutation_swap.
  split; [exact H1|].
  exact (proj1 (proj2 (proj2 (proj2 (proj2 (row_order_irrelevant _ _ H1)))))).
Defined.

(** ** The number of daily entries *)

Lemma sorted_interval_length (l : list Z) (a b : Z) :
  StronglySorted Z.lt l → Forall (λ x, a ≤ x ≤ b) l →
  Z.of_nat (length l) ≤ Z.max 0 (b - a + 1).
Proof.
  intros Hs. revert a. induction Hs as [|x l Hs IH Hx]; intros a Hr.
  - simpl. lia.
  - apply Forall_cons in Hr as [Hxr Hr].
    assert (Forall (λ y, x + 1 ≤ y ≤ b) l) as Hr'.
    { rewrite Forall_forall in *. intros y Hy.
      specialize (Hx y Hy). specialize (Hr y Hy). lia. }
    specialize (IH (x + 1) Hr'). rewrite length_cons. lia.
Qed.

Lemma elem_of_get_bookings_df_range today db s e (r : Row) :
  r ∈ get_bookings_df today db (Some s) (Some e) →
  in_range (booking_date r) s e.
Proof.
  rewrite get_bookings_df_range. unfold enrich.
  intros (q & -> & Hq)%list_elem_of_fmap.
  by apply list_elem_of_filter in Hq as [? _].
Qed.

(** X14: for a window length in 1..365 the daily trends have at most
    days + 1 entries: the window [today - days, today] has one more date
    than its length. *)
Theorem daily_trends_length (today : Date) (db : Database) (days : Z) :
  1 ≤ days ≤ 365 →
  Z.of_nat (length (get_daily_booking_trends today db days)) ≤ days + 1.
Proof.
  intros Hdays. unfold get_daily_booking_trends, minus_days.
  set (df := get_bookings_df today db (Some (today - days)) (Some today)).
  rewrite daily_booking_trends_unfold, length_fmap.
  rewrite <-(length_fmap fst), groupby_keys.
  assert (Z.max 0 (today - (today - days) + 1) = days + 1) as <- by lia.
  apply sorted_interval_length.
  - apply StronglySorted_le_lt.
    + exact (StronglySorted_group_keys (λ r : Row, booking_date r) df).
    + apply NoDup_group_keys.
  - apply Forall_forall. intros d (r & Hr & <-)%elem_of_group_keys.
    by apply (elem_of_get_bookings_df_range today db).
Qed.

Lemma daily_trends_length_witness :
  1 ≤ 30 ≤ 365 ∧
  Z.of_nat (length (get_daily_booking_trends 738970 one_booking_db 30)) ≤ 30 + 1.
Proof.
  assert (1 ≤ 30 ≤ 365) as H1 by lia.
  split; [exact H1|].
  exact (daily_trends_length 738970 one_booking_db 30 H1).
Defined.

(** ** Bounds of the class distribution *)

(** X15: the entries of the class distribution come in ascending order of
    class name, without repetition; every entry has at least one booking
    and no more than the frame has rows, and a percentage between 0 and
    100. *)
Theorem class_distribution_bounds (df : DataFrame) :
  let out := class_distribution df in
  StronglySorted String.le (ClassDistributionResponse.class_name <$> out) ∧
  NoDup (ClassDistributionResponse.class_name <$> out) ∧
  Forall (λ e,
    0 < ClassDistributionResponse.booking_count e ≤ count df ∧
    (0 <= ClassDistributionResponse.percentage e <= 100)%Q) out.
Proof.
  intros out. subst out.
  destruct (decide (df = [])) as [->|Hne].
  - simpl. split_and!; constructor.
  - rewrite class_distribution_unfold by done.
    assert (ClassDistributionResponse.class_name
              <$> (class_entry df <$> group_keys (λ r : Row, class_name r) df)
            = group_keys (λ r : Row, class_name r) df) as ->.
    { rewrite <-list_fmap_compose.
      rewrite <-(list_fmap_id (group_keys _ df)) at 2.
      by apply list_fmap_ext. }
    split_and!.
    + exact (StronglySorted_group_keys (λ r : Row, class_name r) df).
    + apply NoDup_group_keys.
    + apply Forall_fmap, Forall_forall.
      intros c (r & Hr & Hc)%elem_of_group_keys.
      assert (0 < count (rows_of_class c df)) as Hpos.
      { apply count_pos. intros Hnil.
        assert (r ∈ rows_of_class c df) as Hin
          by (by apply list_elem_of_filter).
        rewrite Hnil in Hin. by apply elem_of_nil in Hin. }
      assert (count (rows_of_class c df) ≤ count df) as Hle.
      { unfold count, rows_of_class.
        apply Nat2Z.inj_le, length_filter. }
      simpl. split; [done|].
      destruct (percentage_of_spec (count (rows_of_class c df)) (count df))
        as (k & _ & _ & _ & Hp); [lia|lia|done].
Qed.

(** X16: the class distribution and the by-class mapping of the booking
    statistics of the same frame agree: a class has an entry with count n
    exactly when the mapping sends it to n. *)
Theorem class_distribution_matches_statistics (df : DataFrame) (c : string) (n : Z) :
  BookingStatsResponse.bookings_by_class (booking_statistics df) !! c = Some n
  ↔ ∃ e, e ∈ class_distribution df ∧
         ClassDistributionResponse.class_name e = c ∧
         ClassDistributionResponse.booking_count e = n.
Proof.
  destruct (decide (df = [])) as [->|Hne].
  - simpl. rewrite lookup_empty. split; [done|].
    intros (e & He & _). by apply elem_of_nil in He.
  - rewrite booking_statistics_unfold by done.
    cbn [BookingStatsResponse.bookings_by_class].
    rewrite value_counts_lookup, count_of_column.
    rewrite class_distribution_unfold by done. split.
    + destruct (decide (c ∈ (λ r : Row, class_name r) <$> df))
        as [Hin|Hout]; [|done].
      intros [= <-]. exists (class_entry df c). split; [|done].
      apply list_elem_of_fmap. exists c. split; [done|].
      apply elem_of_group_keys.
      apply list_elem_of_fmap in Hin as (r & -> & Hr). by exists r.
    + intros (e & (c' & -> & Hc')%list_elem_of_fmap & Hc & Hn).
      simpl in Hc, Hn. subst c' n.
      apply elem_of_group_keys in Hc' as (r & Hr & Hrc).
      rewrite decide_True; [done|].
      apply list_elem_of_fmap. by exists r.
Qed.

(** ** Limits *)

#[local] Instance desc_values_antisymm : AntiSymm (=) (λ x y : Z, y ≤ x).
Proof. intros x y ??. lia. Qed.

(** The metric values [nlargest] returns are those of the first rows of
    any descending order of the table, whichever way that order places
    rows of equal metric. *)
Lemma nlargest_metric_values {A} (metric : A → Z) (n : nat) (l l' : list A) :
  l' ≡ₚ l → StronglySorted (desc metric) l' →
  metric <$> take n l' = metric <$> nlargest metric n l.
Proof.
  intros Hp Hs. unfold nlargest. rewrite !fmap_take. f_equal.
  apply (StronglySorted_unique (λ x y : Z, y ≤ x)).
  - by apply (StronglySorted_fmap _ (desc metric)).
  - apply (StronglySorted_fmap _ (desc metric)); [done|].
    apply sort_desc_sorted.
  - apply fmap_Permutation. by rewrite sort_desc_Permutation.
Qed.

Lemma popular_routes_values (limit : nat) (df : DataFrame) :
  PopularRouteResponse.booking_count <$> popular_routes limit df
  = rs_booking_count <$> nlargest rs_booking_count limit (route_stats df).
Proof. by rewrite popular_routes_unfold_all, <-list_fmap_compose. Qed.

Lemma top_spending_passengers_values (limit : nat) (df : DataFrame) :
  TopSpender.total_spent <$> top_spending_passengers limit df
  = inject_Z <$> (snd <$> nlargest snd limit (passenger_stats df)).
Proof.
  destruct df as [|r df]; [by destruct limit|].
  unfold top_spending_passengers. rewrite <-!list_fmap_compose.
  apply list_fmap_ext. by intros _ [[[nm em] k] t] _.
Qed.

Lemma journey_performance_values (limit : nat) (df : DataFrame) :
  JourneyPerformance.total_bookings <$> journey_performance limit df
  = (λ x, x.1.1.2) <$> nlargest (λ x, x.1.1.2) limit (journey_stats df).
Proof.
  destruct df as [|r df]; [by destruct limit|].
  unfold journey_performance. rewrite <-!list_fmap_compose.
  apply list_fmap_ext. by intros _ [[[j k] t] a] _.
Qed.

(** X17: a smaller limit gives the first ranking values of the response to
    a larger one: the booking counts of the popular routes, the amounts of
    the top spenders and the booking counts of the journeys for limit [n]
    are the first [n] of those for limit [m].  These values do not depend
    on how rows of equal ranking value are ordered: the first [n] rows of
    any descending order of the grouped table have them. *)
Theorem smaller_limit_is_prefix (n m : nat) (df : DataFrame) :
  (n ≤ m)%nat →
  (PopularRouteResponse.booking_count <$> popular_routes n df
   = take n (PopularRouteResponse.booking_count <$> popular_routes m df) ∧
   TopSpender.total_spent <$> top_spending_passengers n df
   = take n (TopSpender.total_spent <$> top_spending_passengers m df) ∧
   JourneyPerformance.total_bookings <$> journey_performance n df
   = take n (JourneyPerformance.total_bookings <$> journey_performance m df)) ∧
  (∀ ranking, ranking ≡ₚ route_stats df →
     StronglySorted (desc rs_booking_count) ranking →
     PopularRouteResponse.booking_count <$> popular_routes n df
     = rs_booking_count <$> take n ranking) ∧
  (∀ ranking, ranking ≡ₚ passenger_stats df →
     StronglySorted (desc snd) ranking →
     TopSpender.total_spent <$> top_spending_passengers n df
     = inject_Z <$> (snd <$> take n ranking)) ∧
  (∀ ranking, ranking ≡ₚ journey_stats df →
     StronglySorted (desc (λ x, x.1.1.2)) ranking →
     JourneyPerformance.total_bookings <$> journey_performance n df
     = (λ x, x.1.1.2) <$> take n ranking).
Proof.
  intros Hle. split_and!.
  - rewrite !popular_routes_values, <-fmap_take.
    by rewrite <-nlargest_prefix.
  - rewrite !top_spending_passengers_values, <-!fmap_take.
    by rewrite <-nlargest_prefix.
  - rewrite !journey_performance_values, <-fmap_take.
    by rewrite <-nlargest_prefix.
  - intros ranking Hp Hs. rewrite popular_routes_values.
    symmetry. by apply nlargest_metric_values.
  - intros ranking Hp Hs. rewrite top_spending_passengers_values.
    f_equal. symmetry. by apply nlargest_metric_values.
  - intros ranking Hp Hs. rewrite journey_performance_values.
    symmetry. by apply (nlargest_metric_values (λ x, x.1.1.2)).
Qed.

Lemma smaller_limit_is_prefix_witness :
  let df := enrich [booking_ab; booking_ab'] in
  (1 ≤ 10)%nat ∧
  route_stats df ≡ₚ route_stats df ∧
  StronglySorted (desc rs_booking_count) (route_stats df) ∧
  PopularRouteResponse.booking_count <$> popular_routes 1 df
  = take 1 (PopularRouteResponse.booking_count <$> popular_routes 10 df) ∧
  PopularRouteResponse.booking_count <$> popular_routes 1 df
  = rs_booking_count <$> take 1 (route_stats df).
Proof.
  intros df.
  assert (1 ≤ 10)%nat as H1 by lia.
  assert (route_stats df ≡ₚ route_stats df) as H2 by reflexivity.
  assert (StronglySorted (desc rs_booking_count) (route_stats df)) as H3
    by (vm_compute; repeat constructor).
  split; [exact H1|]. split; [exact H2|]. split; [exact H3|].
  destruct (smaller_limit_is_prefix 1 10 df H1) as ((Hpre & _) & Hany & _).
  split; [exact Hpre|exact (Hany _ H2 H3)].
Defined.

(** ** Statistics in terms of the booking table *)

Lemma record_rows_integrity db b :
  integrity db → b ∈ booking db →
  ∃ q, record_rows db b = [q] ∧ booking_record db b q.
Proof.
  intros Hdb Hb.
  destruct (record_rows_singleton db b Hdb Hb) as (q & Hq & _).
  exists q. split; [done|].
  apply elem_of_record_rows. rewrite Hq. left.
Qed.

Lemma read_sql_records db s e :
  integrity db →
  Forall2 (booking_record db) (bookings_in_range db s e) (read_sql db s e).
Proof.
  intros Hdb. unfold read_sql, bookings_in_range. rewrite joined_bind.
  assert (∀ b, b ∈ booking db → b ∈ booking db) as Hsub by auto.
  revert Hsub. generalize (booking db) at 1 3 4. intros l.
  induction l as [|b l IH]; intros Hsub; [constructor|].
  destruct (record_rows_integrity db b Hdb) as (q & Hq & Hrec);
    [apply Hsub; left|].
  rewrite bind_cons, Hq. simpl. rewrite !filter_cons.
  specialize (IH (λ b' Hb', Hsub b' (list_elem_of_further _ _ _ Hb'))).
  destruct (booking_record_date db b q Hrec) as [Hdate _].
  destruct (decide (in_range (b_booking_date b) s e)) as [Hin|Hout].
  - rewrite decide_True by (apply between_in_range; by rewrite Hdate).
    by constructor.
  - rewrite decide_False by (rewrite between_in_range, Hdate; done).
    exact IH.
Qed.

Lemma booking_record_amount db b q :
  booking_record db b q → amount_paid q = b_amount_paid b.
Proof. by intros (?&?&?&?&?&?&?&?&?&?&?&?&?&?&?&?&?&?&->). Qed.

(** X18: under referential integrity the rows of the frame of a supplied
    range are, in some order, the records of the bookings of the table
    dated in the range, one row for each booking; the total bookings are
    the number of those bookings and the total revenue is the sum of their
    amounts. *)
Theorem statistics_of_booking_table (today : Date) (db : Database)
    (s e : Date) :
  integrity db →
  (∃ rows : list Row,
     rows ≡ₚ get_bookings_df today db (Some s) (Some e) ∧
     Forall2 (λ b (r : Row), booking_record db b r)
       (bookings_in_range db s e) rows) ∧
  BookingStatsResponse.total_bookings
    (get_booking_statistics today db (Some s) (Some e))
  = count (bookings_in_range db s e) ∧
  BookingStatsResponse.total_revenue
    (get_booking_statistics today db (Some s) (Some e))
  = inject_Z (sum (b_amount_paid <$> bookings_in_range db s e)).
Proof.
  intros Hdb. pose proof (read_sql_records db s e Hdb) as Hrec.
  assert (Forall2 (λ b (r : Row), booking_record db b r)
            (bookings_in_range db s e)
            (get_bookings_df today db (Some s) (Some e))) as Hrows.
  { unfold get_bookings_df, enrich. by apply Forall2_fmap_r. }
  split; [by eexists|].
  unfold get_booking_statistics.
  destruct (booking_statistics_totals
              (get_bookings_df today db (Some s) (Some e))) as [-> ->].
  split.
  - unfold count. f_equal. symmetry. by eapply Forall2_length.
  - do 2 f_equal. unfold amounts.
    apply list_eq_Forall2, Forall2_fmap, Forall2_flip.
    eapply Forall2_impl; [exact Hrows|].
    intros b r Hbr. simpl. by apply (booking_record_amount db).
Qed.

Lemma statistics_of_booking_table_witness :
  integrity one_booking_db ∧
  BookingStatsResponse.total_bookings
    (get_booking_statistics 0 one_booking_db (Some 738960) (Some 738960))
  = count (bookings_in_range one_booking_db 738960 738960).
Proof.
  split; [exact one_booking_db_integrity|].
  exact (proj1 (proj2 (statistics_of_booking_table 0 one_booking_db
                         738960 738960 one_booking_db_integrity))).
Defined.

Lemma filter_key_at_most_one {A} (key : A → Z) (tbl : list A) (k : Z) :
  NoDup (key <$> tbl) →
  k ∉ key <$> tbl ∨ ∃ x, filter (λ y, k = key y) tbl = [x].
Proof.
  intros Hnd. destruct (decide (k ∈ key <$> tbl)) as [Hin|Hout].
  - right. by apply filter_key_unique.
  - by left.
Qed.

Lemma record_rows_at_most_one db b :
  unique_ids db →
  record_rows db b = [] ∨
  ∃ q, record_rows db b = [q] ∧ booking_record db b q.
Proof.
  intros Hu.
  destruct (filter_key_at_most_one ts_id (train_station db)
              (starting_station_id b) (unique_station_ids db Hu))
    as [H1|[s1 E1]]; [left; apply record_rows_dangling; red; tauto|].
  destruct (filter_key_at_most_one ts_id (train_station db)
              (ending_station_id b) (unique_station_ids db Hu))
    as [H2|[s2 E2]]; [left; apply record_rows_dangling; red; tauto|].
  destruct (filter_key_at_most_one cc_id (carriage_class db)
              (ticket_class_id b) (unique_class_ids db Hu))
    as [H3|[cc E3]]; [left; apply record_rows_dangling; red; tauto|].
  destruct (filter_key_at_most_one bs_id (booking_status db)
              (status_id b) (unique_status_ids db Hu))
    as [H4|[bs E4]]; [left; apply record_rows_dangling; red; tauto|].
  destruct (filter_key_at_most_one p_id (passenger db)
              (passenger_id b) (unique_passenger_ids db Hu))
    as [H5|[p E5]]; [left; apply record_rows_dangling; red; tauto|].
  destruct (filter_key_at_most_one tj_id (train_journey db)
              (train_journey_id b) (unique_journey_ids db Hu))
    as [H6|[tj E6]]; [left; apply record_rows_dangling; red; tauto|].
  right.
  assert (∃ q, record_rows db b = [q]) as [q Hq].
  { unfold record_rows. rewrite E1, E2, E3, E4, E5, E6. by eexists. }
  exists q. split; [done|].
  apply elem_of_record_rows. rewrite Hq. left.
Qed.

(** X19: with unique primary keys no booking is counted twice, whether its
    foreign keys resolve or not: every id occurs among the rows of a frame
    at most as often as among the bookings in range (the ids of the rows
    are a sub-multiset of theirs), and the total bookings are at most their
    number. *)
Theorem no_booking_counted_twice (today : Date) (db : Database) (s e : Date) :
  unique_ids db →
  (λ r : Row, id r) <$> get_bookings_df today db (Some s) (Some e)
    ⊆+ b_id <$> bookings_in_range db s e ∧
  BookingStatsResponse.total_bookings
    (get_booking_statistics today db (Some s) (Some e))
  ≤ count (bookings_in_range db s e).
Proof.
  intros Hu.
  assert ((λ r : Row, id r) <$> get_bookings_df today db (Some s) (Some e)
            `sublist_of` b_id <$> bookings_in_range db s e) as Hsub.
  { unfold get_bookings_df, enrich, read_sql, bookings_in_range.
    rewrite <-list_fmap_compose, joined_bind.
    change ((λ r : Row, id r) ∘ add_derived) with id.
    induction (booking db) as [|b l IH]; [done|].
    rewrite bind_cons, filter_app, fmap_app, !filter_cons.
    destruct (record_rows_at_most_one db b Hu) as [->|(q & -> & Hrec)].
    - simpl. destruct (decide (in_range (b_booking_date b) s e));
        [by constructor|done].
    - destruct (booking_record_date db b q Hrec) as [Hdate Hid].
      rewrite filter_cons, filter_nil.
      destruct (decide (in_range (b_booking_date b) s e)) as [Hin|Hout].
      + rewrite decide_True by (apply between_in_range; by rewrite Hdate).
        simpl. rewrite Hid. by constructor.
      + rewrite decide_False by (rewrite between_in_range, Hdate; done).
        exact IH. }
  apply sublist_submseteq in Hsub.
  split; [exact Hsub|].
  unfold get_booking_statistics.
  destruct (booking_statistics_totals
              (get_bookings_df today db (Some s) (Some e))) as [-> _].
  apply submseteq_length in Hsub. rewrite !length_fmap in Hsub.
  unfold count. lia.
Qed.

Lemma with_stray_unique_ids :
  unique_ids (with_bookings one_booking_db
                (booking one_booking_db ++ [stray_booking])).
Proof.
  split; simpl;
    repeat (apply NoDup_cons_2;
            [rewrite ?not_elem_of_cons; split_and?;
             lia || apply not_elem_of_nil|]);
    apply NoDup_nil_2.
Qed.

Lemma no_booking_counted_twice_witness :
  unique_ids (with_bookings one_booking_db
                (booking one_booking_db ++ [stray_booking])) ∧
  BookingStatsResponse.total_bookings
    (get_booking_statistics 0
       (with_bookings one_booking_db (booking one_booking_db ++ [stray_booking]))
       (Some 738960) (Some 738960))
  ≤ count (bookings_in_range
             (with_bookings one_booking_db
                (booking one_booking_db ++ [stray_booking]))
             738960 738960).
Proof.
  split; [exact with_stray_unique_ids|].
  exact (proj2 (no_booking_counted_twice 0 _ 738960 738960
                  with_stray_unique_ids)).
Defined.

(** ** The window of the dashboard *)

Lemma elem_of_closed_window db s e (row : Row) :
  row ∈ closed_window db s e ↔
  ∃ b q, b ∈ booking db ∧ booking_record db b q ∧
         s ≤ b_booking_date b ≤ e ∧ row = add_derived q.
Proof.
  rewrite <-read_sql_closed_window. unfold enrich.
  rewrite list_elem_of_fmap. split.
  - intros (q & -> & (b & ? & ? & ?)%elem_of_read_sql). by exists b, q.
  - intros (b & q & ? & ? & ? & ->). exists q. split; [done|].
    apply elem_of_read_sql. by exists b.
Qed.

Lemma dated_record_in_window db s e d q :
  dated_record db d q → s ≤ d ≤ e → add_derived q ∈ closed_window db s e.
Proof.
  intros (b & Hb & Hq & <-) Hd. apply elem_of_closed_window. by exists b, q.
Qed.

Lemma daily_entry_of_row (df : DataFrame) (r : Row) :
  r ∈ df →
  DailyBookingTrendResponse.mk (strftime (booking_date r))
    (count (rows_of_date (booking_date r) df))
    (inject_Z (sum (amounts (rows_of_date (booking_date r) df))))
  ∈ daily_booking_trends df.
Proof.
  intros Hr. rewrite daily_booking_trends_unfold. apply list_elem_of_fmap.
  exists (booking_date r, rows_of_date (booking_date r) df).
  split; [done|]. apply elem_of_groupby. split; [|done].
  apply elem_of_group_keys. by exists r.
Qed.

Lemma class_entry_of_row (df : DataFrame) (r : Row) :
  r ∈ df → class_entry df (class_name r) ∈ class_distribution df.
Proof.
  intros Hr. rewrite class_distribution_unfold
    by (intros ->; by apply elem_of_nil in Hr).
  apply list_elem_of_fmap. exists (class_name r). split; [done|].
  apply elem_of_group_keys. by exists r.
Qed.

(** The route of a row of a loaded frame is among the popular routes, or
    the popular routes are as many as the limit and none of them has fewer
    bookings. *)
Lemma popular_route_of_row (limit : nat) (raw : list QueryRow) (r : Row) :
  r ∈ enrich raw →
  let g := rows_of_route (origin_station r) (destination_station r)
             (enrich raw) in
  (∃ e, e ∈ popular_routes limit (enrich raw) ∧
        entry_pair e = row_pair r ∧
        PopularRouteResponse.booking_count e = count g ∧
        PopularRouteResponse.total_revenue e = inject_Z (sum (amounts g))) ∨
  (length (popular_routes limit (enrich raw)) = limit ∧
   ∀ e, e ∈ popular_routes limit (enrich raw) →
        count g ≤ PopularRouteResponse.booking_count e).
Proof.
  intros Hr g. subst g.
  set (gr := filter (λ r', route_key r' = route_key r) (enrich raw)).
  assert ((route_key r, gr) ∈ groupby route_key (enrich raw)) as Hgr.
  { apply elem_of_groupby. split; [|done].
    apply elem_of_group_keys. by exists r. }
  destruct (route_group_rows raw _ _ Hgr) as [_ Hgr'].
  simpl in Hgr'. rewrite <-Hgr'.
  set (sr := mkRouteStat (origin_station r) (destination_station r)
               (route r) (count gr) (sum (amounts gr)) (mean (amounts gr))).
  assert (sr ∈ route_stats (enrich raw)) as Hsr.
  { apply elem_of_route_stats. by exists (route_key r), gr. }
  rewrite popular_routes_unfold_all.
  set (keyof := λ s, (rs_origin s, rs_destination s, rs_route s)).
  assert (∀ s, s ∈ route_stats (enrich raw) → keyof s = route_key r → s = sr)
    as Hkey.
  { intros s (k & g & Hkg & ->)%elem_of_route_stats. unfold keyof. simpl.
    destruct k as [[o d] rt]. simpl. intros Hk.
    apply elem_of_groupby in Hkg as [_ ->]. rewrite Hk.
    by injection Hk as -> -> ->. }
  destruct (decide (route_key r ∈ keyof <$> nlargest rs_booking_count limit
                                   (route_stats (enrich raw)))) as [Hin|Hout'].
  - apply list_elem_of_fmap in Hin as (s & Hs & Hin).
    rewrite (Hkey s) in Hin by (by eapply elem_of_nlargest || done).
    left. exists (to_PopularRouteResponse sr). split; [|done].
    apply list_elem_of_fmap. by exists sr.
  - assert (sr ∉ nlargest rs_booking_count limit (route_stats (enrich raw)))
      as Hout.
    { intros Hin. apply Hout', list_elem_of_fmap. by exists sr. }
    right. split.
    + rewrite length_fmap, nlargest_length.
      destruct (decide (length (route_stats (enrich raw)) ≤ limit)%nat)
        as [Hle|Hgt]; [|lia].
      destruct Hout. by rewrite (nlargest_all rs_booking_count limit _ Hle).
    + intros e (s & -> & Hs)%list_elem_of_fmap.
      exact (nlargest_omitted rs_booking_count limit _ sr s Hsr Hout Hs).
Qed.

(** C7, amended: for a window length of 1 to 365 days the dashboard is made
    of the four views on the frames of the closed window from [today - days]
    to [today], both ends included, the daily trends taking the date they
    read themselves.  A booking dated the last day of the window whose
    foreign keys resolve is a row of the frame of each view: the overview
    counts it in its totals, the daily trends have the entry of that day,
    which counts it, the class distribution has the entry of its class,
    which counts it, and the group of its route counts it; the popular
    routes return that group's entry unless they return ten routes none of
    which has fewer bookings. *)
Theorem C7_dashboard_closed_window (today today_trends : Date)
    (db_overview db_trends db_routes db_classes : Database) (days : Z) :
  1 ≤ days ≤ 365 →
  let r := dashboard_run today today_trends
             db_overview db_trends db_routes db_classes days in
  let df1 := closed_window db_overview (today - days) today in
  let df2 := closed_window db_trends (today_trends - days) today_trends in
  let df3 := closed_window db_routes (today - days) today in
  let df4 := closed_window db_classes (today - days) today in
  r = AnalyticsDashboardResponse.mk
        (booking_statistics df1) (daily_booking_trends df2)
        (popular_routes 10 df3) (class_distribution df4) ∧
  (∀ db s e (row : Row),
     row ∈ closed_window db s e ↔
     ∃ b q, b ∈ booking db ∧ booking_record db b q ∧
            s ≤ b_booking_date b ≤ e ∧ row = add_derived q) ∧
  (∀ q, dated_record db_overview today q →
     add_derived q ∈ df1 ∧
     BookingStatsResponse.total_bookings
       (AnalyticsDashboardResponse.overview r) = count df1 ∧
     BookingStatsResponse.total_revenue
       (AnalyticsDashboardResponse.overview r)
     = inject_Z (sum (amounts df1))) ∧
  (∀ q, dated_record db_trends today_trends q →
     let g := rows_of_date today_trends df2 in
     add_derived q ∈ g ∧
     DailyBookingTrendResponse.mk (strftime today_trends)
       (count g) (inject_Z (sum (amounts g)))
     ∈ AnalyticsDashboardResponse.daily_trends r) ∧
  (∀ q, dated_record db_classes today q →
     let g := rows_of_class (class_name q) df4 in
     add_derived q ∈ g ∧
     ∃ e, e ∈ AnalyticsDashboardResponse.class_distribution r ∧
          ClassDistributionResponse.class_name e = class_name q ∧
          ClassDistributionResponse.booking_count e = count g ∧
          ClassDistributionResponse.revenue e = inject_Z (sum (amounts g))) ∧
  (∀ q, dated_record db_routes today q →
     let g := rows_of_route (origin_station q) (destination_station q) df3 in
     add_derived q ∈ g ∧
     ((∃ e, e ∈ AnalyticsDashboardResponse.popular_routes r ∧
            entry_pair e = (origin_station q, destination_station q) ∧
            PopularRouteResponse.booking_count e = count g ∧
            PopularRouteResponse.total_revenue e = inject_Z (sum (amounts g))) ∨
      (length (AnalyticsDashboardResponse.popular_routes r) = 10%nat ∧
       ∀ e, e ∈ AnalyticsDashboardResponse.popular_routes r →
            count g ≤ PopularRouteResponse.booking_count e))).
Proof.
  intros Hdays r df1 df2 df3 df4. subst r.
  rewrite dashboard_run_unfold. fold df1 df2 df3 df4.
  cbn [AnalyticsDashboardResponse.overview
       AnalyticsDashboardResponse.daily_trends
       AnalyticsDashboardResponse.popular_routes
       AnalyticsDashboardResponse.class_distribution].
  split_and!.
  - done.
  - intros db s e row. apply elem_of_closed_window.
  - intros q Hq. split_and!.
    + apply (dated_record_in_window _ _ _ today); [done|lia].
    + apply booking_statistics_totals.
    + apply booking_statistics_totals.
  - intros q Hq. cbv zeta.
    assert (add_derived q ∈ df2) as Hin
      by (apply (dated_record_in_window _ _ _ today_trends); [done|lia]).
    assert (booking_date (add_derived q) = today_trends) as Hdate.
    { destruct Hq as (b & _ & Hrec & <-).
      by destruct (booking_record_date _ _ _ Hrec). }
    split.
    + apply list_elem_of_filter. by split.
    + rewrite <-Hdate. by apply daily_entry_of_row.
  - intros q Hq. cbv zeta.
    assert (add_derived q ∈ df4) as Hin
      by (apply (dated_record_in_window _ _ _ today); [done|lia]).
    split.
    + apply list_elem_of_filter. by split.
    + exists (class_entry df4 (class_name q)). split; [|done].
      by apply (class_entry_of_row df4 (add_derived q)).
  - intros q Hq. cbv zeta.
    assert (add_derived q ∈ df3) as Hin
      by (apply (dated_record_in_window _ _ _ today); [done|lia]).
    split.
    + apply list_elem_of_filter. by split.
    + exact (popular_route_of_row 10 _ (add_derived q) Hin).
Qed.

Lemma C7_dashboard_closed_window_witness :
  let r := dashboard_run 738960 738960
             one_booking_db one_booking_db one_booking_db one_booking_db 1 in
  let df := closed_window one_booking_db (738960 - 1) 738960 in
  1 ≤ 1 ≤ 365 ∧
  dated_record one_booking_db 738960 booking_ab ∧
  add_derived booking_ab ∈ df ∧
  BookingStatsResponse.total_bookings (AnalyticsDashboardResponse.overview r)
  = count df ∧
  DailyBookingTrendResponse.mk (strftime 738960)
    (count (rows_of_date 738960 df))
    (inject_Z (sum (amounts (rows_of_date 738960 df))))
  ∈ AnalyticsDashboardResponse.daily_trends r ∧
  (∃ e, e ∈ AnalyticsDashboardResponse.class_distribution r ∧
        ClassDistributionResponse.class_name e = "First" ∧
        ClassDistributionResponse.booking_count e
        = count (rows_of_class "First" df)) ∧
  ((∃ e, e ∈ AnalyticsDashboardResponse.popular_routes r ∧
         entry_pair e = ("A", "B") ∧
         PopularRouteResponse.booking_count e
         = count (rows_of_route "A" "B" df) ∧
         PopularRouteResponse.total_revenue e
         = inject_Z (sum (amounts (rows_of_route "A" "B" df)))) ∨
   (length (AnalyticsDashboardResponse.popular_routes r) = 10%nat ∧
    ∀ e, e ∈ AnalyticsDashboardResponse.popular_routes r →
         count (rows_of_route "A" "B" df)
         ≤ PopularRouteResponse.booking_count e)).
Proof.
  intros r df.
  assert (1 ≤ 1 ≤ 365) as H1 by lia.
  assert (dated_record one_booking_db 738960 booking_ab) as H2.
  { exists (mkBooking 1 1 1 738960 1 2 1 1 100 11 "1A").
    split; [left|]. split; [|done].
    apply elem_of_record_rows. vm_compute. left. }
  split; [exact H1|]. split; [exact H2|].
  pose proof (C7_dashboard_closed_window 738960 738960
                one_booking_db one_booking_db one_booking_db one_booking_db
                1 H1) as (_ & _ & Ho & Hd & Hc & Hr).
  destruct (Ho booking_ab H2) as (Hin & Hn & _).
  destruct (Hd booking_ab H2) as (_ & Hday).
  destruct (Hc booking_ab H2) as (_ & e & He & Hname & Hcount & _).
  destruct (Hr booking_ab H2) as (_ & Hroute).
  split; [exact Hin|]. split; [exact Hn|]. split; [exact Hday|].
  split; [exists e; split; [exact He|split; [exact Hname|exact Hcount]]|].
  exact Hroute.
Defined.
